(** * Jablotron 100 protocol engine: a shallow embedding of
    [custom_components/jablotron100/jablotron.py] and the properties of its
    section decoder, device decoder, state store, read loop and command
    encoder.

    Python values are embedded as follows.
    - [int] is [Z]; [bytes] is [list byte]; [str] is [string].
    - A slice [p[a:b]] with non-negative bounds is [slice a b p]; slices
      never raise, they clamp to the length.
    - [dict] objects keyed by strings are [gmap string _]; the dictionary
      built by [_parse_sections_states_packet] is iterated in insertion
      order, so it is an association list.
    - A method that mutates [self] and cannot raise is a function
      [Engine -> Engine]; a method that may raise is a function in the monad
      [M], which threads the engine state and stops at the first raised
      exception, keeping the mutations made so far (as Python does).
    - Calls that leave the engine (entity state writes, the delayed save of
      the store, packets sent to the serial line, log records) are appended
      to the engine's trace. *)

From Stdlib Require Import ZArith List Ascii String Lia.
From Stdlib Require Import Strings.Byte.
From stdpp Require Import base numbers option list strings gmap pretty.
Import Stdlib.Init.Byte.

Local Open Scope Z_scope.

(** ** Python primitives *)

Abbreviation bytes := (list byte).

(** [p[a:b]] for [0 <= a], [0 <= b]. *)
Definition slice {A} (a b : nat) (p : list A) : list A :=
  take (b - a) (drop a p).

(** [s[a:b]] on a [str]. *)
Definition str_slice (a b : nat) (s : string) : string :=
  substring a (b - a) s.

Global Instance byte_eq_dec : EqDecision byte := Byte.byte_eq_dec.

(** The exceptions the embedded code can raise. *)
Inductive PyExc : Set :=
  | KeyError
  | IndexError
  | ValueError
  | OverflowError
  | OSError.

Global Instance PyExc_eq_dec : EqDecision PyExc.
Proof. solve_decision. Defined.

(** A pure computation that may raise. *)
Inductive Result (A : Type) : Type :=
  | Ok (a : A)
  | Raise (e : PyExc).
Arguments Ok {A} a.
Arguments Raise {A} e.

Definition rbind {A B} (r : Result A) (k : A -> Result B) : Result B :=
  match r with
  | Ok a => k a
  | Raise e => Raise e
  end.

(** [sys.byteorder] *)
Inductive ByteOrder : Set := little | big.

Definition byte_to_Z (b : byte) : Z := Z.of_N (Byte.to_N b).

(** [int.from_bytes(p, "little")] *)
Fixpoint from_bytes_little (p : bytes) : Z :=
  match p with
  | [] => 0
  | b :: rest => byte_to_Z b + 256 * from_bytes_little rest
  end.

(** [int.from_bytes(p, byteorder)] *)
Definition from_bytes (p : bytes) (order : ByteOrder) : Z :=
  match order with
  | little => from_bytes_little p
  | big => from_bytes_little (rev p)
  end.

(** [int.to_bytes(number, 1, byteorder)]: one byte, [OverflowError] when the
    number does not fit. *)
Definition to_bytes_1 (number : Z) : Result bytes :=
  if bool_decide (0 <= number) then
    match Byte.of_N (Z.to_N number) with
    | Some b => Ok [b]
    | None => Raise OverflowError
    end
  else Raise OverflowError.

(** [int(a / b)] for [b > 0] and operands small enough for the float
    quotient to be exact below the next integer: truncation toward zero. *)
Definition int_truediv (a b : Z) : Z := Z.quot a b.

(** ** Constants of [homeassistant.const] *)

Definition STATE_ALARM_DISARMED : string := "disarmed".
Definition STATE_ALARM_ARMED_AWAY : string := "armed_away".
Definition STATE_ALARM_ARMED_NIGHT : string := "armed_night".
Definition STATE_ALARM_ARMING : string := "arming".
Definition STATE_ALARM_PENDING : string := "pending".
Definition STATE_ALARM_TRIGGERED : string := "triggered".
Definition STATE_OFF : string := "off".
Definition STATE_ON : string := "on".

(** ** Module constants *)

Definition JABLOTRON_PACKET_GET_SECTIONS_STATES : bytes := [x80; x01; x01; x52; x01; x0e].
Definition JABLOTRON_PACKET_SECTIONS_STATES_PREFIX : bytes := [x51; x22].
Definition JABLOTRON_PACKET_DEVICES_STATES_PREFIX : bytes := [xd8].
Definition JABLOTRON_PACKET_WIRED_DEVICE_STATE_PREFIX : bytes := [x55; x08].
Definition JABLOTRON_PACKET_WIRELESS_DEVICE_STATE_PREFIX : bytes := [x55; x09].
Definition JABLOTRON_PACKET_INFO_PREFIX : bytes := [x40].
Definition JABLOTRON_PACKETS_DEVICE_ACTIVITY : list bytes :=
  [[x00]; [x01]; [x0a]; [x0c]; [x24]; [x3e]; [x80]; [x81]; [xa3]; [xa4]; [xa6]; [xbe]].

Definition JABLOTRON_SECTION_PRIMARY_STATE_DISARMED : Z := 1.
Definition JABLOTRON_SECTION_PRIMARY_STATE_ARMED_PARTIALLY : Z := 2.
Definition JABLOTRON_SECTION_PRIMARY_STATE_ARMED_FULL : Z := 3.
Definition JABLOTRON_SECTION_PRIMARY_STATE_TRIGGERED : Z := 11.
Definition JABLOTRON_SECTION_PRIMARY_STATES : list Z :=
  [JABLOTRON_SECTION_PRIMARY_STATE_DISARMED;
   JABLOTRON_SECTION_PRIMARY_STATE_ARMED_PARTIALLY;
   JABLOTRON_SECTION_PRIMARY_STATE_ARMED_FULL;
   JABLOTRON_SECTION_PRIMARY_STATE_TRIGGERED].

Definition JABLOTRON_SECTION_SECONDARY_STATE_OK : Z := 0.
Definition JABLOTRON_SECTION_SECONDARY_STATE_TRIGGERED : Z := 1.
Definition JABLOTRON_SECTION_SECONDARY_STATE_PROBLEM : Z := 2.
Definition JABLOTRON_SECTION_SECONDARY_STATE_PENDING : Z := 4.
Definition JABLOTRON_SECTION_SECONDARY_STATE_ARMING : Z := 8.
Definition JABLOTRON_SECTION_SECONDARY_STATES : list Z :=
  [JABLOTRON_SECTION_SECONDARY_STATE_OK;
   JABLOTRON_SECTION_SECONDARY_STATE_TRIGGERED;
   JABLOTRON_SECTION_SECONDARY_STATE_PROBLEM;
   JABLOTRON_SECTION_SECONDARY_STATE_PENDING;
   JABLOTRON_SECTION_SECONDARY_STATE_ARMING].

Definition JABLOTRON_SECTION_TERTIARY_STATE_OFF : Z := 0.
Definition JABLOTRON_SECTION_TERTIARY_STATE_ON : Z := 1.
Definition JABLOTRON_SECTION_TERTIARY_STATE_TRIGGERED : Z := 17.
Definition JABLOTRON_SECTION_TERTIARY_STATES : list Z :=
  [JABLOTRON_SECTION_TERTIARY_STATE_OFF;
   JABLOTRON_SECTION_TERTIARY_STATE_ON;
   JABLOTRON_SECTION_TERTIARY_STATE_TRIGGERED].

(** The dictionary returned by [_parse_jablotron_section_state]. *)
Record SectionState : Set := {
  primary : Z;
  secondary : Z;
  tertiary : Z;
}.

(** ** Stateless helpers of class [Jablotron] *)

Section Codec.

Variable byteorder : ByteOrder.

Definition _int_to_bytes (number : Z) : Result bytes := to_bytes_1 number.

Definition _bytes_to_int (packet : bytes) : Z := from_bytes packet byteorder.

Definition _is_device_state_packet (prefix : bytes) : bool :=
  bool_decide (prefix = JABLOTRON_PACKET_WIRED_DEVICE_STATE_PREFIX)
  || bool_decide (prefix = JABLOTRON_PACKET_WIRELESS_DEVICE_STATE_PREFIX).

Definition _is_device_state_packet_for_activity (packet : bytes) : bool :=
  bool_decide (slice 2 3 packet ∈ JABLOTRON_PACKETS_DEVICE_ACTIVITY).

Definition _is_device_state_packet_for_sabotage (packet : bytes) : bool :=
  bool_decide (_bytes_to_int (slice 2 3 packet) `mod` 128 = 6).

Definition _is_device_state_packet_for_fault (packet : bytes) : bool :=
  bool_decide (_bytes_to_int (slice 2 3 packet) `mod` 128 = 7).

Definition _parse_device_number_from_state_packet (packet : bytes) : Z :=
  int_truediv (_bytes_to_int (slice 4 6 packet)) 64.

Definition _convert_jablotron_device_state_to_state
    (packet : bytes) (device_number : Z) : option string :=
  let state := _bytes_to_int (slice 3 4 packet) in
  let high_device_number_offset :=
    if bool_decide (device_number <= 36) then 0
    else if bool_decide (device_number <= 96) then -64
    else -128 in
  let device_states_offset := ((device_number + high_device_number_offset) * 4) + 104 in
  let on_state := device_states_offset in
  let on_state_2 := device_states_offset + 1 in
  let off_state := device_states_offset + 2 in
  let off_state_2 := device_states_offset + 3 in
  if bool_decide (state = off_state) || bool_decide (state = off_state_2) then
    Some STATE_OFF
  else if bool_decide (state = on_state) || bool_decide (state = on_state_2) then
    Some STATE_ON
  else None.

Definition _is_known_section_state (state : SectionState) : bool :=
  bool_decide (primary state ∈ JABLOTRON_SECTION_PRIMARY_STATES)
  && bool_decide (secondary state ∈ JABLOTRON_SECTION_SECONDARY_STATES)
  && bool_decide (tertiary state ∈ JABLOTRON_SECTION_TERTIARY_STATES).

Definition _convert_jablotron_section_state_to_alarm_state (state : SectionState) : string :=
  if bool_decide (primary state = JABLOTRON_SECTION_PRIMARY_STATE_TRIGGERED)
     || bool_decide (secondary state = JABLOTRON_SECTION_SECONDARY_STATE_TRIGGERED)
  then STATE_ALARM_TRIGGERED
  else if bool_decide (secondary state = JABLOTRON_SECTION_SECONDARY_STATE_ARMING)
  then STATE_ALARM_ARMING
  else if bool_decide (secondary state = JABLOTRON_SECTION_SECONDARY_STATE_PENDING)
  then STATE_ALARM_PENDING
  else if bool_decide (primary state = JABLOTRON_SECTION_PRIMARY_STATE_ARMED_FULL)
  then
    if bool_decide (tertiary state = JABLOTRON_SECTION_TERTIARY_STATE_ON)
    then STATE_ALARM_TRIGGERED
    else STATE_ALARM_ARMED_AWAY
  else if bool_decide (primary state = JABLOTRON_SECTION_PRIMARY_STATE_ARMED_PARTIALLY)
  then STATE_ALARM_ARMED_NIGHT
  else STATE_ALARM_DISARMED.

Definition _convert_jablotron_section_state_to_problem_sensor_state
    (state : SectionState) : string :=
  if bool_decide (secondary state = JABLOTRON_SECTION_SECONDARY_STATE_PROBLEM)
  then STATE_ON else STATE_OFF.

Definition _parse_jablotron_section_state (packet : bytes) : SectionState :=
  let first_packet := slice 0 1 packet in
  let number := _bytes_to_int first_packet in
  let primary_state := number `mod` 16 in
  let secondary_state := int_truediv (number - primary_state) 16 in
  {| primary := primary_state;
     secondary := secondary_state;
     tertiary := _bytes_to_int (slice 1 2 packet) |}.

End Codec.

(** ** [int(str)] and [int(str, 16)]

    A [string] stands for a [str] whose code points are below 256.  The
    parser follows CPython: surrounding white space is dropped, one sign is
    accepted, base 16 accepts a [0x] prefix, digits may be separated by
    single underscores, and anything else raises [ValueError]. *)

Definition py_is_space (c : ascii) : bool :=
  let n := nat_of_ascii c in
  bool_decide (n ∈ [9; 10; 11; 12; 13; 32; 133; 160]%nat).

Definition py_digit_value (c : ascii) : option Z :=
  let n := Z.of_nat (nat_of_ascii c) in
  if bool_decide (48 <= n <= 57) then Some (n - 48)
  else if bool_decide (97 <= n <= 122) then Some (n - 97 + 10)
  else if bool_decide (65 <= n <= 90) then Some (n - 65 + 10)
  else None.

Fixpoint py_lstrip (s : list ascii) : list ascii :=
  match s with
  | c :: rest => if py_is_space c then py_lstrip rest else s
  | [] => []
  end.

Definition py_strip (s : list ascii) : list ascii :=
  rev (py_lstrip (rev (py_lstrip s))).

(** Digits with single underscores between them; [prev_digit] tells whether
    the previous character was a digit. *)
Fixpoint py_parse_digits (base : Z) (s : list ascii) (acc : Z) (prev_digit : bool)
    : option Z :=
  match s with
  | [] => if prev_digit then Some acc else None
  | c :: rest =>
      if bool_decide (c = "_"%char) then
        if prev_digit then py_parse_digits base rest acc false else None
      else
        match py_digit_value c with
        | Some d =>
            if bool_decide (d < base)
            then py_parse_digits base rest (acc * base + d) true
            else None
        | None => None
        end
  end.

Definition py_int (s : string) (base : Z) : Result Z :=
  let s := py_strip (list_ascii_of_string s) in
  let '(negative, s) :=
    match s with
    | c :: rest =>
        if bool_decide (c = "+"%char) then (false, rest)
        else if bool_decide (c = "-"%char) then (true, rest)
        else (false, s)
    | [] => (false, s)
    end in
  let s :=
    match s with
    | c0 :: c1 :: rest =>
        if bool_decide (base = 16) && bool_decide (c0 = "0"%char)
           && (bool_decide (c1 = "x"%char) || bool_decide (c1 = "X"%char))
        then match rest with
             | c2 :: rest' => if bool_decide (c2 = "_"%char) then rest' else rest
             | [] => rest
             end
        else s
    | _ => s
    end in
  match py_parse_digits base s 0 false with
  | Some v => Ok (if negative then - v else v)
  | None => Raise ValueError
  end.

(** [bin(n)[2:]] for [n >= 0]. *)
Fixpoint bin_positive (p : positive) (acc : string) : string :=
  match p with
  | xH => String "1" acc
  | xO q => bin_positive q (String "0" acc)
  | xI q => bin_positive q (String "1" acc)
  end.

Definition py_bin_digits (n : Z) : string :=
  match n with
  | Zpos p => bin_positive p ""
  | _ => "0"
  end.

(** [s.zfill(width)] for a string without sign. *)
Definition py_zfill (width : nat) (s : string) : string :=
  string_of_list_ascii (replicate (width - String.length s) "0"%char) +:+ s.

Section Static.

Variable byteorder : ByteOrder.

(** [MAX_SECTIONS] of [const.py]. *)
Variable MAX_SECTIONS : Z.

Definition CODE_PACKET_PREFIX : bytes := [x80; x08; x03; x39; x39; x39].

(** One round of the loop of [_create_code_packet]. *)
Definition code_packet_round (code : string) (i : nat) (code_packet : bytes)
    : Result bytes :=
  let j := (i + 4)%nat in
  let first_number := str_slice j (j + 1) code in
  let second_number := str_slice i (i + 1) code in
  rbind
    (if bool_decide (first_number = "")
     then rbind (py_int second_number 10) (fun n => Ok (48 + n))
     else py_int (first_number +:+ second_number) 16)
    (fun code_number =>
       rbind (_int_to_bytes code_number)
             (fun b => Ok (code_packet ++ b))).

Definition _create_code_packet (code : string) : Result bytes :=
  fold_left (fun acc i => rbind acc (code_packet_round code i))
            (seq 0 4) (Ok CODE_PACKET_PREFIX).

Definition _hex_to_bin (hex : bytes) : string :=
  let dec := _bytes_to_int byteorder hex in
  let bin_string := py_bin_digits dec in
  let bin_string := py_zfill (length hex * 8) bin_string in
  String.rev bin_string.

(** The loop of [_parse_sections_states_packet] over the remaining
    section numbers; the dictionary is built in this order. *)
Fixpoint sections_states_scan (packet : bytes) (sections : list Z)
    : list (Z * bytes) :=
  match sections with
  | [] => []
  | section :: rest =>
      let state_offset := Z.to_nat (section * 2) in
      let state := slice state_offset (state_offset + 2) packet in
      if bool_decide (state = [x07; x00]) then []
      else (section, state) :: sections_states_scan packet rest
  end.

Definition _parse_sections_states_packet (packet : bytes) : list (Z * bytes) :=
  sections_states_scan packet (seqZ 1 MAX_SECTIONS).

Definition _create_section_alarm_id (section : Z) : string :=
  "section_" +:+ pretty section.

Definition _create_section_problem_sensor_id (section : Z) : string :=
  "section_problem_sensor_" +:+ pretty section.

Definition _create_device_sensor_id (device_number : Z) : string :=
  "device_sensor_" +:+ pretty device_number.

Definition _create_device_problem_sensor_id (device_number : Z) : string :=
  "device_problem_sensor_" +:+ pretty device_number.

Definition _create_lan_connection_id : string := "lan".

End Static.

(** ** The engine object *)

(** [self._config] *)
Record Config : Type := {
  CONF_SERIAL_PORT : string;
  CONF_PASSWORD : string;
  CONF_NUMBER_OF_DEVICES : Z;
  CONF_DEVICES : list string;
}.

(** What [self._stored_data[serial_port]] holds under the key ["states"].
    [_load_stored_data] makes [self.states] the very dictionary found there,
    so after a load both names denote one object. *)
Inductive StoredStates : Type :=
  | StoredNoPort                          (* no entry for the serial port *)
  | StoredNoStates                        (* an entry without the key "states" *)
  | StoredAliased                         (* the object [self.states] *)
  | StoredOwn (m : gmap string string).   (* a dictionary of its own *)

(** Calls that leave the engine. *)
Inductive Event : Type :=
  | EvUpdateAllEntities (available : bool) (ids : list string)
      (* [_update_all_entities()]: [async_write_ha_state()] on every
         subscribed entity, which reports [last_update_success] as its
         availability *)
  | EvWriteHaState (id : string)
      (* [self._entities[id].async_write_ha_state()] *)
  | EvDelaySave
      (* [self._store.async_delay_save(...)] *)
  | EvSendPacket (packet : bytes)
      (* [_send_packet(packet)] *)
  | EvLogError
  | EvLogDebug.

Global Instance Event_eq_dec : EqDecision Event.
Proof. solve_decision. Defined.

Record Engine : Type := {
  _config : Config;
  _central_unit_model : string;           (* [self._central_unit.model] *)
  _entities : list string;                (* keys of [self._entities], in order *)
  _stored_data : StoredStates;
  states : gmap string string;
  last_update_success : bool;
  trace : list Event;
}.

Definition set_states (f : gmap string string -> gmap string string) (e : Engine) : Engine :=
  {| _config := _config e; _central_unit_model := _central_unit_model e;
     _entities := _entities e; _stored_data := _stored_data e;
     states := f (states e); last_update_success := last_update_success e;
     trace := trace e |}.

Definition set_stored_data (d : StoredStates) (e : Engine) : Engine :=
  {| _config := _config e; _central_unit_model := _central_unit_model e;
     _entities := _entities e; _stored_data := d;
     states := states e; last_update_success := last_update_success e;
     trace := trace e |}.

Definition set_last_update_success (b : bool) (e : Engine) : Engine :=
  {| _config := _config e; _central_unit_model := _central_unit_model e;
     _entities := _entities e; _stored_data := _stored_data e;
     states := states e; last_update_success := b;
     trace := trace e |}.

Definition emit (ev : Event) (e : Engine) : Engine :=
  {| _config := _config e; _central_unit_model := _central_unit_model e;
     _entities := _entities e; _stored_data := _stored_data e;
     states := states e; last_update_success := last_update_success e;
     trace := trace e ++ [ev] |}.

(** Methods that may raise run in [M]: the engine is threaded through and
    the first exception ends the computation. *)
Definition M (A : Type) : Type := Engine -> Engine * Result A.

Definition ret {A} (a : A) : M A := fun e => (e, Ok a).

Definition bind {A B} (m : M A) (k : A -> M B) : M B :=
  fun e =>
    match m e with
    | (e', Ok a) => k a e'
    | (e', Raise x) => (e', Raise x)
    end.

Definition modify (f : Engine -> Engine) : M unit := fun e => (f e, Ok tt).

Definition read {A} (f : Engine -> A) : M A := fun e => (e, Ok (f e)).

Definition lift {A} (f : Engine -> Result A) : M A := fun e => (e, f e).

Notation "'let*' x := m 'in' k" := (bind m (fun x => k))
  (at level 10, x binder, m at level 100, k at level 200).
Notation "m >> k" := (bind m (fun _ => k))
  (at level 100, k at level 200, right associativity).

(** [for x in xs: body(x)] *)
Fixpoint for_each {A} (xs : list A) (body : A -> M unit) : M unit :=
  match xs with
  | [] => ret tt
  | x :: rest => body x >> for_each rest body
  end.

(** [l[i]] on a Python list. *)
Definition py_index {A} (l : list A) (i : Z) : Result A :=
  let i' := if bool_decide (i < 0) then i + Z.of_nat (length l) else i in
  if bool_decide (0 <= i') then
    match l !! Z.to_nat i' with
    | Some x => Ok x
    | None => Raise IndexError
    end
  else Raise IndexError.

(** ** Methods of class [Jablotron] *)

Section Methods.

Variable byteorder : ByteOrder.

(** Constants of [const.py]. *)
Variable MAX_SECTIONS : Z.
Variables DEVICE_KEYPAD DEVICE_SIREN_OUTDOOR DEVICE_OTHER DEVICE_EMPTY : string.

Definition _update_all_entities (e : Engine) : Engine :=
  emit (EvUpdateAllEntities (last_update_success e) (_entities e)) e.

Definition _send_packet (packet : bytes) (e : Engine) : Engine :=
  emit (EvSendPacket packet) e.

Definition _store_state (id state : string) (e : Engine) : Engine :=
  let e :=
    match _stored_data e with
    | StoredNoPort => set_stored_data StoredNoStates e
    | _ => e
    end in
  let e :=
    match _stored_data e with
    | StoredNoStates => set_stored_data (StoredOwn ∅) e
    | _ => e
    end in
  let e :=
    match _stored_data e with
    | StoredOwn m => set_stored_data (StoredOwn (<[id := state]> m)) e
    | _ => set_states (<[id := state]>) e
    end in
  emit EvDelaySave e.

Definition _update_state (id state : string) (store_state : bool) (e : Engine) : Engine :=
  if bool_decide (id ∈ dom (states e)) && bool_decide (Some state = states e !! id)
  then e
  else
    let e := set_states (<[id := state]>) e in
    let e := if bool_decide (id ∈ _entities e) then emit (EvWriteHaState id) e else e in
    if store_state then _store_state id state e else e.

Definition _get_device_type (number : Z) (e : Engine) : Result string :=
  py_index (CONF_DEVICES (_config e)) (number - 1).

Definition _is_device_ignored (number : Z) (e : Engine) : Result bool :=
  rbind (_get_device_type number e) (fun type =>
    Ok (bool_decide (type ∈ [DEVICE_KEYPAD; DEVICE_OTHER; DEVICE_EMPTY]))).

Definition _is_device_with_activity_sensor (number : Z) (e : Engine) : Result bool :=
  rbind (_get_device_type number e) (fun type =>
    Ok (negb (bool_decide (type ∈ [DEVICE_SIREN_OUTDOOR])))).

Definition _get_lan_connection_device_number (e : Engine) : option Z :=
  if bool_decide (_central_unit_model e = "JA-101K-LAN") then Some 125 else None.

(** The body of the loop of [_parse_section_states_packet]. *)
Definition section_states_round (entry : Z * bytes) (e : Engine) : Engine :=
  let '(section, section_packet) := entry in
  let section_state := _parse_jablotron_section_state byteorder section_packet in
  let e := if negb (_is_known_section_state section_state) then emit EvLogError e else e in
  let e :=
    _update_state
      (_create_section_alarm_id section)
      (_convert_jablotron_section_state_to_alarm_state section_state)
      false e in
  if bool_decide (secondary section_state = JABLOTRON_SECTION_SECONDARY_STATE_OK)
     || bool_decide (secondary section_state = JABLOTRON_SECTION_SECONDARY_STATE_PROBLEM)
  then
    _update_state
      (_create_section_problem_sensor_id section)
      (_convert_jablotron_section_state_to_problem_sensor_state section_state)
      false e
  else e.

Definition _parse_section_states_packet (packet : bytes) (e : Engine) : Engine :=
  let section_states := _parse_sections_states_packet MAX_SECTIONS packet in
  fold_left (fun e entry => section_states_round entry e) section_states e.

(** The log records are taken not to raise: the message of the "ignored
    device" record looks the device type up in [DEVICES] of [const.py]. *)
Definition _parse_device_state_packet (packet : bytes) : M unit :=
  let device_number := _parse_device_number_from_state_packet byteorder packet in
  if bool_decide (device_number = 0) then modify (emit EvLogDebug)
  else
    let* lan_connection_device_number := read _get_lan_connection_device_number in
    let is_lan_connection_device :=
      bool_decide (lan_connection_device_number = Some device_number) in
    let* rejected :=
      if negb is_lan_connection_device then
        let* number_of_devices := read (fun e => CONF_NUMBER_OF_DEVICES (_config e)) in
        if bool_decide (device_number > number_of_devices)
        then modify (emit EvLogDebug) >> ret true
        else
          let* ignored := lift (_is_device_ignored device_number) in
          if ignored then modify (emit EvLogDebug) >> ret true else ret false
      else ret false in
    if rejected : bool then ret tt
    else
      match _convert_jablotron_device_state_to_state byteorder packet device_number with
      | None => modify (emit EvLogError)
      | Some device_state =>
          if is_lan_connection_device then
            modify (_update_state
                      _create_lan_connection_id
                      (if bool_decide (device_state = STATE_OFF) then STATE_ON else STATE_OFF)
                      true)
          else
            let* with_activity_sensor := lift (_is_device_with_activity_sensor device_number) in
            if with_activity_sensor && _is_device_state_packet_for_activity packet then
              modify (_update_state (_create_device_sensor_id device_number) device_state false)
            else if _is_device_state_packet_for_sabotage byteorder packet
                    || _is_device_state_packet_for_fault byteorder packet then
              modify (_update_state (_create_device_problem_sensor_id device_number)
                                    device_state true)
            else modify (emit EvLogError)
      end.

(** The body of the loop of [_parse_devices_states_packet]. *)
Definition devices_states_round (bin_states : string) (i : Z) (e : Engine) : Engine :=
  let device_state :=
    if bool_decide (str_slice (Z.to_nat i) (Z.to_nat (i + 1)) bin_states = "1")
    then STATE_ON else STATE_OFF in
  if bool_decide (device_state = STATE_OFF)
  then _update_state (_create_device_sensor_id i) device_state false e
  else e.

Definition _parse_devices_states_packet (packet : bytes) : M unit :=
  let states_start_packet := 3 in
  let triggered_device_start_packet :=
    states_start_packet + _bytes_to_int byteorder (slice 1 2 packet) - 1 in
  let bin_states :=
    _hex_to_bin byteorder
      (slice (Z.to_nat states_start_packet) (Z.to_nat triggered_device_start_packet) packet) in
  (if _is_device_state_packet
        (slice (Z.to_nat triggered_device_start_packet)
               (Z.to_nat (triggered_device_start_packet + 2)) packet)
   then _parse_device_state_packet (drop (Z.to_nat triggered_device_start_packet) packet)
   else ret tt) >>
  let* number_of_devices := read (fun e => CONF_NUMBER_OF_DEVICES (_config e)) in
  modify (fun e =>
    fold_left (fun e i => devices_states_round bin_states i e)
              (seqZ 1 number_of_devices) e).

End Methods.

Section Commands.

Variable byteorder : ByteOrder.
Variable MAX_SECTIONS : Z.
Variables DEVICE_KEYPAD DEVICE_SIREN_OUTDOOR DEVICE_OTHER DEVICE_EMPTY : string.

(** The dictionary literal of [modify_alarm_control_panel_section_state]. *)
Definition int_packets : list (string * Z) :=
  [(STATE_ALARM_DISARMED, 143);
   (STATE_ALARM_ARMED_AWAY, 159);
   (STATE_ALARM_ARMED_NIGHT, 175)].

(** [d[key]] on a dictionary literal with distinct keys. *)
Definition py_getitem {A} (d : list (string * A)) (key : string) : Result A :=
  match (list_to_map d : gmap string A) !! key with
  | Some v => Ok v
  | None => Raise KeyError
  end.

Definition COMMAND_PREFIX : bytes := [x80; x02; x0d].

Definition modify_alarm_control_panel_section_state
    (section : Z) (state : string) (code : option string) : M unit :=
  let* code :=
    match code with
    | None => read (fun e => CONF_PASSWORD (_config e))
    | Some c => ret c
    end in
  let* base := lift (fun _ => py_getitem int_packets state) in
  let* state_packet := lift (fun _ => _int_to_bytes (base + section)) in
  let* code_packet := lift (fun _ => _create_code_packet code) in
  modify (_send_packet (code_packet ++ COMMAND_PREFIX ++ state_packet)).

(** What [stream.read(PACKET_READ_SIZE)] delivers to one round of the
    read loop. *)
Inductive ReadOutcome : Type :=
  | ReadBytes (packet : bytes)
  | ReadRaises (x : PyExc).

(** The statements of [_read_packets] that follow the read, up to the end
    of the [try] block. *)
Definition read_packets_body (packet : bytes) : M unit :=
  if bool_decide (packet = []) then
    modify (set_last_update_success false) >> modify _update_all_entities
  else
    (let* success := read last_update_success in
     if negb success
     then modify (set_last_update_success true) >> modify _update_all_entities
     else ret tt) >>
    let prefix := slice 0 2 packet in
    if bool_decide (prefix = JABLOTRON_PACKET_SECTIONS_STATES_PREFIX) then
      modify (_parse_section_states_packet byteorder MAX_SECTIONS packet)
    else if _is_device_state_packet prefix then
      _parse_device_state_packet
        byteorder DEVICE_KEYPAD DEVICE_SIREN_OUTDOOR DEVICE_OTHER DEVICE_EMPTY packet >>
      for_each (seq 0 (length packet - 1)) (fun i =>
        let possible_sections_states_prefix := slice i (i + 2) packet in
        if bool_decide (possible_sections_states_prefix
                        = JABLOTRON_PACKET_SECTIONS_STATES_PREFIX)
        then modify (_parse_section_states_packet byteorder MAX_SECTIONS (drop i packet))
        else ret tt)
    else if bool_decide (slice 0 1 packet = JABLOTRON_PACKET_DEVICES_STATES_PREFIX) then
      _parse_devices_states_packet
        byteorder DEVICE_KEYPAD DEVICE_SIREN_OUTDOOR DEVICE_OTHER DEVICE_EMPTY packet
    else ret tt.

(** One round of the read loop: the read, the body, and the handler of
    [except Exception].  The hourly reopening of the stream, the updating
    event and the pause between rounds do not touch the engine state and are
    left out. *)
Definition read_packets_round (r : ReadOutcome) (e : Engine) : Engine :=
  let '(e', result) :=
    match r with
    | ReadBytes packet => read_packets_body packet e
    | ReadRaises x => (e, Raise x)
    end in
  match result with
  | Ok _ => e'
  | Raise _ =>
      _update_all_entities (set_last_update_success false (emit EvLogError e'))
  end.

(** The read loop over the successive outcomes of the read. *)
Definition _read_packets (reads : list ReadOutcome) (e : Engine) : Engine :=
  fold_left (fun e r => read_packets_round r e) reads e.

End Commands.

(** * Detection, set-up and keepalive

    The parts of the module around the packet handlers.  Threads, time-outs
    and the serial device are outside the embedding: a reader loop is run
    over the list of the buffers its reads return, and what a set-up method
    receives from its reader thread is an argument. *)

(** ** [decode_info_bytes] *)

Definition JABLOTRON_INFO_MODEL : bytes := [x02].
Definition JABLOTRON_INFO_HARDWARE_VERSION : bytes := [x08].
Definition JABLOTRON_INFO_FIRMWARE_VERSION : bytes := [x09].

(** [letter.decode()] on a [bytes] of length one: UTF-8 accepts the byte
    when it is below 0x80; [None] stands for [UnicodeDecodeError]. *)
Definition decode_utf8_byte (b : byte) : option ascii :=
  if bool_decide (byte_to_Z b < 128) then Some (ascii_of_byte b) else None.

(** [decode_info_bytes(value)]; [None] stands for [UnicodeDecodeError]. *)
Fixpoint decode_info_bytes (value : bytes) : option string :=
  match value with
  | [] => Some ""
  | b :: rest =>
      let letter := [b] in
      if bool_decide (letter = [x00]) || bool_decide (letter = JABLOTRON_PACKET_INFO_PREFIX)
      then Some ""
      else
        match decode_utf8_byte b with
        | Some c =>
            match decode_info_bytes rest with
            | Some info => Some (String c info)
            | None => None
            end
        | None => None
        end
  end.

(** ** The reader of [check_serial_port] *)

(** The reader loop over the buffers read until the stop event:
    [detected_model]. *)
Fixpoint check_serial_port_reader (reads : list bytes) : option string :=
  match reads with
  | [] => None
  | packet :: rest =>
      if bool_decide (slice 0 1 packet = JABLOTRON_PACKET_INFO_PREFIX)
         && bool_decide (slice 2 3 packet = JABLOTRON_INFO_MODEL)
      then
        match decode_info_bytes (drop 3 packet) with
        | Some detected_model => Some detected_model
        | None => check_serial_port_reader rest
        end
      else check_serial_port_reader rest
  end.

(** ** The reader of [_detect_central_unit] *)

(** The locals [model], [hardware_version], [firmware_version]. *)
Record InfoFields : Type := {
  info_model : option string;
  info_hardware_version : option string;
  info_firmware_version : option string;
}.

(** [info_packets]: the suffixes of the buffer that start with the info
    prefix. *)
Definition info_packets_of (packet : bytes) : list bytes :=
  (fun i => drop i packet)
    <$> filter (fun i => slice i (i + 1) packet = JABLOTRON_PACKET_INFO_PREFIX)
               (seq 0 (length packet)).

(** The body of [for info_packet in info_packets]; a decoding error is
    passed over. *)
Definition read_info_packet (info_packet : bytes) (f : InfoFields) : InfoFields :=
  if bool_decide (slice 2 3 info_packet = JABLOTRON_INFO_MODEL) then
    match decode_info_bytes (drop 3 info_packet) with
    | Some text =>
        {| info_model := Some text;
           info_hardware_version := info_hardware_version f;
           info_firmware_version := info_firmware_version f |}
    | None => f
    end
  else if bool_decide (slice 2 3 info_packet = JABLOTRON_INFO_HARDWARE_VERSION) then
    match decode_info_bytes (drop 3 info_packet) with
    | Some text =>
        {| info_model := info_model f;
           info_hardware_version := Some text;
           info_firmware_version := info_firmware_version f |}
    | None => f
    end
  else if bool_decide (slice 2 3 info_packet = JABLOTRON_INFO_FIRMWARE_VERSION) then
    match decode_info_bytes (drop 3 info_packet) with
    | Some text =>
        {| info_model := info_model f;
           info_hardware_version := info_hardware_version f;
           info_firmware_version := Some text |}
    | None => f
    end
  else f.

(** What one read does to the three locals. *)
Definition detect_central_unit_round (packet : bytes) (f : InfoFields) : InfoFields :=
  if bool_decide (slice 0 1 packet = JABLOTRON_PACKET_INFO_PREFIX)
  then fold_left (fun f info_packet => read_info_packet info_packet f)
                 (info_packets_of packet) f
  else f.

Definition info_complete (f : InfoFields) : bool :=
  bool_decide (info_model f ≠ None)
  && bool_decide (info_hardware_version f ≠ None)
  && bool_decide (info_firmware_version f ≠ None).

(** The reader loop over the buffers read until the stop event. *)
Fixpoint detect_central_unit_reader (reads : list bytes) (f : InfoFields) : InfoFields :=
  match reads with
  | [] => f
  | packet :: rest =>
      let f := detect_central_unit_round packet f in
      if info_complete f then f else detect_central_unit_reader rest f
  end.

(** ** Stored data and initial states *)

(** What [self._store.async_load()] returned, seen from the serial port of
    the configuration. *)
Inductive LoadedData : Type :=
  | LoadedNone                             (* [None] *)
  | LoadedNoPort                           (* no entry for the serial port *)
  | LoadedNoStates                         (* an entry without the key "states" *)
  | LoadedStates (m : gmap string string). (* the dictionary under "states" *)

Definition _load_stored_data (loaded : LoadedData) (e : Engine) : Engine :=
  match loaded with
  | LoadedNone | LoadedNoPort => set_stored_data StoredNoPort e
  | LoadedNoStates => set_stored_data StoredNoStates e
  | LoadedStates m => set_states (fun _ => m) (set_stored_data StoredAliased e)
  end.

Definition _set_initial_state (id initial_state : string) (e : Engine) : Engine :=
  if bool_decide (id ∈ dom (states e)) then e
  else set_states (<[id := initial_state]>) e.

(** [self._entities[control_id] = entity] on the keys of the dictionary. *)
Definition substribe_entity_for_updates (control_id : string) (e : Engine) : Engine :=
  if bool_decide (control_id ∈ _entities e) then e
  else
    {| _config := _config e; _central_unit_model := _central_unit_model e;
       _entities := _entities e ++ [control_id]; _stored_data := _stored_data e;
       states := states e; last_update_success := last_update_success e;
       trace := trace e |}.

(** ** Class [JablotronEntity] *)

(** The property [state] of the entity of control [control_id]:
    [self._jablotron.states[self._control.id]]. *)
Definition entity_state (control_id : string) (e : Engine) : Result string :=
  match states e !! control_id with
  | Some state => Ok state
  | None => Raise KeyError
  end.

(** [update_state(state)] on the entity of control [control_id]. *)
Definition entity_update_state (control_id state : string) (e : Engine) : Engine :=
  emit (EvWriteHaState control_id) (set_states (<[control_id := state]>) e).

(** ** Controls *)

Record JablotronCentralUnit : Type := {
  serial_port : string;
  model : string;
  hardware_version : string;
  firmware_version : string;
}.

Record JablotronHassDevice : Type := {
  hass_device_id : string;
  hass_device_name : string;
}.

Record JablotronControl : Type := {
  control_central_unit : JablotronCentralUnit;
  control_hass_device : option JablotronHassDevice;
  control_id : string;
  control_name : string;
}.

Record JablotronDevice : Type := {
  device_control : JablotronControl;
  device_type : string;
}.

Record JablotronAlarmControlPanel : Type := {
  panel_control : JablotronControl;
  panel_section : Z;
}.

(** The engine object with the controls it creates at start-up; the model
    of [_central_unit] is the [_central_unit_model] of [engine]. *)
Record Jablotron : Type := {
  engine : Engine;
  _central_unit : JablotronCentralUnit;
  _alarm_control_panels : list JablotronAlarmControlPanel;
  _section_problem_sensors : list JablotronControl;
  _device_sensors : list JablotronDevice;
  _device_problem_sensors : list JablotronControl;
  _lan_connection : option JablotronControl;
}.

Definition with_engine (f : Engine -> Engine) (j : Jablotron) : Jablotron :=
  {| engine := f (engine j); _central_unit := _central_unit j;
     _alarm_control_panels := _alarm_control_panels j;
     _section_problem_sensors := _section_problem_sensors j;
     _device_sensors := _device_sensors j;
     _device_problem_sensors := _device_problem_sensors j;
     _lan_connection := _lan_connection j |}.

(** [str.lower()] on code points below 256. *)
Definition py_lower_char (c : ascii) : ascii :=
  let n := nat_of_ascii c in
  if bool_decide (65 <= n <= 90)%nat
     || (bool_decide (192 <= n <= 222)%nat && negb (bool_decide (n = 215%nat)))
  then ascii_of_nat (n + 32)
  else c.

Fixpoint py_lower (s : string) : string :=
  match s with
  | "" => ""
  | String c rest => String (py_lower_char c) (py_lower rest)
  end.

Definition _create_section_hass_device (section : Z) : JablotronHassDevice :=
  {| hass_device_id := "section_" +:+ pretty section;
     hass_device_name := "Section " +:+ pretty section |}.

Definition _create_section_alarm_name (section : Z) : string :=
  "Section " +:+ pretty section.

Definition _create_section_problem_sensor_name (section : Z) : string :=
  "Problem of section " +:+ pretty section.

Definition _create_lan_connection_name : string := "LAN connection".

(** What went wrong in a set-up method. *)
Inductive SetupExc : Type :=
  | ShouldNotHappen
  | SetupRaises (x : PyExc).

Section Setup.

Variable byteorder : ByteOrder.

(** Constants of [const.py]. *)
Variable MAX_SECTIONS : Z.
Variables DEVICE_KEYPAD DEVICE_SIREN_OUTDOOR DEVICE_OTHER DEVICE_EMPTY : string.
Variable DEVICES : list (string * string).

Definition _create_device_hass_device (device_type : string) (device_number : Z)
    : Result JablotronHassDevice :=
  rbind (py_getitem DEVICES device_type) (fun label =>
    Ok {| hass_device_id := "device_" +:+ pretty device_number;
          hass_device_name := label +:+ " (device " +:+ pretty device_number +:+ ")" |}).

Definition _create_device_sensor_name (device_type : string) (device_number : Z)
    : Result string :=
  rbind (py_getitem DEVICES device_type) (fun label =>
    Ok (label +:+ " (device " +:+ pretty device_number +:+ ")")).

Definition _create_device_problem_sensor_name (device_type : string) (device_number : Z)
    : Result string :=
  rbind (py_getitem DEVICES device_type) (fun label =>
    Ok ("Problem of " +:+ py_lower label +:+ " (device " +:+ pretty device_number +:+ ")")).

(** The body of the loop of [_detect_sections]. *)
Definition detect_sections_round (entry : Z * bytes) (j : Jablotron) : Jablotron :=
  let '(section, section_packet) := entry in
  let section_hass_device := _create_section_hass_device section in
  let section_alarm_id := _create_section_alarm_id section in
  let section_problem_sensor_id := _create_section_problem_sensor_id section in
  let panel :=
    {| panel_control :=
         {| control_central_unit := _central_unit j;
            control_hass_device := Some section_hass_device;
            control_id := section_alarm_id;
            control_name := _create_section_alarm_name section |};
       panel_section := section |} in
  let problem_sensor :=
    {| control_central_unit := _central_unit j;
       control_hass_device := Some section_hass_device;
       control_id := section_problem_sensor_id;
       control_name := _create_section_problem_sensor_name section |} in
  let section_state := _parse_jablotron_section_state byteorder section_packet in
  let e := engine j in
  let e := if negb (_is_known_section_state section_state) then emit EvLogError e else e in
  let e :=
    _set_initial_state section_alarm_id
      (_convert_jablotron_section_state_to_alarm_state section_state) e in
  let e :=
    _set_initial_state section_problem_sensor_id
      (_convert_jablotron_section_state_to_problem_sensor_state section_state) e in
  {| engine := e; _central_unit := _central_unit j;
     _alarm_control_panels := _alarm_control_panels j ++ [panel];
     _section_problem_sensors := _section_problem_sensors j ++ [problem_sensor];
     _device_sensors := _device_sensors j;
     _device_problem_sensors := _device_problem_sensors j;
     _lan_connection := _lan_connection j |}.

(** [_detect_sections], from the result of its reader thread on. *)
Definition _detect_sections (sections_states_packet : option bytes) (j : Jablotron)
    : Jablotron * option SetupExc :=
  match sections_states_packet with
  | None => (j, Some ShouldNotHappen)
  | Some packet =>
      (fold_left (fun j entry => detect_sections_round entry j)
                 (_parse_sections_states_packet MAX_SECTIONS packet) j,
       None)
  end.

(** The body of the loop of [_create_devices]; the engine object is
    returned as it is when a statement raises. *)
Definition create_devices_round (i : Z) (j : Jablotron) : Jablotron * option PyExc :=
  let number := i + 1 in
  match _is_device_ignored DEVICE_KEYPAD DEVICE_OTHER DEVICE_EMPTY number (engine j) with
  | Raise x => (j, Some x)
  | Ok true => (j, None)
  | Ok false =>
    match _get_device_type number (engine j) with
    | Raise x => (j, Some x)
    | Ok type =>
      match _create_device_hass_device type number with
      | Raise x => (j, Some x)
      | Ok hass_device =>
        let device_sensor_id := _create_device_sensor_id number in
        let device_problem_sensor_id := _create_device_problem_sensor_id number in
        match _is_device_with_activity_sensor DEVICE_SIREN_OUTDOOR number (engine j) with
        | Raise x => (j, Some x)
        | Ok with_activity_sensor =>
          match (if with_activity_sensor
                 then rbind (_create_device_sensor_name type number) (fun name =>
                        Ok (_device_sensors j ++
                            [{| device_control :=
                                  {| control_central_unit := _central_unit j;
                                     control_hass_device := Some hass_device;
                                     control_id := device_sensor_id;
                                     control_name := name |};
                                device_type := type |}]))
                 else Ok (_device_sensors j)) with
          | Raise x => (j, Some x)
          | Ok device_sensors =>
            let j1 :=
              {| engine := engine j; _central_unit := _central_unit j;
                 _alarm_control_panels := _alarm_control_panels j;
                 _section_problem_sensors := _section_problem_sensors j;
                 _device_sensors := device_sensors;
                 _device_problem_sensors := _device_problem_sensors j;
                 _lan_connection := _lan_connection j |} in
            match _create_device_problem_sensor_name type number with
            | Raise x => (j1, Some x)
            | Ok name =>
              ({| engine :=
                    _set_initial_state device_problem_sensor_id STATE_OFF
                      (_set_initial_state device_sensor_id STATE_OFF (engine j));
                  _central_unit := _central_unit j;
                  _alarm_control_panels := _alarm_control_panels j;
                  _section_problem_sensors := _section_problem_sensors j;
                  _device_sensors := device_sensors;
                  _device_problem_sensors :=
                    _device_problem_sensors j ++
                    [{| control_central_unit := _central_unit j;
                        control_hass_device := Some hass_device;
                        control_id := device_problem_sensor_id;
                        control_name := name |}];
                  _lan_connection := _lan_connection j |}, None)
            end
          end
        end
      end
    end
  end.

(** [for i in range(...)] with a body that may raise. *)
Fixpoint create_devices_loop (indices : list Z) (j : Jablotron) : Jablotron * option PyExc :=
  match indices with
  | [] => (j, None)
  | i :: rest =>
      match create_devices_round i j with
      | (j, None) => create_devices_loop rest j
      | (j, Some x) => (j, Some x)
      end
  end.

Definition _create_devices (j : Jablotron) : Jablotron * option PyExc :=
  create_devices_loop (seqZ 0 (CONF_NUMBER_OF_DEVICES (_config (engine j)))) j.

Definition _create_lan_connection (j : Jablotron) : Jablotron :=
  match _get_lan_connection_device_number (engine j) with
  | None => j
  | Some _ =>
      let id := _create_lan_connection_id in
      {| engine := _set_initial_state id STATE_ON (engine j);
         _central_unit := _central_unit j;
         _alarm_control_panels := _alarm_control_panels j;
         _section_problem_sensors := _section_problem_sensors j;
         _device_sensors := _device_sensors j;
         _device_problem_sensors := _device_problem_sensors j;
         _lan_connection :=
           Some {| control_central_unit := _central_unit j;
                   control_hass_device := None;
                   control_id := id;
                   control_name := _create_lan_connection_name |} |}
  end.

(** ** Keepalive *)

(** The loop of [_is_alarm_active] over the remaining panels; a section
    without a stored state raises [KeyError]. *)
Fixpoint is_alarm_active_loop (panels : list JablotronAlarmControlPanel) (e : Engine)
    : Result bool :=
  match panels with
  | [] => Ok false
  | alarm_control_panel :: rest =>
      let section_alarm_id := _create_section_alarm_id (panel_section alarm_control_panel) in
      match states e !! section_alarm_id with
      | None => Raise KeyError
      | Some state =>
          if bool_decide (state = STATE_ALARM_TRIGGERED)
             || bool_decide (state = STATE_ALARM_PENDING)
          then Ok true
          else is_alarm_active_loop rest e
      end
  end.

Definition _is_alarm_active (j : Jablotron) : Result bool :=
  is_alarm_active_loop (_alarm_control_panels j) (engine j).

Definition KEEPALIVE_STATUS_REQUEST : bytes := [x52; x02; x13; x05; x9a].
Definition KEEPALIVE_POLL : bytes := [x52; x01; x02].

(** One round of the loop of [_keepalive]: [updating] is what
    [_state_checker_data_updating_event.wait(0.5)] returned.  The opening of
    the serial device in [_send_packet] is taken to succeed. *)
Definition keepalive_round (updating : bool) (state : Z * Jablotron) : Z * Jablotron :=
  let '(counter, j) := state in
  let '(counter, j) :=
    if negb updating then
      let attempt : Result bytes :=
        if bool_decide (counter = 0) then
          rbind (_is_alarm_active j) (fun active =>
            if negb active then
              rbind (_create_code_packet (CONF_PASSWORD (_config (engine j))))
                    (fun code_packet => Ok (code_packet ++ KEEPALIVE_STATUS_REQUEST))
            else Ok KEEPALIVE_POLL)
        else Ok KEEPALIVE_POLL in
      let j :=
        match attempt with
        | Ok packet => with_engine (_send_packet packet) j
        | Raise _ => with_engine (emit EvLogError) j
        end in
      (counter + 1, j)
    else (counter, j) in
  if bool_decide (counter = 60) then (0, j) else (counter, j).

Definition _keepalive (waits : list bool) (j : Jablotron) : Z * Jablotron :=
  fold_left (fun state updating => keepalive_round updating state) waits (0, j).

End Setup.

(** * Vocabulary of the properties

    Names for the loops and parts of the methods above, for what a trace
    shows, and for the inputs the properties speak of. *)

(** ** Traces *)

(** Entity writes for one id, and delayed saves, in a trace. *)
Definition count_writes (id : string) (tr : list Event) : nat :=
  length (filter (fun ev => ev = EvWriteHaState id) tr).

Definition count_saves (tr : list Event) : nat :=
  length (filter (fun ev => ev = EvDelaySave) tr).

(** A health notification is a call of [_update_all_entities]; it reports
    the availability [last_update_success] had at that moment. *)
Definition is_health_notification (available : bool) (ev : Event) : bool :=
  match ev with
  | EvUpdateAllEntities b _ => Bool.eqb b available
  | _ => false
  end.

Definition health_notifications (available : bool) (tr : list Event) : nat :=
  length (List.filter (is_health_notification available) tr).

Definition is_update_all (ev : Event) : bool :=
  match ev with
  | EvUpdateAllEntities _ _ => true
  | _ => false
  end.

(** [e'] is reached from [e] without touching health: the flag, the
    configuration and the subscriptions are the same, and the trace grew by
    calls other than [_update_all_entities]. *)
Definition health_silent (e e' : Engine) : Prop :=
  last_update_success e' = last_update_success e
  ∧ _config e' = _config e
  ∧ _entities e' = _entities e
  ∧ ∃ evs, trace e' = trace e ++ evs ∧ Forall (fun ev => is_update_all ev = false) evs.

(** A computation in [M] that never touches health, whatever it returns. *)
Definition silent {A} (m : M A) : Prop := ∀ e, health_silent e (m e).1.

(** ** Parts of the methods *)

(** The device roster covers the configured number of devices. *)
Definition roster_complete (c : Config) : Prop :=
  CONF_NUMBER_OF_DEVICES c <= Z.of_nat (length (CONF_DEVICES c)).

(** The problem flag is written for these secondary states only. *)
Definition writes_problem_flag (s : SectionState) : Prop :=
  secondary s = JABLOTRON_SECTION_SECONDARY_STATE_OK
  ∨ secondary s = JABLOTRON_SECTION_SECONDARY_STATE_PROBLEM.

Global Instance writes_problem_flag_dec (s : SectionState) :
  Decision (writes_problem_flag s).
Proof. unfold writes_problem_flag. apply _. Defined.

(** The test the loop of [_parse_devices_states_packet] makes on device
    [i]: the character of the expanded bitfield at position [i] is ["1"]. *)
Definition bitfield_on (bin_states : string) (i : Z) : Prop :=
  str_slice (Z.to_nat i) (Z.to_nat (i + 1)) bin_states = "1".

Global Instance bitfield_on_dec (bin_states : string) (i : Z) :
  Decision (bitfield_on bin_states i).
Proof. unfold bitfield_on. apply _. Defined.

(** The loop of [_parse_devices_states_packet]. *)
Definition run_devices_rounds (bin_states : string) (l : list Z) (e : Engine) : Engine :=
  fold_left (fun e i => devices_states_round bin_states i e) l e.

(** The health update a non-empty read starts with. *)
Definition restore_health (e : Engine) : Engine :=
  if last_update_success e then e
  else _update_all_entities (set_last_update_success true e).

Section Parts.

Variable byteorder : ByteOrder.
Variable MAX_SECTIONS : Z.
Variables DEVICE_KEYPAD DEVICE_SIREN_OUTDOOR DEVICE_OTHER DEVICE_EMPTY : string.

(** The loop of [_parse_section_states_packet]. *)
Definition run_section_rounds (l : list (Z * bytes)) (e : Engine) : Engine :=
  fold_left (fun e entry => section_states_round byteorder entry e) l e.

(** Offset of the device-state packet that follows the bitfield. *)
Definition triggered_device_start (packet : bytes) : nat :=
  Z.to_nat (3 + _bytes_to_int byteorder (slice 1 2 packet) - 1).

(** The bytes of the bitfield. *)
Definition devices_states_field (packet : bytes) : bytes :=
  slice 3 (triggered_device_start packet) packet.

(** The first statement of [_parse_devices_states_packet] that touches the
    engine: the device-state packet found behind the bitfield, if any. *)
Definition devices_states_embedded (packet : bytes) : M unit :=
  if _is_device_state_packet
       (slice (triggered_device_start packet) (triggered_device_start packet + 2) packet)
  then _parse_device_state_packet
         byteorder DEVICE_KEYPAD DEVICE_SIREN_OUTDOOR DEVICE_OTHER DEVICE_EMPTY
         (drop (triggered_device_start packet) packet)
  else ret tt.

(** The statements of the read loop body that follow the health update. *)
Definition dispatch_packet (packet : bytes) : M unit :=
  let prefix := slice 0 2 packet in
  if bool_decide (prefix = JABLOTRON_PACKET_SECTIONS_STATES_PREFIX) then
    modify (_parse_section_states_packet byteorder MAX_SECTIONS packet)
  else if _is_device_state_packet prefix then
    _parse_device_state_packet
      byteorder DEVICE_KEYPAD DEVICE_SIREN_OUTDOOR DEVICE_OTHER DEVICE_EMPTY packet >>
    for_each (seq 0 (length packet - 1)) (fun i =>
      if bool_decide (slice i (i + 2) packet = JABLOTRON_PACKET_SECTIONS_STATES_PREFIX)
      then modify (_parse_section_states_packet byteorder MAX_SECTIONS (drop i packet))
      else ret tt)
  else if bool_decide (slice 0 1 packet = JABLOTRON_PACKET_DEVICES_STATES_PREFIX) then
    _parse_devices_states_packet
      byteorder DEVICE_KEYPAD DEVICE_SIREN_OUTDOOR DEVICE_OTHER DEVICE_EMPTY packet
  else ret tt.

End Parts.

(** ** The expanded bitfield *)

(** Binary digits of a positive number, least significant first. *)
Fixpoint lsb_digits (p : positive) : string :=
  match p with
  | xH => "1"
  | xO q => String "0" (lsb_digits q)
  | xI q => String "1" (lsb_digits q)
  end.

Definition zeros (k : nat) : string := string_of_list_ascii (replicate k "0"%char).

(** ** Codes of decimal digits *)

Definition is_decimal_digit (c : ascii) : bool :=
  (48 <=? nat_of_ascii c)%nat && (nat_of_ascii c <=? 57)%nat.

Definition digit_value (c : ascii) : Z := Z.of_nat (nat_of_ascii c) - 48.

(** The code consists of decimal digits. *)
Definition all_digits (code : string) : Prop :=
  Forall (fun c => is_decimal_digit c = true) (list_ascii_of_string code).

Definition digit_at (code : string) (i : nat) : option Z :=
  digit_value <$> String.get i code.

(** The value of code byte [i]: the digit at [i + 4] as high nibble over the
    digit at [i] when the code has a character at [i + 4], and 48 plus the
    digit at [i] when it has none. *)
Definition code_byte_value (code : string) (i : nat) : option Z :=
  match digit_at code i with
  | Some low =>
      match digit_at code (i + 4) with
      | Some high => Some (16 * high + low)
      | None => Some (48 + low)
      end
  | None => None
  end.

(** ** Decoding a command byte *)

(** The decoder the round-trip property speaks of (the source only encodes):
    the target states whose base code lies below [value] by a section number
    of 1..MAX_SECTIONS, each with that section number. *)
Definition decode_state_byte (MAX_SECTIONS : Z) (value : Z) : list (string * Z) :=
  omap (fun entry : string * Z =>
          if bool_decide (1 <= value - entry.2 <= MAX_SECTIONS)
          then Some (entry.1, value - entry.2)
          else None)
       int_packets.

(** ** Stored values *)

(** The state values of [homeassistant.const] the module uses. *)
Definition KNOWN_STATES : list string :=
  [STATE_ALARM_DISARMED; STATE_ALARM_ARMED_AWAY; STATE_ALARM_ARMED_NIGHT;
   STATE_ALARM_ARMING; STATE_ALARM_PENDING; STATE_ALARM_TRIGGERED;
   STATE_OFF; STATE_ON].

(** [e'] is reached from [e] by storing known state values only: the
    configuration, the central unit model and the subscriptions are the
    same, and every id either has the stored value it had or a known one. *)
Definition stores_known (e e' : Engine) : Prop :=
  _config e' = _config e
  ∧ _central_unit_model e' = _central_unit_model e
  ∧ _entities e' = _entities e
  ∧ ∀ id, states e' !! id = states e !! id
          ∨ ∃ v, states e' !! id = Some v ∧ v ∈ KNOWN_STATES.

(** A computation in [M] that only stores known values, whatever it
    returns. *)
Definition storing_known {A} (m : M A) : Prop := ∀ e, stores_known e (m e).1.

(** What the store would save for the serial port under "states". *)
Definition stored_states (e : Engine) : gmap string string :=
  match _stored_data e with
  | StoredAliased => states e
  | StoredOwn m => m
  | _ => ∅
  end.

(** ** Info replies *)

(** A text the central unit can send in an info reply: characters 1..127
    other than the info prefix ["@"]. *)
Definition info_char (c : ascii) : bool :=
  (0 <? nat_of_ascii c)%nat && (nat_of_ascii c <? 128)%nat
  && negb (Ascii.eqb c "@"%char).

Definition info_text (s : string) : Prop :=
  Forall (fun c => info_char c = true) (list_ascii_of_string s).

(** An info reply: prefix, one byte, the tag, the text, a zero byte. *)
Definition info_reply (second : byte) (tag : bytes) (text : string) : bytes :=
  x40 :: second :: tag ++ list_byte_of_string text ++ [x00].

(** The suffixes of a buffer that start with the info prefix, by recursion
    on the buffer. *)
Fixpoint info_suffixes (packet : bytes) : list bytes :=
  match packet with
  | [] => []
  | b :: rest =>
      if bool_decide (b = x40) then packet :: info_suffixes rest else info_suffixes rest
  end.

(** ** Keepalive traffic *)

Definition is_status_request (ev : Event) : bool :=
  match ev with
  | EvSendPacket packet =>
      bool_decide (drop 10 packet = KEEPALIVE_STATUS_REQUEST)
      && bool_decide (length packet = 15%nat)
  | _ => false
  end.

Definition status_requests (tr : list Event) : nat :=
  length (List.filter is_status_request tr).

Definition is_send (ev : Event) : bool :=
  match ev with
  | EvSendPacket _ => true
  | _ => false
  end.

(** The engine after the calls [evs] have left it, in this order. *)
Definition emit_all (evs : list Event) (e : Engine) : Engine :=
  fold_left (fun e ev => emit ev e) evs e.

(** The idle rounds from [counter] on in which the counter is 0:
    ceil((counter + rounds) / 60) - ceil(counter / 60). *)
Definition rounds_at_zero (counter rounds : Z) : Z :=
  (counter + rounds + 59) `div` 60 - (counter + 59) `div` 60.

(** Rounds of the keepalive loop in which no read is in flight. *)
Definition idle_rounds (waits : list bool) : nat :=
  length (List.filter negb waits).

(** Every alarm control panel has a stored state. *)
Definition panels_have_state (j : Jablotron) : Prop :=
  ∀ panel, panel ∈ _alarm_control_panels j →
    is_Some (states (engine j) !! _create_section_alarm_id (panel_section panel)).

(** ** Set-up *)

(** [e'] is reached from [e] by seeding states: a state is only added,
    never changed, and nothing leaves the engine but error logs. *)
Definition seeds_states (e e' : Engine) : Prop :=
  _config e' = _config e
  ∧ _central_unit_model e' = _central_unit_model e
  ∧ _entities e' = _entities e
  ∧ _stored_data e' = _stored_data e
  ∧ last_update_success e' = last_update_success e
  ∧ states e ⊆ states e'
  ∧ ∃ evs, trace e' = trace e ++ evs ∧ Forall (fun ev => ev = EvLogError) evs.

(** The state of [id] after [_set_initial_state]: the one it had, or the
    initial one. *)
Definition stored_or_initial (e : Engine) (id initial_state : string) : string :=
  default initial_state (states e !! id).

(** The type of device [number] in the roster. *)
Definition roster_type (c : Config) (number : Z) : option string :=
  CONF_DEVICES c !! Z.to_nat (number - 1).

(** Device [number] is in the roster with a type outside [excluded]. *)
Definition roster_keeps (excluded : list string) (c : Config) (number : Z) : bool :=
  match roster_type c number with
  | Some type => negb (bool_decide (type ∈ excluded))
  | None => false
  end.

(** Device [number] is in the roster, with a type that is excluded or has
    a label in [DEVICES]. *)
Definition roster_labelled (excluded : list string) (DEVICES : list (string * string))
    (c : Config) (number : Z) : bool :=
  match roster_type c number with
  | Some type => bool_decide (type ∈ excluded) || bool_decide (type ∈ DEVICES.*1)
  | None => false
  end.

(** The ids of the sections of the alarm control panels. *)
Definition panel_sections (j : Jablotron) : list Z :=
  panel_section <$> _alarm_control_panels j.

(** Some panel is in a state that counts as an active alarm. *)
Definition some_panel_active (j : Jablotron) : Prop :=
  ∃ section state,
    section ∈ panel_sections j
    ∧ states (engine j) !! _create_section_alarm_id section = Some state
    ∧ (state = STATE_ALARM_TRIGGERED ∨ state = STATE_ALARM_PENDING).

(** The ids of the controls the object has created. *)
Definition control_ids (j : Jablotron) : list string :=
  ((control_id ∘ panel_control) <$> _alarm_control_panels j)
  ++ (control_id <$> _section_problem_sensors j)
  ++ ((control_id ∘ device_control) <$> _device_sensors j)
  ++ (control_id <$> _device_problem_sensors j)
  ++ match _lan_connection j with
     | Some control => [control_id control]
     | None => []
     end.

(** Every control has a stored state. *)
Definition controls_have_state (j : Jablotron) : Prop :=
  Forall (fun id => is_Some (states (engine j) !! id)) (control_ids j).

(** ** Saved states *)

(** A computation in [M] whose engine stays related by [R], whatever it
    returns. *)
Definition keeps (R : Engine -> Engine -> Prop) {A} (m : M A) : Prop :=
  ∀ e, R e (m e).1.

(** The ids whose updates ask for a save: the LAN connection and the
    problem sensors of devices. *)
Definition is_saved_id (id : string) : Prop :=
  id = _create_lan_connection_id ∨ ∃ number, id = _create_device_problem_sensor_id number.

(** What is saved agrees with the live states, and a dictionary of its own
    holds saved ids only. *)
Definition saved_current (e : Engine) : Prop :=
  match _stored_data e with
  | StoredOwn m => m ⊆ states e ∧ ∀ id, id ∈ dom m → is_saved_id id
  | _ => True
  end.

(** From [e] to [e'] what is saved stays current, and the saved dictionary
    is the object [self.states] in both or in neither. *)
Definition saved_kept (e e' : Engine) : Prop :=
  (saved_current e → saved_current e')
  ∧ (_stored_data e = StoredAliased ↔ _stored_data e' = StoredAliased).

(** ** An engine to run the methods on *)

Definition example_engine : Engine :=
  {| _config := {| CONF_SERIAL_PORT := "/dev/hidraw0"; CONF_PASSWORD := "1234";
                   CONF_NUMBER_OF_DEVICES := 3;
                   CONF_DEVICES := ["motion"; "keypad"; "door"] |};
     _central_unit_model := "JA-101K";
     _entities := ["section_1"; "section_problem_sensor_1"; "device_sensor_1"];
     _stored_data := StoredNoPort;
     states := {[ "section_1" := STATE_ALARM_ARMED_AWAY;
                  "section_problem_sensor_1" := STATE_ON;
                  "device_sensor_1" := STATE_ON ]};
     last_update_success := true;
     trace := [] |}.

(** The same installation on a JA-101K-LAN, before any state is stored. *)
Definition example_lan_engine : Engine :=
  {| _config := _config example_engine;
     _central_unit_model := "JA-101K-LAN";
     _entities := _entities example_engine;
     _stored_data := StoredNoPort;
     states := ∅;
     last_update_success := true;
     trace := [] |}.

(** The object on [example_engine] before set-up: no controls yet. *)
Definition example_jablotron : Jablotron :=
  {| engine := example_engine;
     _central_unit :=
       {| serial_port := "/dev/hidraw0"; model := "JA-101K";
          hardware_version := "LJ60422"; firmware_version := "LJ60424" |};
     _alarm_control_panels := [];
     _section_problem_sensors := [];
     _device_sensors := [];
     _device_problem_sensors := [];
     _lan_connection := None |}.

(** * Properties *)

(** ** The embedding on concrete inputs *)

Example create_code_packet_1234 :
  _create_code_packet "1234" = Ok [x80; x08; x03; x39; x39; x39; x31; x32; x33; x34].
Proof. vm_compute. reflexivity. Qed.

Example create_code_packet_123 : _create_code_packet "123" = Raise ValueError.
Proof. vm_compute. reflexivity. Qed.

Example create_code_packet_12345678 :
  _create_code_packet "12345678" = Ok [x80; x08; x03; x39; x39; x39; x51; x62; x73; x84].
Proof. vm_compute. reflexivity. Qed.

Example hex_to_bin_little : _hex_to_bin little [x05; x80] = "1010000000000001".
Proof. vm_compute. reflexivity. Qed.

Example section_alarm_id_12 : _create_section_alarm_id 12 = "section_12".
Proof. vm_compute. reflexivity. Qed.

(** Slot 03 00: armed away.  Slot 0b 11: triggered. *)
Example section_slot_03_00 :
  _convert_jablotron_section_state_to_alarm_state
    (_parse_jablotron_section_state little [x03; x00]) = STATE_ALARM_ARMED_AWAY.
Proof. vm_compute. reflexivity. Qed.

Example section_slot_0b_11 :
  _convert_jablotron_section_state_to_alarm_state
    (_parse_jablotron_section_state little [x0b; x11]) = STATE_ALARM_TRIGGERED.
Proof. vm_compute. reflexivity. Qed.

(** Device numbers are the quotient by 64 of the two bytes at offset 4. *)
Example device_number_125 :
  _parse_device_number_from_state_packet little [x55; x09; x00; x00; x40; x1f] = 125.
Proof. vm_compute. reflexivity. Qed.

(** With more than 16 sections a command byte would have two readings. *)
Example decode_state_byte_17_sections :
  decode_state_byte 17 160 = [(STATE_ALARM_DISARMED, 17); (STATE_ALARM_ARMED_AWAY, 1)].
Proof. vm_compute. reflexivity. Qed.


(** ** Section state decoder *)

Lemma byte_to_Z_range (b : byte) : 0 <= byte_to_Z b < 256.
Proof.
  unfold byte_to_Z. pose proof (Byte.to_N_bounded b). lia.
Qed.

Lemma from_bytes_singleton (order : ByteOrder) (b : byte) :
  from_bytes [b] order = byte_to_Z b.
Proof. destruct order; simpl; lia. Qed.

Lemma from_bytes_nil (order : ByteOrder) : from_bytes [] order = 0.
Proof. by destruct order. Qed.

Lemma slice_0_1_cons {A} (x : A) (l : list A) : slice 0 1 (x :: l) = [x].
Proof. reflexivity. Qed.

Lemma slice_1_2_cons2 {A} (x y : A) (l : list A) : slice 1 2 (x :: y :: l) = [y].
Proof. reflexivity. Qed.

(** The nibble split of [_parse_jablotron_section_state] loses nothing. *)
Lemma nibble_split (n : Z) :
  0 <= n ->
  int_truediv (n - n `mod` 16) 16 = n `div` 16.
Proof.
  intros Hn. unfold int_truediv.
  pose proof (Z.mod_pos_bound n 16 ltac:(lia)) as Hm.
  pose proof (Z.mod_le n 16 Hn ltac:(lia)) as Hle.
  rewrite Z.quot_div_nonneg by lia.
  symmetry. apply (Z.div_unique _ 16 _ 0); [lia|].
  pose proof (Z.div_mod n 16 ltac:(lia)). lia.
Qed.

(** C1. The triplet-to-alarm-state mapping follows the priority order:
    primary 11 or secondary 1 gives triggered whatever the other fields
    are; otherwise secondary 8 gives arming; otherwise secondary 4 gives
    pending; otherwise primary 3 gives triggered when tertiary is 1 and
    armed_away when it is not; otherwise primary 2 gives armed_night; every
    remaining triplet, unrecognized primaries included, gives disarmed. *)
Theorem alarm_state_priority (s : SectionState) :
  let result := _convert_jablotron_section_state_to_alarm_state s in
  (primary s = 11 ∨ secondary s = 1 → result = STATE_ALARM_TRIGGERED)
  ∧ (¬ (primary s = 11 ∨ secondary s = 1) →
     (secondary s = 8 → result = STATE_ALARM_ARMING)
     ∧ (secondary s ≠ 8 →
        (secondary s = 4 → result = STATE_ALARM_PENDING)
        ∧ (secondary s ≠ 4 →
           (primary s = 3 → tertiary s = 1 → result = STATE_ALARM_TRIGGERED)
           ∧ (primary s = 3 → tertiary s ≠ 1 → result = STATE_ALARM_ARMED_AWAY)
           ∧ (primary s ≠ 3 →
              (primary s = 2 → result = STATE_ALARM_ARMED_NIGHT)
              ∧ (primary s ≠ 2 → result = STATE_ALARM_DISARMED))))).
Proof.
  destruct s as [p q t]; cbn [primary secondary tertiary].
  unfold _convert_jablotron_section_state_to_alarm_state,
    JABLOTRON_SECTION_PRIMARY_STATE_TRIGGERED, JABLOTRON_SECTION_SECONDARY_STATE_TRIGGERED,
    JABLOTRON_SECTION_SECONDARY_STATE_ARMING, JABLOTRON_SECTION_SECONDARY_STATE_PENDING,
    JABLOTRON_SECTION_PRIMARY_STATE_ARMED_FULL, JABLOTRON_SECTION_TERTIARY_STATE_ON,
    JABLOTRON_SECTION_PRIMARY_STATE_ARMED_PARTIALLY; cbn [primary secondary tertiary].
  repeat case_bool_decide; cbn [orb]; intuition (congruence || lia).
Qed.

(** C2. Decoding a section record is a total function of the record.  On a
    2-byte record [b0, b1] it gives primary = b0 mod 16, secondary =
    (b0 - primary) / 16 and tertiary = b1, not reduced; on a shorter record
    the missing bytes read as 0.  Primary and secondary are nibbles that
    rebuild b0. *)
Theorem parse_section_state_total (order : ByteOrder) (b0 b1 : byte) :
  let s := _parse_jablotron_section_state order [b0; b1] in
  (primary s = byte_to_Z b0 `mod` 16
   ∧ secondary s = (byte_to_Z b0 - primary s) `div` 16
   ∧ tertiary s = byte_to_Z b1
   ∧ 0 <= primary s < 16 ∧ 0 <= secondary s < 16
   ∧ byte_to_Z b0 = 16 * secondary s + primary s)
  ∧ _parse_jablotron_section_state order [b0]
    = {| primary := byte_to_Z b0 `mod` 16;
         secondary := (byte_to_Z b0 - byte_to_Z b0 `mod` 16) `div` 16;
         tertiary := 0 |}
  ∧ _parse_jablotron_section_state order []
    = {| primary := 0; secondary := 0; tertiary := 0 |}.
Proof.
  pose proof (byte_to_Z_range b0) as H0.
  pose proof (Z.mod_pos_bound (byte_to_Z b0) 16 ltac:(lia)) as Hm.
  pose proof (Z.mod_le (byte_to_Z b0) 16 ltac:(lia) ltac:(lia)) as Hle.
  assert (Hq : int_truediv (byte_to_Z b0 - byte_to_Z b0 `mod` 16) 16
               = (byte_to_Z b0 - byte_to_Z b0 `mod` 16) `div` 16).
  { unfold int_truediv. apply Z.quot_div_nonneg; lia. }
  assert (Hd : (byte_to_Z b0 - byte_to_Z b0 `mod` 16) `div` 16 = byte_to_Z b0 `div` 16).
  { rewrite <- Hq. apply nibble_split. lia. }
  unfold _parse_jablotron_section_state, _bytes_to_int.
  rewrite slice_0_1_cons, slice_1_2_cons2, !from_bytes_singleton.
  cbn [primary secondary tertiary]. rewrite Hq.
  repeat split; try lia.
  - rewrite Hd. apply Z.div_pos; lia.
  - rewrite Hd. apply Z.div_lt_upper_bound; lia.
  - rewrite Hd. pose proof (Z.div_mod (byte_to_Z b0) 16 ltac:(lia)). lia.
  - change (slice 0 1 [b0]) with [b0]. change (slice 1 2 [b0]) with (@nil byte).
    rewrite from_bytes_singleton, from_bytes_nil, Hq. reflexivity.
  - change (slice 0 1 (@nil byte)) with (@nil byte).
    change (slice 1 2 (@nil byte)) with (@nil byte).
    rewrite from_bytes_nil. reflexivity.
Qed.

(** ** Device state decoder *)

Lemma slice_3_4_lookup (packet : bytes) (b : byte) :
  packet !! 3%nat = Some b -> slice 3 4 packet = [b].
Proof.
  intros H. destruct packet as [|x0 [|x1 [|x2 [|x3 rest]]]]; try discriminate.
  simpl in H. injection H as ->. reflexivity.
Qed.

(** C6. On/off classification reads the state byte at offset 3, picks the
    correction of the device-number band (0 up to 36, -64 from 37 to 96,
    -128 above 96), forms base = (n + correction) * 4 + 104, and answers on
    exactly for base and base + 1, off exactly for base + 2 and base + 3,
    and nothing ([None]) for every other state byte. *)
Theorem device_state_classification
    (order : ByteOrder) (packet : bytes) (n : Z) (b : byte) :
  packet !! 3%nat = Some b ->
  ∃ correction : Z,
    (n <= 36 → correction = 0)
    ∧ (37 <= n <= 96 → correction = -64)
    ∧ (96 < n → correction = -128)
    ∧ let base := (n + correction) * 4 + 104 in
      let result := _convert_jablotron_device_state_to_state order packet n in
      (result = Some STATE_ON ↔ byte_to_Z b = base ∨ byte_to_Z b = base + 1)
      ∧ (result = Some STATE_OFF ↔ byte_to_Z b = base + 2 ∨ byte_to_Z b = base + 3)
      ∧ (result = None ↔ ¬ (base <= byte_to_Z b <= base + 3)).
Proof.
  intros Hb.
  exists (if bool_decide (n <= 36) then 0 else if bool_decide (n <= 96) then -64 else -128).
  split; [|split; [|split]].
  - intros. rewrite bool_decide_true by lia. reflexivity.
  - intros. rewrite bool_decide_false, bool_decide_true by lia. reflexivity.
  - intros. rewrite !bool_decide_false by lia. reflexivity.
  - unfold _convert_jablotron_device_state_to_state, _bytes_to_int.
    rewrite (slice_3_4_lookup _ _ Hb), from_bytes_singleton.
    cbv zeta.
    set (base := (n + _) * 4 + 104).
    unfold STATE_ON, STATE_OFF.
    repeat case_bool_decide; cbn [orb]; (split; [|split]); split; intros;
      try discriminate; try lia; try reflexivity.
Qed.

Lemma device_state_classification_witness :
  ∃ correction : Z,
    (40 <= 36 → correction = 0)
    ∧ (37 <= 40 <= 96 → correction = -64)
    ∧ (96 < 40 → correction = -128)
    ∧ let base := (40 + correction) * 4 + 104 in
      let result :=
        _convert_jablotron_device_state_to_state little [x55; x08; x00; x0a; x00; x0a] 40 in
      (result = Some STATE_ON ↔ byte_to_Z x0a = base ∨ byte_to_Z x0a = base + 1)
      ∧ (result = Some STATE_OFF ↔ byte_to_Z x0a = base + 2 ∨ byte_to_Z x0a = base + 3)
      ∧ (result = None ↔ ¬ (base <= byte_to_Z x0a <= base + 3)).
Proof.
  apply (device_state_classification little [x55; x08; x00; x0a; x00; x0a] 40 x0a).
  reflexivity.
Defined.

(** ** Identifiers *)

(** A decimal rendering either adds nothing in front of the accumulator or
    starts with a decimal digit. *)
Lemma pretty_N_go_head (x : N) (s : string) :
  (x = 0%N ∧ pretty_N_go x s = s)
  ∨ ∃ d t, pretty_N_go x s = String (pretty_N_char d) t.
Proof.
  revert s. induction (N.lt_wf_0 x) as [x _ IH]. intros s.
  destruct (decide (x = 0%N)) as [->|Hx].
  - left. split; [done|]. apply pretty_N_go_0.
  - right. rewrite pretty_N_go_step by lia.
    destruct (IH (x `div` 10)%N ltac:(apply N.div_lt; lia)
                 (String (pretty_N_char (x `mod` 10)%N) s)) as [[_ Heq]|Hd].
    + rewrite Heq. eauto.
    + exact Hd.
Qed.

Lemma pretty_Z_head (z : Z) :
  ∃ c t, pretty z = String c t ∧ (c = "-"%char ∨ ∃ d, c = pretty_N_char d).
Proof.
  destruct z as [|p|p].
  - exists "0"%char, "". split; [reflexivity|]. right. by exists 0%N.
  - unfold pretty, pretty_Z, pretty, pretty_positive, pretty, pretty_N.
    rewrite decide_False by done.
    destruct (pretty_N_go_head (N.pos p) "") as [[? _]|(d & t & Hd)].
    + discriminate.
    + exists (pretty_N_char d), t. split; [done|]. right. by exists d.
  - exists "-"%char, (pretty p). split; [reflexivity|]. by left.
Qed.

Lemma pretty_Z_not_letter (z : Z) (t : string) : pretty z ≠ String "p" t.
Proof.
  destruct (pretty_Z_head z) as (c & t' & -> & Hc). intros [= -> _].
  destruct Hc as [|[d Hd]]; [discriminate|].
  unfold pretty_N_char in Hd. repeat case_match; discriminate.
Qed.

Lemma section_alarm_id_inj (a b : Z) :
  _create_section_alarm_id a = _create_section_alarm_id b -> a = b.
Proof.
  unfold _create_section_alarm_id. intros H.
  apply (inj (String.app "section_")) in H. by apply (inj pretty) in H.
Qed.

Lemma section_problem_sensor_id_inj (a b : Z) :
  _create_section_problem_sensor_id a = _create_section_problem_sensor_id b -> a = b.
Proof.
  unfold _create_section_problem_sensor_id. intros H.
  apply (inj (String.app "section_problem_sensor_")) in H. by apply (inj pretty) in H.
Qed.

Lemma section_alarm_id_ne_problem_sensor_id (a b : Z) :
  _create_section_alarm_id a ≠ _create_section_problem_sensor_id b.
Proof.
  unfold _create_section_alarm_id, _create_section_problem_sensor_id. intros H.
  change ("section_problem_sensor_" +:+ pretty b)
    with ("section_" +:+ String "p" ("roblem_sensor_" +:+ pretty b)) in H.
  apply (inj (String.app "section_")) in H.
  by apply pretty_Z_not_letter in H.
Qed.

Lemma device_sensor_id_inj (a b : Z) :
  _create_device_sensor_id a = _create_device_sensor_id b -> a = b.
Proof.
  unfold _create_device_sensor_id. intros H.
  apply (inj (String.app "device_sensor_")) in H. by apply (inj pretty) in H.
Qed.

(** ** State store *)

Section StateStore.

Implicit Types (id state : string) (e : Engine).

Local Ltac store_cases e :=
  let H := fresh "Hstored" in
  unfold _store_state; destruct (_stored_data e) eqn:H;
  cbn [set_stored_data set_states emit _stored_data states trace _entities
       _config _central_unit_model last_update_success];
  rewrite ?H; try done.

Lemma store_state_trace id state e :
  trace (_store_state id state e) = trace e ++ [EvDelaySave].
Proof. store_cases e. Qed.

Lemma store_state_states id state e :
  states (_store_state id state e)
  = match _stored_data e with
    | StoredAliased => <[id := state]> (states e)
    | _ => states e
    end.
Proof. store_cases e. Qed.

Lemma store_state_entities id state e :
  _entities (_store_state id state e) = _entities e.
Proof. store_cases e. Qed.

Lemma store_state_frame id state e :
  _config (_store_state id state e) = _config e
  ∧ _central_unit_model (_store_state id state e) = _central_unit_model e
  ∧ last_update_success (_store_state id state e) = last_update_success e.
Proof. store_cases e. Qed.

(** The guard of [_update_state] is the test "the stored value is
    [state]". *)
Lemma update_state_guard id state e :
  bool_decide (id ∈ dom (states e)) && bool_decide (Some state = states e !! id)
  = bool_decide (states e !! id = Some state).
Proof.
  destruct (states e !! id) as [v|] eqn:Hv.
  - rewrite (bool_decide_true (id ∈ _)) by (apply elem_of_dom; eauto).
    simpl. apply bool_decide_ext. naive_solver.
  - rewrite (bool_decide_false (id ∈ _)) by (by apply not_elem_of_dom).
    reflexivity.
Qed.

Lemma update_state_unchanged id state store_state e :
  states e !! id = Some state -> _update_state id state store_state e = e.
Proof.
  intros H. unfold _update_state.
  by rewrite update_state_guard, bool_decide_true.
Qed.

Lemma update_state_lookup id state store_state e id' :
  states (_update_state id state store_state e) !! id'
  = if decide (id = id') then Some state else states e !! id'.
Proof.
  unfold _update_state. rewrite update_state_guard.
  case_bool_decide as Hst.
  - case_decide; [by subst|done].
  - assert (Hins : (<[id := state]> (states e)) !! id'
                   = if decide (id = id') then Some state else states e !! id').
    { case_decide; [subst; apply lookup_insert_eq|by apply lookup_insert_ne]. }
    set (e1 := if bool_decide (id ∈ _) then _ else _).
    assert (Hst1 : states e1 = <[id := state]> (states e))
      by (subst e1; by case_bool_decide).
    destruct store_state; [rewrite store_state_states|]; rewrite Hst1.
    + destruct (_stored_data e1); rewrite ?insert_insert_eq; exact Hins.
    + exact Hins.
Qed.

Lemma update_state_trace id state store_state e :
  trace (_update_state id state store_state e)
  = trace e ++
    (if bool_decide (states e !! id = Some state) then []
     else (if bool_decide (id ∈ _entities e) then [EvWriteHaState id] else [])
          ++ (if store_state then [EvDelaySave] else [])).
Proof.
  unfold _update_state. rewrite update_state_guard.
  case_bool_decide; [by rewrite app_nil_r|].
  destruct store_state; [rewrite store_state_trace|];
    cbn [set_states _entities]; case_bool_decide; cbn [trace emit set_states];
    by rewrite <- ?app_assoc, ?app_nil_r.
Qed.

Lemma update_state_entities id state store_state e :
  _entities (_update_state id state store_state e) = _entities e.
Proof.
  unfold _update_state. case_match; [done|]. clear.
  set (e1 := if bool_decide (id ∈ _) then _ else _).
  assert (_entities e1 = _entities e) by (subst e1; by case_bool_decide).
  destruct store_state; [rewrite store_state_entities|]; done.
Qed.

Lemma update_state_frame id state store_state e :
  _config (_update_state id state store_state e) = _config e
  ∧ _central_unit_model (_update_state id state store_state e) = _central_unit_model e
  ∧ last_update_success (_update_state id state store_state e) = last_update_success e.
Proof.
  unfold _update_state. case_match; [done|]. clear.
  set (e1 := if bool_decide (id ∈ _) then _ else _).
  assert (_config e1 = _config e
          ∧ _central_unit_model e1 = _central_unit_model e
          ∧ last_update_success e1 = last_update_success e) as (<- & <- & <-)
    by (subst e1; by case_bool_decide).
  destruct store_state; [apply store_state_frame|done].
Qed.

End StateStore.

(** C8. An update that does not change the stored value of its id does
    nothing: the engine, its stored data and its trace stay as they are, so
    no subscriber is notified and nothing is saved.  Hence a second write of
    the same value right after the first adds nothing, and two writes of a
    new value to a subscribed id notify the subscriber exactly once. *)
Theorem update_state_idempotent (id state : string) (store_state : bool) (e : Engine) :
  let once := _update_state id state store_state e in
  let twice := _update_state id state store_state once in
  (states e !! id = Some state →
     once = e
     ∧ count_writes id (trace once) = count_writes id (trace e)
     ∧ count_saves (trace once) = count_saves (trace e))
  ∧ twice = once
  ∧ (states e !! id ≠ Some state → id ∈ _entities e →
     count_writes id (trace twice) = S (count_writes id (trace e))
     ∧ trace twice
       = trace e ++ EvWriteHaState id :: (if store_state then [EvDelaySave] else [])).
Proof.
  cbv zeta. split; [|split].
  - intros H. by rewrite (update_state_unchanged _ _ _ _ H).
  - apply update_state_unchanged.
    rewrite update_state_lookup. by rewrite decide_True.
  - intros Hne Hin.
    rewrite (update_state_unchanged id state store_state (_update_state _ _ _ e))
      by (rewrite update_state_lookup; by rewrite decide_True).
    rewrite update_state_trace.
    rewrite bool_decide_false, bool_decide_true by done.
    split; [|done].
    unfold count_writes. rewrite !filter_app, !length_app.
    rewrite filter_cons_True by done. cbn [length].
    destruct store_state; [rewrite filter_cons_False by done|];
      rewrite filter_nil; simpl; lia.
Qed.

Example update_state_twice_example :
  let e := {| _config := {| CONF_SERIAL_PORT := "/dev/hidraw0"; CONF_PASSWORD := "1234";
                            CONF_NUMBER_OF_DEVICES := 1; CONF_DEVICES := ["motion"] |};
              _central_unit_model := "JA-101K"; _entities := ["device_sensor_1"];
              _stored_data := StoredNoPort;
              states := {[ "device_sensor_1" := STATE_OFF ]};
              last_update_success := true; trace := [] |} in
  trace (_update_state "device_sensor_1" STATE_ON false
           (_update_state "device_sensor_1" STATE_ON false e))
  = [EvWriteHaState "device_sensor_1"].
Proof. vm_compute. reflexivity. Qed.

(** ** Sections-states packet *)

Section SectionStates.

Variable byteorder : ByteOrder.
Variable MAX_SECTIONS : Z.

Implicit Types (e : Engine) (l : list (Z * bytes)) (id : string).

Lemma run_section_rounds_cons entry l e :
  run_section_rounds byteorder (entry :: l) e
  = run_section_rounds byteorder l (section_states_round byteorder entry e).
Proof. reflexivity. Qed.

Lemma section_states_round_lookup section record e id :
  let s := _parse_jablotron_section_state byteorder record in
  states (section_states_round byteorder (section, record) e) !! id
  = if decide (id = _create_section_problem_sensor_id section ∧ writes_problem_flag s)
    then Some (_convert_jablotron_section_state_to_problem_sensor_state s)
    else if decide (id = _create_section_alarm_id section)
         then Some (_convert_jablotron_section_state_to_alarm_state s)
         else states e !! id.
Proof.
  cbv zeta. unfold section_states_round.
  set (s := _parse_jablotron_section_state byteorder record).
  set (e0 := if negb _ then _ else e).
  assert (He0 : states e0 = states e) by (subst e0; by destruct (negb _)).
  pose proof (section_alarm_id_ne_problem_sensor_id section section) as Hne.
  destruct (decide (writes_problem_flag s)) as [Hw|Hw].
  - assert (bool_decide (secondary s = JABLOTRON_SECTION_SECONDARY_STATE_OK)
            || bool_decide (secondary s = JABLOTRON_SECTION_SECONDARY_STATE_PROBLEM) = true)
      as -> by (destruct Hw; repeat case_bool_decide; done).
    rewrite !update_state_lookup, He0.
    repeat case_decide; destruct_and?; subst; first [done | tauto | congruence].
  - assert (bool_decide (secondary s = JABLOTRON_SECTION_SECONDARY_STATE_OK)
            || bool_decide (secondary s = JABLOTRON_SECTION_SECONDARY_STATE_PROBLEM) = false)
      as -> by (unfold writes_problem_flag in Hw; repeat case_bool_decide; tauto).
    rewrite update_state_lookup, He0.
    repeat case_decide; destruct_and?; subst; first [done | tauto | congruence].
Qed.

(** Ids that belong to no listed section keep their stored value. *)
Lemma run_section_rounds_other l e id :
  (∀ section record, (section, record) ∈ l →
     id ≠ _create_section_alarm_id section
     ∧ (id = _create_section_problem_sensor_id section →
        ¬ writes_problem_flag (_parse_jablotron_section_state byteorder record))) →
  states (run_section_rounds byteorder l e) !! id = states e !! id.
Proof.
  revert e. induction l as [|[section record] l IH]; intros e Hl; [done|].
  rewrite run_section_rounds_cons.
  rewrite IH by (intros ?? Hin; apply Hl; by right).
  rewrite section_states_round_lookup.
  destruct (Hl section record ltac:(left)) as [Ha Hp].
  repeat case_decide; destruct_and?; subst; first [done | tauto | congruence].
Qed.

Lemma run_section_rounds_lookup l e section record :
  NoDup (l.*1) → (section, record) ∈ l →
  let s := _parse_jablotron_section_state byteorder record in
  states (run_section_rounds byteorder l e) !! _create_section_alarm_id section
  = Some (_convert_jablotron_section_state_to_alarm_state s)
  ∧ states (run_section_rounds byteorder l e) !! _create_section_problem_sensor_id section
    = if decide (writes_problem_flag s)
      then Some (_convert_jablotron_section_state_to_problem_sensor_state s)
      else states e !! _create_section_problem_sensor_id section.
Proof.
  cbv zeta. revert e. induction l as [|[section' record'] l IH]; intros e Hnd Hin.
  { by apply elem_of_nil in Hin. }
  rewrite fmap_cons in Hnd. apply NoDup_cons in Hnd as [Hfresh Hnd].
  rewrite run_section_rounds_cons.
  apply elem_of_cons in Hin as [[= <- <-]|Hin].
  - assert (Hothers : ∀ s r, (s, r) ∈ l → s ≠ section).
    { intros s r Hsr ->. apply Hfresh. cbn [fst].
      apply list_elem_of_fmap. by exists (section, r). }
    rewrite !run_section_rounds_other.
    + rewrite !section_states_round_lookup.
      pose proof (section_alarm_id_ne_problem_sensor_id section section).
      repeat case_decide; destruct_and?; subst; first [done | tauto | congruence].
    + intros s r Hsr. split.
      * apply not_eq_sym, section_alarm_id_ne_problem_sensor_id.
      * intros ->%section_problem_sensor_id_inj. by destruct (Hothers _ _ Hsr).
    + intros s r Hsr. split.
      * intros ->%section_alarm_id_inj. by destruct (Hothers _ _ Hsr).
      * intros Heq. by destruct (section_alarm_id_ne_problem_sensor_id section s).
  - assert (section' ≠ section) as Hne.
    { intros ->. apply Hfresh. cbn [fst].
      apply list_elem_of_fmap. by exists (section, record). }
    destruct (IH (section_states_round byteorder (section', record') e) Hnd Hin)
      as [-> ->].
    split; [done|]. case_decide; [done|].
    rewrite section_states_round_lookup.
    rewrite decide_False by (intros [?%section_problem_sensor_id_inj _]; congruence).
    rewrite decide_False
      by (intros Heq; by destruct (section_alarm_id_ne_problem_sensor_id section' section)).
    done.
Qed.

(** Whatever changes belongs to a listed section. *)
Lemma run_section_rounds_changed l e id :
  states (run_section_rounds byteorder l e) !! id ≠ states e !! id →
  ∃ section record, (section, record) ∈ l
    ∧ (id = _create_section_alarm_id section
       ∨ id = _create_section_problem_sensor_id section
         ∧ writes_problem_flag (_parse_jablotron_section_state byteorder record)).
Proof.
  revert e. induction l as [|[section record] l IH]; intros e Hne; [done|].
  rewrite run_section_rounds_cons in Hne.
  destruct (decide (states (run_section_rounds byteorder l
              (section_states_round byteorder (section, record) e)) !! id
            = states (section_states_round byteorder (section, record) e) !! id))
    as [Heq|Hneq].
  - rewrite Heq, section_states_round_lookup in Hne.
    exists section, record. split; [left|].
    repeat case_decide; destruct_and?; subst; first [done | tauto | congruence].
  - destruct (IH _ Hneq) as (s & r & Hin & Hid).
    exists s, r. split; [by right|done].
Qed.

Lemma sections_states_scan_keys packet (sections : list Z) section :
  section ∈ (sections_states_scan packet sections).*1 → section ∈ sections.
Proof.
  induction sections as [|x sections IH]; cbn [sections_states_scan]; [done|].
  case_bool_decide; [by intros ?%elem_of_nil|].
  rewrite fmap_cons. cbn [fst]. rewrite !elem_of_cons. intuition auto.
Qed.

Lemma sections_states_scan_NoDup packet (sections : list Z) :
  NoDup sections → NoDup (sections_states_scan packet sections).*1.
Proof.
  induction sections as [|x sections IH]; cbn [sections_states_scan].
  { intros _. constructor. }
  intros [Hx Hnd]%NoDup_cons. case_bool_decide; [constructor|].
  rewrite fmap_cons. cbn [fst]. apply NoDup_cons. split; [|by apply IH].
  intros Hin%sections_states_scan_keys. done.
Qed.

Lemma parse_sections_states_packet_range packet section record :
  (section, record) ∈ _parse_sections_states_packet MAX_SECTIONS packet →
  1 <= section <= MAX_SECTIONS.
Proof.
  intros Hin. unfold _parse_sections_states_packet in Hin.
  assert (section ∈ seqZ 1 MAX_SECTIONS) as Hs.
  { apply (sections_states_scan_keys packet).
    apply list_elem_of_fmap. by exists (section, record). }
  apply elem_of_seqZ in Hs. lia.
Qed.

End SectionStates.

(** C3. Processing a sections-states packet updates the alarm state of
    every section it lists.  The problem-sensor state of a listed section is
    written only when the section's secondary state is 0 (ok) or 2
    (problem), and is then on exactly for problem; when the secondary state
    is 1 (triggered), 4 (pending) or 8 (arming), as for every other value,
    the stored problem-sensor state stays what it was.  No other stored
    value changes. *)
Theorem section_problem_flag_frame
    (order : ByteOrder) (MAX_SECTIONS : Z) (packet : bytes) (e : Engine)
    (section : Z) (record : bytes) :
  (section, record) ∈ _parse_sections_states_packet MAX_SECTIONS packet →
  let s := _parse_jablotron_section_state order record in
  let e' := _parse_section_states_packet order MAX_SECTIONS packet e in
  let problem_id := _create_section_problem_sensor_id section in
  states e' !! _create_section_alarm_id section
  = Some (_convert_jablotron_section_state_to_alarm_state s)
  ∧ (secondary s = 0 ∨ secondary s = 2 →
     states e' !! problem_id
     = Some (if bool_decide (secondary s = 2) then STATE_ON else STATE_OFF))
  ∧ (secondary s = 1 ∨ secondary s = 4 ∨ secondary s = 8 →
     states e' !! problem_id = states e !! problem_id)
  ∧ (secondary s ≠ 0 → secondary s ≠ 2 →
     states e' !! problem_id = states e !! problem_id)
  ∧ (∀ id, states e' !! id ≠ states e !! id →
       ∃ section' record',
         (section', record') ∈ _parse_sections_states_packet MAX_SECTIONS packet
         ∧ (id = _create_section_alarm_id section'
            ∨ id = _create_section_problem_sensor_id section'
              ∧ (secondary (_parse_jablotron_section_state order record') = 0
                 ∨ secondary (_parse_jablotron_section_state order record') = 2))).
Proof.
  intros Hin. cbv zeta.
  change (_parse_section_states_packet order MAX_SECTIONS packet e)
    with (run_section_rounds order (_parse_sections_states_packet MAX_SECTIONS packet) e).
  destruct (run_section_rounds_lookup order
              (_parse_sections_states_packet MAX_SECTIONS packet) e section record)
    as [Ha Hp]; [|exact Hin|].
  { apply sections_states_scan_NoDup, NoDup_seqZ. }
  rewrite Ha, Hp. clear Ha Hp.
  unfold writes_problem_flag, JABLOTRON_SECTION_SECONDARY_STATE_OK,
    JABLOTRON_SECTION_SECONDARY_STATE_PROBLEM,
    _convert_jablotron_section_state_to_problem_sensor_state.
  split; [done|]. split; [|split; [|split]].
  - intros Hw. by rewrite decide_True.
  - intros Hw. rewrite decide_False by lia. done.
  - intros H0 H2. rewrite decide_False by lia. done.
  - apply run_section_rounds_changed.
Qed.

(** Section 1 pending (record 0x43 0x00), then the sentinel slot. *)
Lemma section_problem_flag_frame_witness :
  let e' := _parse_section_states_packet little 16 [x51; x22; x43; x00; x07; x00]
              example_engine in
  states e' !! "section_1" = Some STATE_ALARM_PENDING
  ∧ states e' !! "section_problem_sensor_1" = Some STATE_ON.
Proof.
  assert (Hin : (1, [x43; x00])
                ∈ _parse_sections_states_packet 16 [x51; x22; x43; x00; x07; x00])
    by (vm_compute; apply list_elem_of_here).
  pose proof (section_problem_flag_frame little 16 [x51; x22; x43; x00; x07; x00]
                example_engine 1 [x43; x00] Hin) as (Ha & _ & Hkeep & _).
  split.
  - exact Ha.
  - etransitivity; [apply Hkeep; right; left; reflexivity|]. reflexivity.
Defined.

(** ** Device-state packets *)

Lemma from_bytes_little_nonneg (p : bytes) : 0 <= from_bytes_little p.
Proof.
  induction p as [|b p IH]; cbn [from_bytes_little]; [lia|].
  pose proof (byte_to_Z_range b). lia.
Qed.

Lemma from_bytes_nonneg (p : bytes) (order : ByteOrder) : 0 <= from_bytes p order.
Proof. destruct order; apply from_bytes_little_nonneg. Qed.

Section DeviceState.

Variable byteorder : ByteOrder.
Variables DEVICE_KEYPAD DEVICE_SIREN_OUTDOOR DEVICE_OTHER DEVICE_EMPTY : string.

Implicit Types (e : Engine) (packet : bytes).

Local Abbreviation parse_device_state_packet :=
  (_parse_device_state_packet
     byteorder DEVICE_KEYPAD DEVICE_SIREN_OUTDOOR DEVICE_OTHER DEVICE_EMPTY).

Lemma device_number_nonneg packet :
  0 <= _parse_device_number_from_state_packet byteorder packet.
Proof.
  unfold _parse_device_number_from_state_packet, int_truediv, _bytes_to_int.
  apply Z.quot_pos; [apply from_bytes_nonneg|lia].
Qed.

Lemma get_device_type_ok number e :
  roster_complete (_config e) →
  1 <= number <= CONF_NUMBER_OF_DEVICES (_config e) →
  ∃ type, _get_device_type number e = Ok type.
Proof.
  unfold roster_complete, _get_device_type, py_index. intros Hc Hn.
  rewrite (bool_decide_false (number - 1 < 0)) by lia.
  rewrite (bool_decide_true (0 <= number - 1)) by lia.
  destruct (CONF_DEVICES (_config e) !! Z.to_nat (number - 1)) as [t|] eqn:Ht; [eauto|].
  apply lookup_ge_None in Ht. lia.
Qed.

(** What a device-state packet leaves alone, and that it cannot raise when
    the roster is complete. *)
Lemma parse_device_state_packet_ok packet e :
  roster_complete (_config e) →
  ∃ e', parse_device_state_packet packet e = (e', Ok tt)
        ∧ _config e' = _config e
        ∧ _central_unit_model e' = _central_unit_model e
        ∧ _entities e' = _entities e
        ∧ last_update_success e' = last_update_success e.
Proof.
  intros Hc. unfold _parse_device_state_packet.
  pose proof (device_number_nonneg packet) as Hnn.
  set (n := _parse_device_number_from_state_packet byteorder packet) in *.
  case_bool_decide as Hz; [by eexists|].
  unfold bind, read, lift, modify, ret.
  set (is_lan := bool_decide (_get_lan_connection_device_number e = Some n)).
  assert (Hupd : ∀ id state store_state,
            ∃ e', (_update_state id state store_state e, Ok tt) = (e', Ok tt)
                  ∧ _config e' = _config e
                  ∧ _central_unit_model e' = _central_unit_model e
                  ∧ _entities e' = _entities e
                  ∧ last_update_success e' = last_update_success e).
  { intros id state store_state. eexists. split; [done|].
    destruct (update_state_frame id state store_state e) as (-> & -> & ->).
    by rewrite update_state_entities. }
  destruct is_lan eqn:Hlan; cbn [negb].
  - destruct (_convert_jablotron_device_state_to_state byteorder packet n);
      [apply Hupd|by eexists].
  - case_bool_decide as Hgt; [by eexists|].
    destruct (get_device_type_ok n e Hc ltac:(lia)) as [type Htype].
    unfold _is_device_ignored. rewrite Htype. cbn [rbind].
    case_bool_decide as Hign; [by eexists|].
    destruct (_convert_jablotron_device_state_to_state byteorder packet n);
      [|by eexists].
    unfold _is_device_with_activity_sensor. rewrite Htype. cbn [rbind].
    destruct (negb _ && _); [apply Hupd|].
    destruct (_ || _); [apply Hupd|by eexists].
Qed.

(** A packet whose state byte is not recognized is logged and discarded:
    nothing is stored. *)
Lemma unrecognized_device_state_discarded packet e :
  _convert_jablotron_device_state_to_state byteorder packet
    (_parse_device_number_from_state_packet byteorder packet) = None →
  states (parse_device_state_packet packet e).1 = states e.
Proof.
  intros Hnone. unfold _parse_device_state_packet. rewrite Hnone.
  unfold bind, read, lift, modify, ret.
  repeat first [ done | simplify_eq; done | case_match ].
Qed.

End DeviceState.

(** ** Aggregate devices-states packet *)

Section DevicesStates.

Variable byteorder : ByteOrder.
Variables DEVICE_KEYPAD DEVICE_SIREN_OUTDOOR DEVICE_OTHER DEVICE_EMPTY : string.

Implicit Types (e : Engine) (packet : bytes) (id bin_states : string).

Local Abbreviation parse_device_state_packet :=
  (_parse_device_state_packet
     byteorder DEVICE_KEYPAD DEVICE_SIREN_OUTDOOR DEVICE_OTHER DEVICE_EMPTY).
Local Abbreviation parse_devices_states_packet :=
  (_parse_devices_states_packet
     byteorder DEVICE_KEYPAD DEVICE_SIREN_OUTDOOR DEVICE_OTHER DEVICE_EMPTY).

Lemma parse_devices_states_packet_unfold packet e :
  parse_devices_states_packet packet e
  = match devices_states_embedded byteorder DEVICE_KEYPAD DEVICE_SIREN_OUTDOOR DEVICE_OTHER DEVICE_EMPTY packet e with
    | (mid, Ok _) =>
        (run_devices_rounds (_hex_to_bin byteorder (devices_states_field byteorder packet))
                            (seqZ 1 (CONF_NUMBER_OF_DEVICES (_config mid))) mid,
         Ok tt)
    | (mid, Raise x) => (mid, Raise x)
    end.
Proof.
  unfold _parse_devices_states_packet, devices_states_embedded, bind,
    triggered_device_start, devices_states_field.
  replace (Z.to_nat (3 + _bytes_to_int byteorder (slice 1 2 packet) - 1 + 2))
    with (Z.to_nat (3 + _bytes_to_int byteorder (slice 1 2 packet) - 1) + 2)%nat.
  2:{ unfold _bytes_to_int.
      pose proof (from_bytes_nonneg (slice 1 2 packet) byteorder). lia. }
  by destruct (if _is_device_state_packet _ then _ else _) as [mid [[]|x]].
Qed.

Lemma devices_states_round_lookup bin_states i e id :
  states (devices_states_round bin_states i e) !! id
  = if decide (id = _create_device_sensor_id i ∧ ¬ bitfield_on bin_states i)
    then Some STATE_OFF
    else states e !! id.
Proof.
  unfold devices_states_round. fold (bitfield_on bin_states i).
  destruct (decide (bitfield_on bin_states i)) as [Hon|Hoff].
  - rewrite (bool_decide_true _ Hon).
    rewrite (bool_decide_false (STATE_ON = STATE_OFF)) by done.
    rewrite decide_False; [done|tauto].
  - rewrite (bool_decide_false _ Hoff).
    rewrite (bool_decide_true (STATE_OFF = STATE_OFF)) by done.
    rewrite update_state_lookup.
    destruct (decide (_create_device_sensor_id i = id)) as [<-|Hne].
    + rewrite decide_True; done.
    + rewrite decide_False; [done|]. intros [-> _]. done.
Qed.

Lemma run_devices_rounds_cons bin_states i l e :
  run_devices_rounds bin_states (i :: l) e
  = run_devices_rounds bin_states l (devices_states_round bin_states i e).
Proof. reflexivity. Qed.

(** The loop only ever stores off. *)
Lemma run_devices_rounds_only_off bin_states l e id :
  states (run_devices_rounds bin_states l e) !! id = states e !! id
  ∨ states (run_devices_rounds bin_states l e) !! id = Some STATE_OFF.
Proof.
  revert e. induction l as [|i l IH]; intros e; [by left|].
  rewrite run_devices_rounds_cons.
  destruct (IH (devices_states_round bin_states i e)) as [->| ->]; [|by right].
  rewrite devices_states_round_lookup. case_decide; [by right|by left].
Qed.

Lemma run_devices_rounds_other bin_states l e id :
  (∀ i, i ∈ l → id ≠ _create_device_sensor_id i) →
  states (run_devices_rounds bin_states l e) !! id = states e !! id.
Proof.
  revert e. induction l as [|i l IH]; intros e Hl; [done|].
  rewrite run_devices_rounds_cons, IH by (intros j Hj; apply Hl; by right).
  rewrite devices_states_round_lookup.
  rewrite decide_False; [done|]. intros [Heq _]. by apply (Hl i); [left|].
Qed.

Lemma run_devices_rounds_lookup bin_states l e i :
  NoDup l → i ∈ l →
  states (run_devices_rounds bin_states l e) !! _create_device_sensor_id i
  = if decide (bitfield_on bin_states i)
    then states e !! _create_device_sensor_id i
    else Some STATE_OFF.
Proof.
  revert e. induction l as [|j l IH]; intros e Hnd Hin.
  { by apply elem_of_nil in Hin. }
  apply NoDup_cons in Hnd as [Hfresh Hnd].
  rewrite run_devices_rounds_cons.
  apply elem_of_cons in Hin as [->|Hin].
  - rewrite run_devices_rounds_other.
    + rewrite devices_states_round_lookup.
      destruct (decide (bitfield_on bin_states j)).
      * rewrite decide_False; [done|tauto].
      * rewrite decide_True; done.
    + intros k Hk ->%device_sensor_id_inj. done.
  - rewrite IH by done. case_decide; [|done].
    rewrite devices_states_round_lookup.
    rewrite decide_False; [done|].
    intros [->%device_sensor_id_inj _]. done.
Qed.

(** Every call of the loop that leaves the engine is the state write of a
    device-sensor entity. *)
Lemma run_devices_rounds_trace bin_states l e :
  ∃ ids, trace (run_devices_rounds bin_states l e) = trace e ++ (EvWriteHaState <$> ids)
         ∧ Forall (fun id => ∃ i, i ∈ l ∧ id = _create_device_sensor_id i
                                 ∧ ¬ bitfield_on bin_states i) ids.
Proof.
  revert e. induction l as [|i l IH]; intros e.
  { exists []. by rewrite app_nil_r. }
  rewrite run_devices_rounds_cons.
  destruct (IH (devices_states_round bin_states i e)) as (ids & -> & Hids).
  assert (Hweak : Forall (fun id => ∃ k, k ∈ i :: l ∧ id = _create_device_sensor_id k
                                       ∧ ¬ bitfield_on bin_states k) ids).
  { eapply Forall_impl; [exact Hids|]. intros id (k & ? & ? & ?).
    exists k. split; [by right|done]. }
  unfold devices_states_round. fold (bitfield_on bin_states i).
  destruct (decide (bitfield_on bin_states i)) as [Hon|Hoff].
  - rewrite (bool_decide_true _ Hon).
    rewrite (bool_decide_false (STATE_ON = STATE_OFF)) by done. by exists ids.
  - rewrite (bool_decide_false _ Hoff).
    rewrite (bool_decide_true (STATE_OFF = STATE_OFF)) by done.
    rewrite update_state_trace.
    case_bool_decide; [exists ids; by rewrite app_nil_r|].
    case_bool_decide; [|exists ids; by rewrite !app_nil_r].
    exists (_create_device_sensor_id i :: ids).
    rewrite app_nil_r, <- app_assoc. split; [done|].
    constructor; [|done]. exists i. split; [by left|done].
Qed.

(** With a complete roster the device-state packet behind the bitfield
    cannot raise; without such a packet nothing happens before the loop. *)
Lemma devices_states_embedded_ok packet e :
  roster_complete (_config e) →
  ∃ mid, devices_states_embedded byteorder DEVICE_KEYPAD DEVICE_SIREN_OUTDOOR DEVICE_OTHER DEVICE_EMPTY packet e = (mid, Ok tt)
         ∧ _config mid = _config e
         ∧ (_is_device_state_packet
              (slice (triggered_device_start byteorder packet)
                     (triggered_device_start byteorder packet + 2) packet) = false
            → mid = e).
Proof.
  intros Hc. unfold devices_states_embedded.
  destruct (_is_device_state_packet _) eqn:Hp.
  - destruct (parse_device_state_packet_ok byteorder DEVICE_KEYPAD DEVICE_SIREN_OUTDOOR
                DEVICE_OTHER DEVICE_EMPTY
                (drop (triggered_device_start byteorder packet) packet) e Hc)
      as (mid & Hrun & Hcfg & _).
    exists mid. by rewrite Hrun.
  - by exists e.
Qed.

End DevicesStates.

(** ** The expanded bitfield

    [_hex_to_bin] writes the bitfield least significant bit first, so the
    character at position [i] is ["1"] exactly when bit [i] of the integer
    read from the bitfield bytes is set. *)

Section HexToBin.

Implicit Types (s t acc : string) (p : positive) (n k : nat).

Lemma zeros_S k : zeros (S k) = String "0" (zeros k).
Proof. reflexivity. Qed.

Lemma append_cons (a : ascii) s t : String a s +:+ t = String a (s +:+ t).
Proof. reflexivity. Qed.

Lemma append_nil s : "" +:+ s = s.
Proof. reflexivity. Qed.

Lemma append_empty s : s +:+ "" = s.
Proof. induction s as [|a s IH]; [done|]. by rewrite append_cons, IH. Qed.

Lemma zeros_snoc k t : zeros k +:+ String "0" t = String "0" (zeros k +:+ t).
Proof.
  induction k as [|k IH]; [done|].
  rewrite !zeros_S, !append_cons. by rewrite IH.
Qed.

Lemma rev_app_bin_positive p acc t :
  String.rev_app (bin_positive p acc) t = String.rev_app acc (lsb_digits p +:+ t).
Proof.
  revert acc t. induction p as [q IH|q IH|]; intros acc t; cbn [bin_positive lsb_digits].
  - by rewrite IH, append_cons.
  - by rewrite IH, append_cons.
  - by rewrite append_cons, append_nil.
Qed.

Lemma rev_app_zeros k s t :
  String.rev_app (zeros k +:+ s) t = String.rev_app s (zeros k +:+ t).
Proof.
  revert t. induction k as [|k IH]; intros t; [done|].
  rewrite zeros_S, append_cons. cbn [String.rev_app].
  by rewrite IH, zeros_snoc.
Qed.

Lemma rev_zfill_bin_positive k p :
  String.rev (zeros k +:+ bin_positive p "") = lsb_digits p +:+ zeros k.
Proof.
  unfold String.rev. rewrite rev_app_zeros, rev_app_bin_positive, append_empty.
  reflexivity.
Qed.

Lemma substring_0_0 s : substring 0 0 s = "".
Proof. by destruct s. Qed.

Lemma substring_1_get n s c :
  substring n 1 s = String c "" ↔ String.get n s = Some c.
Proof.
  revert n. induction s as [|a s IH]; intros [|n]; cbn [substring String.get].
  - split; discriminate.
  - split; discriminate.
  - rewrite substring_0_0. split; congruence.
  - apply IH.
Qed.

Lemma get_zeros n k : String.get n (zeros k) ≠ Some "1"%char.
Proof.
  revert n. induction k as [|k IH]; intros [|n]; try discriminate.
  rewrite zeros_S. cbn [String.get]. apply IH.
Qed.

Lemma get_lsb_digits p k n :
  String.get n (lsb_digits p +:+ zeros k) = Some "1"%char
  ↔ Z.testbit (Z.pos p) (Z.of_nat n) = true.
Proof.
  revert n. induction p as [q IH|q IH|]; intros [|n];
    cbn [lsb_digits]; rewrite append_cons, ?append_nil; cbn [String.get].
  - done.
  - rewrite Nat2Z.inj_succ, Pos2Z.inj_xI, Z.testbit_odd_succ by lia. apply IH.
  - split; discriminate.
  - rewrite Nat2Z.inj_succ, Pos2Z.inj_xO, Z.testbit_even_succ by lia. apply IH.
  - done.
  - rewrite Nat2Z.inj_succ. change 1 with (2 * 0 + 1).
    rewrite Z.testbit_odd_succ, Z.testbit_0_l by lia.
    split; [|discriminate]. intros H. by destruct (get_zeros n k).
Qed.

Variable byteorder : ByteOrder.

Lemma hex_to_bin_bit (hex : bytes) (i : Z) :
  0 <= i →
  str_slice (Z.to_nat i) (Z.to_nat (i + 1)) (_hex_to_bin byteorder hex) = "1"
  ↔ Z.testbit (_bytes_to_int byteorder hex) i = true.
Proof.
  intros Hi. unfold str_slice.
  replace (Z.to_nat (i + 1) - Z.to_nat i)%nat with 1%nat by lia.
  rewrite (substring_1_get _ _ "1"%char).
  unfold _hex_to_bin, py_zfill. fold (zeros (length hex * 8 - String.length
    (py_bin_digits (_bytes_to_int byteorder hex)))).
  pose proof (from_bytes_nonneg hex byteorder) as Hnn. unfold _bytes_to_int.
  destruct (from_bytes hex byteorder) as [|p|p]; [| |lia]; cbn [py_bin_digits].
  - rewrite Z.testbit_0_l. split; [|discriminate].
    set (k := (_ - _)%nat). intros H. exfalso. revert H.
    unfold String.rev. rewrite (rev_app_zeros k "0" "").
    cbn [String.rev_app]. rewrite append_empty.
    destruct (Z.to_nat i) as [|n]; cbn [String.get]; [discriminate|].
    apply get_zeros.
  - rewrite rev_zfill_bin_positive, get_lsb_digits.
    by rewrite Z2Nat.id by lia.
Qed.

End HexToBin.

(** C7. Processing an aggregate devices-states packet first handles the
    device-state packet that may follow the bitfield, and then applies the
    bitfield: for every configured device whose bit is 1 the stored
    device-sensor state is left as it is, for every configured device whose
    bit is 0 it becomes off, and nothing but off is stored by the bitfield
    loop, whose only outward calls are the state writes of device sensors
    with bit 0.  When no device-state packet follows the bitfield, "as it
    is" means as before the packet. *)
Theorem devices_states_only_off
    (order : ByteOrder)
    (DEVICE_KEYPAD DEVICE_SIREN_OUTDOOR DEVICE_OTHER DEVICE_EMPTY : string)
    (packet : bytes) (e : Engine) :
  roster_complete (_config e) →
  let bit i := Z.testbit (_bytes_to_int order (devices_states_field order packet)) i in
  let start := triggered_device_start order packet in
  ∃ mid e',
    devices_states_embedded
      order DEVICE_KEYPAD DEVICE_SIREN_OUTDOOR DEVICE_OTHER DEVICE_EMPTY packet e
    = (mid, Ok tt)
    ∧ (_is_device_state_packet (slice start (start + 2) packet) = false → mid = e)
    ∧ _parse_devices_states_packet
        order DEVICE_KEYPAD DEVICE_SIREN_OUTDOOR DEVICE_OTHER DEVICE_EMPTY packet e
      = (e', Ok tt)
    ∧ (∀ i, 1 <= i <= CONF_NUMBER_OF_DEVICES (_config e) →
         states e' !! _create_device_sensor_id i
         = if bit i then states mid !! _create_device_sensor_id i else Some STATE_OFF)
    ∧ (∀ id, states e' !! id = states mid !! id ∨ states e' !! id = Some STATE_OFF)
    ∧ ∃ ids,
        trace e' = trace mid ++ (EvWriteHaState <$> ids)
        ∧ Forall (fun id => ∃ i, 1 <= i <= CONF_NUMBER_OF_DEVICES (_config e)
                                ∧ id = _create_device_sensor_id i ∧ bit i = false) ids.
Proof.
  intros Hc. cbv zeta.
  pose proof (devices_states_embedded_ok order DEVICE_KEYPAD DEVICE_SIREN_OUTDOOR
                DEVICE_OTHER DEVICE_EMPTY packet e Hc) as Hmid.
  destruct Hmid as (mid & Hemb & Hcfg & Hsame).
  set (bin_states := _hex_to_bin order (devices_states_field order packet)).
  set (N := CONF_NUMBER_OF_DEVICES (_config e)).
  exists mid, (run_devices_rounds bin_states (seqZ 1 N) mid).
  assert (Hbit : ∀ i, 0 <= i →
            bitfield_on bin_states i
            ↔ Z.testbit (_bytes_to_int order (devices_states_field order packet)) i = true).
  { intros i Hi. apply hex_to_bin_bit, Hi. }
  split; [exact Hemb|]. split; [exact Hsame|]. split; [|split; [|split]].
  - rewrite parse_devices_states_packet_unfold, Hemb, Hcfg. reflexivity.
  - intros i Hi.
    rewrite run_devices_rounds_lookup; [|apply NoDup_seqZ|apply elem_of_seqZ; lia].
    destruct (Z.testbit _ i) eqn:Hb.
    + rewrite decide_True; [done|]. apply Hbit; [lia|done].
    + rewrite decide_False; [done|]. intros Hon%Hbit; [congruence|lia].
  - intros id. apply run_devices_rounds_only_off.
  - destruct (run_devices_rounds_trace bin_states (seqZ 1 N) mid) as (ids & Htr & Hids).
    exists ids. split; [exact Htr|].
    eapply Forall_impl; [exact Hids|].
    intros id (i & Hi%elem_of_seqZ & -> & Hoff). exists i.
    split; [lia|]. split; [done|].
    destruct (Z.testbit _ i) eqn:Hb; [|done].
    destruct Hoff. apply Hbit; [lia|done].
Qed.

(** Length byte 2, bitfield byte 0x02 (bit 1 set), no device-state packet
    behind it: device 1 keeps its stored state, devices 2 and 3 go off. *)
Lemma devices_states_only_off_witness :
  ∃ e',
    _parse_devices_states_packet little "keypad" "siren_outdoor" "other" "empty"
      [xd8; x02; x00; x02; x00; x00] example_engine = (e', Ok tt)
    ∧ states e' !! "device_sensor_1" = Some STATE_ON
    ∧ states e' !! "device_sensor_2" = Some STATE_OFF.
Proof.
  destruct (devices_states_only_off little "keypad" "siren_outdoor" "other" "empty"
              [xd8; x02; x00; x02; x00; x00] example_engine)
    as (mid & e' & _ & Hsame & Hrun & Hbits & _).
  { unfold roster_complete. simpl. lia. }
  exists e'. split; [exact Hrun|].
  rewrite (Hsame eq_refl) in Hbits.
  split.
  - exact (Hbits 1 ltac:(simpl; lia)).
  - exact (Hbits 2 ltac:(simpl; lia)).
Defined.

(** ** Read loop and health notifications *)

Lemma health_silent_refl (e : Engine) : health_silent e e.
Proof.
  repeat split. exists []. split; [by rewrite app_nil_r|constructor].
Qed.

Lemma health_silent_trans (e1 e2 e3 : Engine) :
  health_silent e1 e2 → health_silent e2 e3 → health_silent e1 e3.
Proof.
  intros (Hf1 & Hc1 & He1 & evs1 & Ht1 & Hs1) (Hf2 & Hc2 & He2 & evs2 & Ht2 & Hs2).
  split; [congruence|]. split; [congruence|]. split; [congruence|].
  exists (evs1 ++ evs2). split.
  - by rewrite Ht2, Ht1, app_assoc.
  - by apply Forall_app.
Qed.

Lemma health_silent_emit (ev : Event) (e : Engine) :
  is_update_all ev = false → health_silent e (emit ev e).
Proof.
  intros Hev. repeat split. exists [ev]. split; [done|]. by constructor.
Qed.

Lemma health_silent_update_state (id state : string) (store_state : bool) (e : Engine) :
  health_silent e (_update_state id state store_state e).
Proof.
  destruct (update_state_frame id state store_state e) as (Hc & _ & Hf).
  split; [done|]. split; [done|]. split; [apply update_state_entities|].
  eexists. split; [apply update_state_trace|].
  case_bool_decide; [constructor|].
  apply Forall_app. split.
  - case_bool_decide; repeat constructor.
  - destruct store_state; repeat constructor.
Qed.

Lemma health_silent_counts (available : bool) (e e' : Engine) :
  health_silent e e' →
  health_notifications available (trace e') = health_notifications available (trace e).
Proof.
  intros (_ & _ & _ & evs & -> & Hevs). unfold health_notifications.
  rewrite List.filter_app, length_app.
  assert (List.filter (is_health_notification available) evs = []) as ->.
  { induction Hevs as [|ev evs Hev _ IH]; [done|].
    cbn [List.filter]. destruct ev; try done. }
  simpl. lia.
Qed.

Lemma silent_ret {A} (a : A) : silent (ret a).
Proof. intros e. apply health_silent_refl. Qed.

Lemma silent_read {A} (f : Engine -> A) : silent (read f).
Proof. intros e. apply health_silent_refl. Qed.

Lemma silent_lift {A} (f : Engine -> Result A) : silent (lift f).
Proof. intros e. apply health_silent_refl. Qed.

Lemma silent_modify (f : Engine -> Engine) :
  (∀ e, health_silent e (f e)) → silent (modify f).
Proof. intros Hf e. apply Hf. Qed.

Lemma silent_bind {A B} (m : M A) (k : A -> M B) :
  silent m → (∀ a, silent (k a)) → silent (bind m k).
Proof.
  intros Hm Hk e. unfold bind. specialize (Hm e).
  destruct (m e) as [e' [a|x]]; cbn [fst] in *; [|done].
  eapply health_silent_trans; [exact Hm|apply Hk].
Qed.

Lemma silent_for_each {A} (l : list A) (body : A -> M unit) :
  (∀ x, silent (body x)) → silent (for_each l body).
Proof.
  intros Hbody. induction l as [|x l IH]; cbn [for_each].
  - apply silent_ret.
  - apply silent_bind; [apply Hbody|intros _; exact IH].
Qed.

Lemma silent_emit (ev : Event) : is_update_all ev = false → silent (modify (emit ev)).
Proof. intros Hev. apply silent_modify. intros e. by apply health_silent_emit. Qed.

Lemma silent_update_state (id state : string) (store_state : bool) :
  silent (modify (_update_state id state store_state)).
Proof. apply silent_modify. intros e. apply health_silent_update_state. Qed.

Section ReadLoop.

Variable byteorder : ByteOrder.
Variable MAX_SECTIONS : Z.
Variables DEVICE_KEYPAD DEVICE_SIREN_OUTDOOR DEVICE_OTHER DEVICE_EMPTY : string.

Implicit Types (e : Engine) (packet : bytes).

Local Abbreviation parse_device_state_packet :=
  (_parse_device_state_packet
     byteorder DEVICE_KEYPAD DEVICE_SIREN_OUTDOOR DEVICE_OTHER DEVICE_EMPTY).
Local Abbreviation parse_devices_states_packet :=
  (_parse_devices_states_packet
     byteorder DEVICE_KEYPAD DEVICE_SIREN_OUTDOOR DEVICE_OTHER DEVICE_EMPTY).
Local Abbreviation parse_section_states_packet :=
  (_parse_section_states_packet byteorder MAX_SECTIONS).
Local Abbreviation read_body :=
  (read_packets_body
     byteorder MAX_SECTIONS DEVICE_KEYPAD DEVICE_SIREN_OUTDOOR DEVICE_OTHER DEVICE_EMPTY).
Local Abbreviation read_round :=
  (read_packets_round
     byteorder MAX_SECTIONS DEVICE_KEYPAD DEVICE_SIREN_OUTDOOR DEVICE_OTHER DEVICE_EMPTY).
Local Abbreviation dispatch :=
  (dispatch_packet
     byteorder MAX_SECTIONS DEVICE_KEYPAD DEVICE_SIREN_OUTDOOR DEVICE_OTHER DEVICE_EMPTY).
Local Abbreviation read_packets :=
  (_read_packets
     byteorder MAX_SECTIONS DEVICE_KEYPAD DEVICE_SIREN_OUTDOOR DEVICE_OTHER DEVICE_EMPTY).

Lemma health_silent_section_round entry e :
  health_silent e (section_states_round byteorder entry e).
Proof.
  destruct entry as [section record]. unfold section_states_round.
  set (s := _parse_jablotron_section_state byteorder record).
  set (e0 := if negb _ then _ else e).
  assert (health_silent e e0) as H0.
  { subst e0. destruct (negb _);
      [by apply health_silent_emit|apply health_silent_refl]. }
  eapply health_silent_trans; [exact H0|].
  destruct (_ || _).
  - eapply health_silent_trans; apply health_silent_update_state.
  - apply health_silent_update_state.
Qed.

Lemma health_silent_section_states packet e :
  health_silent e (parse_section_states_packet packet e).
Proof.
  unfold _parse_section_states_packet.
  generalize (_parse_sections_states_packet MAX_SECTIONS packet). intros l.
  revert e. induction l as [|entry l IH]; intros e; [apply health_silent_refl|].
  cbn [fold_left]. eapply health_silent_trans; [|apply IH].
  apply health_silent_section_round.
Qed.

Local Ltac silent_step :=
  first
    [ apply silent_ret | apply silent_read | apply silent_lift
    | apply silent_update_state | by apply silent_emit
    | apply silent_bind; [|intros ?] ].

Lemma silent_device_state packet : silent (parse_device_state_packet packet).
Proof.
  unfold _parse_device_state_packet.
  repeat first [ silent_step | case_match ].
Qed.

Lemma health_silent_devices_rounds bin_states (l : list Z) e :
  health_silent e (run_devices_rounds bin_states l e).
Proof.
  revert e. induction l as [|i l IH]; intros e; [apply health_silent_refl|].
  rewrite run_devices_rounds_cons. eapply health_silent_trans; [|apply IH].
  unfold devices_states_round.
  destruct (bool_decide (_ = STATE_OFF));
    [apply health_silent_update_state|apply health_silent_refl].
Qed.

Lemma silent_devices_states packet : silent (parse_devices_states_packet packet).
Proof.
  unfold _parse_devices_states_packet.
  apply silent_bind.
  - case_match; [apply silent_device_state|apply silent_ret].
  - intros _. apply silent_bind; [apply silent_read|]. intros number_of_devices.
    apply silent_modify. intros e. apply health_silent_devices_rounds.
Qed.

Lemma silent_dispatch_packet packet : silent (dispatch packet).
Proof.
  unfold dispatch_packet. cbv zeta.
  case_match.
  { apply silent_modify. intros e. apply health_silent_section_states. }
  case_match.
  { apply silent_bind; [apply silent_device_state|]. intros _.
    apply silent_for_each. intros i. case_match; [|apply silent_ret].
    apply silent_modify. intros e. apply health_silent_section_states. }
  case_match; [apply silent_devices_states|apply silent_ret].
Qed.

Lemma rescan_ok packet (l : list nat) e :
  ∃ e', for_each l (fun i =>
          if bool_decide (slice i (i + 2) packet = JABLOTRON_PACKET_SECTIONS_STATES_PREFIX)
          then modify (parse_section_states_packet (drop i packet))
          else ret tt) e = (e', Ok tt).
Proof.
  revert e. induction l as [|i l IH]; intros e; [by exists e|].
  cbn [for_each]. unfold bind at 1.
  destruct (bool_decide _); [unfold modify at 1|unfold ret at 1]; apply IH.
Qed.

(** With a complete roster no statement of the dispatch raises. *)
Lemma dispatch_packet_ok packet e :
  roster_complete (_config e) → ∃ e', dispatch packet e = (e', Ok tt).
Proof.
  intros Hc. unfold dispatch_packet. cbv zeta.
  destruct (bool_decide (slice 0 2 packet = _)); [by eexists|].
  destruct (_is_device_state_packet (slice 0 2 packet)).
  { unfold bind.
    destruct (parse_device_state_packet_ok byteorder DEVICE_KEYPAD DEVICE_SIREN_OUTDOOR
                DEVICE_OTHER DEVICE_EMPTY packet e Hc) as (mid & -> & _).
    apply rescan_ok. }
  destruct (bool_decide (slice 0 1 packet = _)); [|by eexists].
  rewrite parse_devices_states_packet_unfold.
  destruct (devices_states_embedded_ok byteorder DEVICE_KEYPAD DEVICE_SIREN_OUTDOOR
              DEVICE_OTHER DEVICE_EMPTY packet e Hc) as (mid & -> & _).
  by eexists.
Qed.

Lemma read_body_empty e :
  read_body [] e = (_update_all_entities (set_last_update_success false e), Ok tt).
Proof. reflexivity. Qed.

Lemma read_body_nonempty packet e :
  packet ≠ [] → read_body packet e = dispatch packet (restore_health e).
Proof.
  intros Hne. unfold read_packets_body. rewrite bool_decide_false by done.
  unfold bind at 1, bind at 1, read at 1, restore_health.
  destruct (last_update_success e); reflexivity.
Qed.

Lemma restore_health_spec e :
  last_update_success (restore_health e) = true
  ∧ _config (restore_health e) = _config e
  ∧ _entities (restore_health e) = _entities e
  ∧ trace (restore_health e)
    = trace e ++ (if last_update_success e then []
                  else [EvUpdateAllEntities true (_entities e)]).
Proof.
  unfold restore_health. destruct (last_update_success e) eqn:Hf.
  - by rewrite app_nil_r.
  - done.
Qed.

Lemma read_round_empty e :
  read_round (ReadBytes []) e = _update_all_entities (set_last_update_success false e).
Proof. reflexivity. Qed.

Lemma read_round_nonempty packet e :
  roster_complete (_config e) → packet ≠ [] →
  health_silent (restore_health e) (read_round (ReadBytes packet) e).
Proof.
  intros Hc Hne. unfold read_packets_round. rewrite read_body_nonempty by done.
  destruct (restore_health_spec e) as (_ & Hcfg & _).
  pose proof (silent_dispatch_packet packet (restore_health e)) as Hs.
  destruct (dispatch_packet_ok packet (restore_health e)) as [e' He'].
  { by rewrite Hcfg. }
  rewrite He' in *. exact Hs.
Qed.

Lemma read_packets_cons r (reads : list ReadOutcome) e :
  read_packets (r :: reads) e = read_packets reads (read_round r e).
Proof. reflexivity. Qed.

(** Empty reads: one degraded notification each. *)
Lemma read_packets_empty_reads (n : nat) e :
  let e' := read_packets (replicate n (ReadBytes [])) e in
  ((0 < n)%nat → last_update_success e' = false)
  ∧ _entities e' = _entities e
  ∧ health_notifications false (trace e') = (health_notifications false (trace e) + n)%nat
  ∧ health_notifications true (trace e') = health_notifications true (trace e).
Proof.
  cbv zeta. revert e. induction n as [|n IH]; intros e.
  { cbn. split; [lia|]. split; [done|]. split; [lia|done]. }
  cbn [replicate]. rewrite read_packets_cons, read_round_empty.
  destruct (IH (_update_all_entities (set_last_update_success false e)))
    as (Hflag & -> & -> & ->).
  split.
  - intros _. destruct n as [|n]; [done|]. apply Hflag. lia.
  - split; [done|]. unfold health_notifications.
    cbn [_update_all_entities emit trace set_last_update_success last_update_success].
    rewrite !List.filter_app, !length_app. cbn. split; lia.
Qed.

(** Non-empty reads from a healthy engine: no health notification. *)
Lemma read_packets_healthy (packets : list bytes) e :
  roster_complete (_config e) → Forall (fun packet => packet ≠ []) packets →
  last_update_success e = true →
  let e' := read_packets (ReadBytes <$> packets) e in
  last_update_success e' = true
  ∧ ∀ available,
      health_notifications available (trace e') = health_notifications available (trace e).
Proof.
  cbv zeta. revert e. induction packets as [|packet packets IH]; intros e Hc Hne Hf.
  { done. }
  apply Forall_cons in Hne as [Hp Hne].
  rewrite fmap_cons, read_packets_cons.
  pose proof (read_round_nonempty packet e Hc Hp) as Hs.
  assert (restore_health e = e) as Hre by (unfold restore_health; by rewrite Hf).
  rewrite Hre in Hs.
  destruct Hs as (Hf' & Hc' & He' & Htr).
  destruct (IH (read_round (ReadBytes packet) e)) as [Hflag Hcount];
    [by rewrite Hc'|done|congruence|].
  split; [done|]. intros available. rewrite Hcount.
  apply health_silent_counts. by repeat split.
Qed.

(** Non-empty reads from any engine: one restored notification exactly
    when health was degraded. *)
Lemma read_packets_restores (packets : list bytes) e :
  roster_complete (_config e) → Forall (fun packet => packet ≠ []) packets →
  packets ≠ [] →
  let e' := read_packets (ReadBytes <$> packets) e in
  last_update_success e' = true
  ∧ health_notifications true (trace e')
    = (health_notifications true (trace e) + if last_update_success e then 0 else 1)%nat
  ∧ health_notifications false (trace e') = health_notifications false (trace e).
Proof.
  cbv zeta. intros Hc Hne Hnil.
  destruct packets as [|packet packets]; [done|].
  apply Forall_cons in Hne as [Hp Hne].
  rewrite fmap_cons, read_packets_cons.
  pose proof (read_round_nonempty packet e Hc Hp) as Hs.
  destruct (restore_health_spec e) as (Hrf & Hrc & Hre & Hrt).
  pose proof (health_silent_counts true _ _ Hs) as Ht.
  pose proof (health_silent_counts false _ _ Hs) as Hd.
  destruct Hs as (Hf' & Hc' & He' & _).
  destruct (read_packets_healthy packets (read_round (ReadBytes packet) e))
    as [Hflag Hcount]; [by rewrite Hc', Hrc|done|congruence|].
  split; [done|]. rewrite !Hcount, Ht, Hd, Hrt.
  unfold health_notifications. rewrite !List.filter_app, !length_app.
  destruct (last_update_success e); cbn; split; lia.
Qed.

End ReadLoop.

(** C4, as the code has it.  Every read that returns zero bytes marks
    health degraded and notifies the subscribers once, also when health was
    degraded already: [n] empty reads in a row give [n] degraded
    notifications.  A non-empty read notifies the subscribers of restored
    health once if health was degraded and not at all if it was good, so an
    empty read followed by any number of non-empty reads gives one degraded
    and one restored notification.  (The roster of devices is complete, so
    that no packet makes the loop body raise.) *)
Theorem health_notifications_per_read
    (order : ByteOrder) (MAX_SECTIONS : Z)
    (DEVICE_KEYPAD DEVICE_SIREN_OUTDOOR DEVICE_OTHER DEVICE_EMPTY : string)
    (e : Engine) :
  roster_complete (_config e) →
  let round :=
    read_packets_round
      order MAX_SECTIONS DEVICE_KEYPAD DEVICE_SIREN_OUTDOOR DEVICE_OTHER DEVICE_EMPTY in
  let run :=
    _read_packets
      order MAX_SECTIONS DEVICE_KEYPAD DEVICE_SIREN_OUTDOOR DEVICE_OTHER DEVICE_EMPTY in
  (last_update_success (round (ReadBytes []) e) = false
   ∧ trace (round (ReadBytes []) e)
     = trace e ++ [EvUpdateAllEntities false (_entities e)])
  ∧ (∀ n : nat,
       health_notifications false (trace (run (replicate n (ReadBytes [])) e))
       = (health_notifications false (trace e) + n)%nat
       ∧ health_notifications true (trace (run (replicate n (ReadBytes [])) e))
         = health_notifications true (trace e))
  ∧ (∀ packets : list bytes,
       packets ≠ [] → Forall (fun packet => packet ≠ []) packets →
       last_update_success (run (ReadBytes <$> packets) e) = true
       ∧ health_notifications true (trace (run (ReadBytes <$> packets) e))
         = (health_notifications true (trace e)
            + if last_update_success e then 0 else 1)%nat
       ∧ health_notifications false (trace (run (ReadBytes <$> packets) e))
         = health_notifications false (trace e))
  ∧ (∀ packets : list bytes,
       packets ≠ [] → Forall (fun packet => packet ≠ []) packets →
       let e' := run (ReadBytes [] :: (ReadBytes <$> packets)) e in
       last_update_success e' = true
       ∧ health_notifications false (trace e')
         = (health_notifications false (trace e) + 1)%nat
       ∧ health_notifications true (trace e')
         = (health_notifications true (trace e) + 1)%nat).
Proof.
  intros Hc. cbv zeta. split; [|split; [|split]].
  - by rewrite read_round_empty.
  - intros n.
    destruct (read_packets_empty_reads order MAX_SECTIONS DEVICE_KEYPAD DEVICE_SIREN_OUTDOOR
                DEVICE_OTHER DEVICE_EMPTY n e) as (_ & _ & Hd & Hr).
    by split.
  - intros packets Hnil Hne.
    by apply read_packets_restores.
  - intros packets Hnil Hne.
    rewrite read_packets_cons, read_round_empty.
    set (e1 := _update_all_entities (set_last_update_success false e)).
    destruct (read_packets_restores order MAX_SECTIONS DEVICE_KEYPAD DEVICE_SIREN_OUTDOOR
                DEVICE_OTHER DEVICE_EMPTY packets e1) as (Hf & Hr & Hd); [done..|].
    split; [done|]. rewrite Hd, Hr.
    subst e1. unfold health_notifications.
    cbn [_update_all_entities emit trace set_last_update_success last_update_success].
    rewrite !List.filter_app, !length_app. cbn. split; lia.
Qed.

(** An empty read, a sections-states packet, an unclassified packet. *)
Lemma health_notifications_per_read_witness :
  let e' :=
    _read_packets little 16 "keypad" "siren_outdoor" "other" "empty"
      [ReadBytes []; ReadBytes [x51; x22; x43; x00; x07; x00]; ReadBytes [x00]]
      example_engine in
  last_update_success e' = true
  ∧ health_notifications false (trace e') = 1%nat
  ∧ health_notifications true (trace e') = 1%nat.
Proof.
  assert (Hc : roster_complete (_config example_engine))
    by (unfold roster_complete; simpl; lia).
  pose proof (health_notifications_per_read little 16 "keypad" "siren_outdoor" "other"
                "empty" example_engine Hc) as (_ & _ & _ & Hscenario).
  apply (Hscenario [[x51; x22; x43; x00; x07; x00]; [x00]]).
  - discriminate.
  - repeat constructor; discriminate.
Defined.

(** C4, as stated, fails on the degraded side: after a first empty read has
    set the flag to degraded, a second empty read leaves the flag as it is
    and still notifies the subscribers. *)
Lemma health_notification_on_every_empty_read :
  let round := read_packets_round little 16 "keypad" "siren_outdoor" "other" "empty" in
  let e1 := round (ReadBytes []) example_engine in
  let e2 := round (ReadBytes []) e1 in
  last_update_success e1 = false
  ∧ last_update_success e2 = last_update_success e1
  ∧ trace e2 = trace e1 ++ [EvUpdateAllEntities false (_entities example_engine)]
  ∧ health_notifications false (trace e2) = 2%nat
  ∧ health_notifications false (trace e2) ≠ 1%nat.
Proof. vm_compute. repeat split; discriminate. Qed.

(** ** Code packet *)

Section CodePacket.

Implicit Types (c : ascii) (code : string) (i : nat).

Lemma decimal_digit_cases c :
  is_decimal_digit c = true →
  c ∈ ["0"; "1"; "2"; "3"; "4"; "5"; "6"; "7"; "8"; "9"]%char.
Proof.
  destruct c as [[] [] [] [] [] [] [] []]; vm_compute; intros H;
    first [discriminate H | set_solver].
Qed.

Lemma digit_value_range c : is_decimal_digit c = true → 0 <= digit_value c <= 9.
Proof.
  unfold is_decimal_digit, digit_value.
  intros [H1%Nat.leb_le H2%Nat.leb_le]%andb_true_iff. lia.
Qed.

(** [int(c)] on one character. *)
Lemma py_int_single c :
  py_int (String c "") 10
  = if is_decimal_digit c then Ok (digit_value c) else Raise ValueError.
Proof. destruct c as [[] [] [] [] [] [] [] []]; vm_compute; reflexivity. Qed.

Lemma py_int_empty : py_int "" 10 = Raise ValueError.
Proof. reflexivity. Qed.

(** [int(f"{c1}{c2}", 16)] on two decimal digits. *)
Lemma py_int_hex_pair c1 c2 :
  is_decimal_digit c1 = true → is_decimal_digit c2 = true →
  py_int (String c1 (String c2 "")) 16 = Ok (16 * digit_value c1 + digit_value c2).
Proof.
  intros H1%decimal_digit_cases H2%decimal_digit_cases.
  repeat (apply elem_of_cons in H1 as [->|H1]);
    try (by apply elem_of_nil in H1);
    repeat (apply elem_of_cons in H2 as [->|H2]);
    try (by apply elem_of_nil in H2);
    vm_compute; reflexivity.
Qed.

Lemma to_bytes_1_ok (v : Z) :
  0 <= v < 256 → ∃ b, to_bytes_1 v = Ok [b] ∧ byte_to_Z b = v.
Proof.
  intros Hv. unfold to_bytes_1. rewrite bool_decide_true by lia.
  destruct (Byte.of_N (Z.to_N v)) as [b|] eqn:Hb.
  - exists b. split; [done|]. apply Byte.to_of_N in Hb. unfold byte_to_Z. lia.
  - apply Byte.of_N_None_iff in Hb. lia.
Qed.

Lemma str_slice_1 code i :
  str_slice i (i + 1) code
  = match String.get i code with
    | Some c => String c ""
    | None => ""
    end.
Proof.
  unfold str_slice. replace (i + 1 - i)%nat with 1%nat by lia.
  revert i. induction code as [|a code IH]; intros [|i]; cbn [substring String.get].
  - done.
  - done.
  - by rewrite substring_0_0.
  - apply IH.
Qed.

Lemma get_all_digits code i c :
  all_digits code → String.get i code = Some c → is_decimal_digit c = true.
Proof.
  unfold all_digits. revert i.
  induction code as [|a code IH]; intros [|i]; cbn [list_ascii_of_string String.get];
    intros Hall Hget; try discriminate.
  - apply Forall_cons in Hall as [Ha _]. congruence.
  - apply Forall_cons in Hall as [_ Hall]. by apply (IH i).
Qed.

Lemma get_is_Some code i : (i < String.length code)%nat → is_Some (String.get i code).
Proof.
  revert i. induction code as [|a code IH]; intros [|i]; cbn [String.length String.get];
    intros Hi; [lia|lia|done|]. apply IH. lia.
Qed.

(** One round of the loop on a code of decimal digits. *)
Lemma code_packet_round_digits code i (code_packet : bytes) :
  all_digits code → (i < String.length code)%nat →
  ∃ b v, code_packet_round code i code_packet = Ok (code_packet ++ [b])
         ∧ code_byte_value code i = Some v
         ∧ byte_to_Z b = v.
Proof.
  intros Hall Hi. unfold code_packet_round, code_byte_value, digit_at.
  rewrite !str_slice_1.
  destruct (get_is_Some code i Hi) as [lo Hlo]. rewrite Hlo. cbn [fmap option_fmap option_map].
  pose proof (get_all_digits code i lo Hall Hlo) as Hdlo.
  pose proof (digit_value_range lo Hdlo) as Hrlo.
  destruct (String.get (i + 4) code) as [hi|] eqn:Hhi; cbn [fmap option_fmap option_map].
  - pose proof (get_all_digits code (i + 4) hi Hall Hhi) as Hdhi.
    pose proof (digit_value_range hi Hdhi) as Hrhi.
    rewrite bool_decide_false by discriminate.
    change (String hi "" +:+ String lo "") with (String hi (String lo "")).
    rewrite py_int_hex_pair by done. cbn [rbind]. unfold _int_to_bytes.
    destruct (to_bytes_1_ok (16 * digit_value hi + digit_value lo) ltac:(lia))
      as (b & -> & Hb).
    cbn [rbind]. by exists b, (16 * digit_value hi + digit_value lo).
  - rewrite bool_decide_true by done.
    rewrite py_int_single, Hdlo. cbn [rbind]. unfold _int_to_bytes.
    destruct (to_bytes_1_ok (48 + digit_value lo) ltac:(lia)) as (b & -> & Hb).
    cbn [rbind]. by exists b, (48 + digit_value lo).
Qed.

(** A round on a position past the end of a short code raises. *)
Lemma code_packet_round_past_end code i (code_packet : bytes) :
  (String.length code <= i)%nat →
  code_packet_round code i code_packet = Raise ValueError.
Proof.
  intros Hi. unfold code_packet_round. rewrite !str_slice_1.
  assert (Hnone : ∀ j, (String.length code <= j)%nat → String.get j code = None).
  { clear. induction code as [|a code IH]; intros [|j]; cbn [String.length String.get];
      intros Hj; [done|done|lia|]. apply IH. lia. }
  rewrite !Hnone by lia. rewrite bool_decide_true by done. reflexivity.
Qed.

(** A round on a code shorter than five characters either appends one
    byte or raises [ValueError]. *)
Lemma code_packet_round_short code i (code_packet : bytes) :
  (String.length code <= 4)%nat →
  (∃ b, code_packet_round code i code_packet = Ok (code_packet ++ [b]))
  ∨ code_packet_round code i code_packet = Raise ValueError.
Proof.
  intros Hlen. unfold code_packet_round. rewrite !str_slice_1.
  assert (String.get (i + 4) code = None) as ->.
  { assert (Hnone : ∀ j, (String.length code <= j)%nat → String.get j code = None).
    { clear. induction code as [|a code IH]; intros [|j];
        cbn [String.length String.get]; intros Hj; [done|done|lia|]. apply IH. lia. }
    apply Hnone. lia. }
  rewrite bool_decide_true by done.
  destruct (String.get i code) as [c|]; [|by right].
  rewrite py_int_single. destruct (is_decimal_digit c) eqn:Hc; [|by right].
  cbn [rbind]. unfold _int_to_bytes.
  pose proof (digit_value_range c Hc).
  destruct (to_bytes_1_ok (48 + digit_value c) ltac:(lia)) as (b & -> & _).
  left. by exists b.
Qed.

End CodePacket.

Lemma create_code_packet_unfold (code : string) :
  _create_code_packet code
  = rbind (rbind (rbind (rbind (Ok CODE_PACKET_PREFIX)
                               (code_packet_round code 0))
                        (code_packet_round code 1))
                 (code_packet_round code 2))
          (code_packet_round code 3).
Proof. reflexivity. Qed.

Lemma create_code_packet_digits (code : string) :
  all_digits code → (4 <= String.length code)%nat →
  ∃ b0 b1 b2 b3,
    _create_code_packet code = Ok (CODE_PACKET_PREFIX ++ [b0; b1; b2; b3])
    ∧ code_byte_value code 0 = Some (byte_to_Z b0)
    ∧ code_byte_value code 1 = Some (byte_to_Z b1)
    ∧ code_byte_value code 2 = Some (byte_to_Z b2)
    ∧ code_byte_value code 3 = Some (byte_to_Z b3).
Proof.
  intros Hall Hlen. rewrite create_code_packet_unfold. cbn [rbind].
  destruct (code_packet_round_digits code 0 CODE_PACKET_PREFIX Hall ltac:(lia))
    as (b0 & v0 & -> & Hv0 & <-). cbn [rbind].
  destruct (code_packet_round_digits code 1 (CODE_PACKET_PREFIX ++ [b0]) Hall ltac:(lia))
    as (b1 & v1 & -> & Hv1 & <-). cbn [rbind].
  destruct (code_packet_round_digits code 2 ((CODE_PACKET_PREFIX ++ [b0]) ++ [b1])
              Hall ltac:(lia))
    as (b2 & v2 & -> & Hv2 & <-). cbn [rbind].
  destruct (code_packet_round_digits code 3 (((CODE_PACKET_PREFIX ++ [b0]) ++ [b1]) ++ [b2])
              Hall ltac:(lia))
    as (b3 & v3 & -> & Hv3 & <-). cbn [rbind].
  exists b0, b1, b2, b3. rewrite <- !app_assoc. done.
Qed.

Lemma create_code_packet_short (code : string) :
  (String.length code < 4)%nat → _create_code_packet code = Raise ValueError.
Proof.
  intros Hlen. rewrite create_code_packet_unfold. cbn [rbind].
  destruct (code_packet_round_short code 0 CODE_PACKET_PREFIX ltac:(lia)) as [[b0 ->]| ->];
    [|done]. cbn [rbind].
  destruct (code_packet_round_short code 1 (CODE_PACKET_PREFIX ++ [b0]) ltac:(lia))
    as [[b1 ->]| ->]; [|done]. cbn [rbind].
  destruct (code_packet_round_short code 2 ((CODE_PACKET_PREFIX ++ [b0]) ++ [b1])
              ltac:(lia)) as [[b2 ->]| ->]; [|done]. cbn [rbind].
  apply code_packet_round_past_end. lia.
Qed.

(** C9, as the code has it.  For a code of at least four decimal digits the
    code packet is the fixed 6-byte prefix 80 08 03 39 39 39 followed by 4
    code bytes; code byte [i] has the digit at position [i + 4] as its high
    nibble and the digit at position [i] as its low nibble when the code has
    a character at position [i + 4], and is 48 plus the digit at position
    [i] when it has none.  For "1234" the payload is 31 32 33 34. *)
Theorem code_packet_layout (code : string) :
  all_digits code → (4 <= String.length code)%nat →
  (∃ payload : bytes,
     _create_code_packet code = Ok (CODE_PACKET_PREFIX ++ payload)
     ∧ length payload = 4%nat
     ∧ ∀ i : nat, (i < 4)%nat → byte_to_Z <$> payload !! i = code_byte_value code i)
  ∧ CODE_PACKET_PREFIX = [x80; x08; x03; x39; x39; x39]
  ∧ _create_code_packet "1234" = Ok (CODE_PACKET_PREFIX ++ [x31; x32; x33; x34]).
Proof.
  intros Hall Hlen. split; [|done].
  destruct (create_code_packet_digits code Hall Hlen)
    as (b0 & b1 & b2 & b3 & -> & H0 & H1 & H2 & H3).
  exists [b0; b1; b2; b3]. split; [done|]. split; [done|].
  intros [|[|[|[|i]]]] Hi; cbn; try done. lia.
Qed.

(** A six-digit code: two combined bytes, two fallback bytes. *)
Lemma code_packet_layout_witness :
  ∃ payload : bytes,
    _create_code_packet "123456" = Ok (CODE_PACKET_PREFIX ++ payload)
    ∧ length payload = 4%nat
    ∧ ∀ i : nat, (i < 4)%nat → byte_to_Z <$> payload !! i = code_byte_value "123456" i.
Proof.
  apply (code_packet_layout "123456").
  - repeat constructor.
  - simpl. lia.
Defined.

Example create_code_packet_123456 :
  _create_code_packet "123456" = Ok (CODE_PACKET_PREFIX ++ [x51; x62; x33; x34]).
Proof. vm_compute. reflexivity. Qed.

(** C9, as stated, fails: the bytes in front of the four code bytes are six,
    not three, so the packet of "1234" is no 3-byte prefix followed by 4
    code bytes. *)
Lemma code_packet_prefix_not_three_bytes :
  _create_code_packet "1234" = Ok [x80; x08; x03; x39; x39; x39; x31; x32; x33; x34]
  ∧ ¬ ∃ prefix payload : bytes,
        length prefix = 3%nat ∧ length payload = 4%nat
        ∧ _create_code_packet "1234" = Ok (prefix ++ payload).
Proof.
  split; [vm_compute; reflexivity|].
  intros (prefix & payload & Hp & Hl & Heq).
  assert (Hlen : length (prefix ++ payload) = 10%nat).
  { change (_create_code_packet "1234")
      with (@Ok bytes [x80; x08; x03; x39; x39; x39; x31; x32; x33; x34]) in Heq.
    injection Heq as <-. reflexivity. }
  rewrite length_app in Hlen. lia.
Qed.

(** C10. For every code of 4 to 8 decimal digits the code packet is built
    without an exception and has exactly 10 bytes; a code of fewer than 4
    characters, such as "123", makes the operation raise ([ValueError]). *)
Theorem code_packet_domain (code : string) :
  all_digits code → (4 <= String.length code <= 8)%nat →
  (∃ packet : bytes, _create_code_packet code = Ok packet ∧ length packet = 10%nat)
  ∧ _create_code_packet "123" = Raise ValueError
  ∧ ∀ short : string,
      (String.length short < 4)%nat → _create_code_packet short = Raise ValueError.
Proof.
  intros Hall [Hlen _]. split; [|split].
  - destruct (create_code_packet_digits code Hall Hlen) as (b0 & b1 & b2 & b3 & -> & _).
    by eexists.
  - reflexivity.
  - apply create_code_packet_short.
Qed.

Lemma code_packet_domain_witness :
  ∃ packet : bytes, _create_code_packet "12345678" = Ok packet ∧ length packet = 10%nat.
Proof.
  apply (code_packet_domain "12345678").
  - repeat constructor.
  - simpl. lia.
Defined.

(** ** Arm/disarm command *)

Lemma py_getitem_int_packets (state : string) (base : Z) :
  (state, base) ∈ int_packets → py_getitem int_packets state = Ok base.
Proof.
  unfold int_packets. rewrite !elem_of_cons, elem_of_nil.
  intros [[= -> ->]|[[= -> ->]|[[= -> ->]|[]]]]; vm_compute; reflexivity.
Qed.

Lemma int_packets_getitem (state : string) (base : Z) :
  py_getitem int_packets state = Ok base → (state, base) ∈ int_packets.
Proof.
  unfold py_getitem.
  destruct (list_to_map int_packets !! state) as [v|] eqn:Hv; [|discriminate].
  intros [= ->]. by apply elem_of_list_to_map_2 in Hv.
Qed.

Lemma int_packets_rows (state : string) (base : Z) :
  (state, base) ∈ int_packets
  ↔ (state = STATE_ALARM_DISARMED ∧ base = 143)
    ∨ (state = STATE_ALARM_ARMED_AWAY ∧ base = 159)
    ∨ (state = STATE_ALARM_ARMED_NIGHT ∧ base = 175).
Proof.
  unfold int_packets. rewrite !elem_of_cons, elem_of_nil. split.
  - intros [[= -> ->]|[[= -> ->]|[[= -> ->]|[]]]]; auto.
  - intros [[-> ->]|[[-> ->]|[-> ->]]]; auto.
Qed.

(** C5. The arm/disarm command has a base code for each of the three target
    states: 143 for disarmed, 159 for armed_away, 175 for armed_night; they
    are pairwise distinct, and any other target state raises [KeyError]
    with nothing sent.  For each of the three target states and every
    section in 1..MAX_SECTIONS, with MAX_SECTIONS at most 16, the command
    sends the code packet, the command prefix 80 02 0d and one byte of
    value base code + section; that byte decodes to the original target
    state and section and to nothing else, and no other target state and
    section in range give the same byte. *)
Theorem command_encoding_round_trip
    (MAX_SECTIONS section : Z) (state : string)
    (code : option string) (code_packet : bytes) (e : Engine) :
  MAX_SECTIONS <= 16 →
  1 <= section <= MAX_SECTIONS →
  state ∈ [STATE_ALARM_DISARMED; STATE_ALARM_ARMED_AWAY; STATE_ALARM_ARMED_NIGHT] →
  _create_code_packet (default (CONF_PASSWORD (_config e)) code) = Ok code_packet →
  (py_getitem int_packets STATE_ALARM_DISARMED = Ok 143
   ∧ py_getitem int_packets STATE_ALARM_ARMED_AWAY = Ok 159
   ∧ py_getitem int_packets STATE_ALARM_ARMED_NIGHT = Ok 175)
  ∧ NoDup (int_packets.*2)
  ∧ NoDup (int_packets.*1)
  ∧ (∀ other,
       other ∉ [STATE_ALARM_DISARMED; STATE_ALARM_ARMED_AWAY; STATE_ALARM_ARMED_NIGHT] →
       modify_alarm_control_panel_section_state section other code e = (e, Raise KeyError))
  ∧ ∃ (base : Z) (b : byte),
      py_getitem int_packets state = Ok base
      ∧ byte_to_Z b = base + section
      ∧ modify_alarm_control_panel_section_state section state code e
        = (_send_packet (code_packet ++ COMMAND_PREFIX ++ [b]) e, Ok tt)
      ∧ decode_state_byte MAX_SECTIONS (byte_to_Z b) = [(state, section)]
      ∧ ∀ state' base' section',
          py_getitem int_packets state' = Ok base' →
          1 <= section' <= MAX_SECTIONS →
          base' + section' = byte_to_Z b →
          state' = state ∧ section' = section.
Proof.
  intros Hmax Hsection Hstate Hcode.
  assert (Hc : (match code with
                | Some c => ret c
                | None => read (fun e => CONF_PASSWORD (_config e))
                end) e = (e, Ok (default (CONF_PASSWORD (_config e)) code)))
    by (by destruct code).
  split; [by repeat split|]. split; [|split; [|split]].
  { apply (bool_decide_unpack _). vm_compute. exact I. }
  { apply (bool_decide_unpack _). vm_compute. exact I. }
  { intros other Hother.
    unfold modify_alarm_control_panel_section_state, bind, lift, modify. rewrite Hc.
    destruct (py_getitem int_packets other) as [base|x] eqn:Hget.
    - apply int_packets_getitem, int_packets_rows in Hget.
      exfalso. apply Hother. rewrite !elem_of_cons. tauto.
    - revert Hget. unfold py_getitem.
      by destruct (list_to_map int_packets !! other); intros [= <-]. }
  assert (Hrow : ∃ base, (state, base) ∈ int_packets).
  { rewrite !elem_of_cons, elem_of_nil in Hstate.
    destruct Hstate as [->|[->|[->|[]]]]; eexists; apply int_packets_rows; eauto. }
  destruct Hrow as [base Hrow].
  pose proof (proj1 (int_packets_rows state base) Hrow) as Hbase.
  destruct (to_bytes_1_ok (base + section) ltac:(lia)) as (b & Hb & Hv).
  exists base, b.
  split; [by apply py_getitem_int_packets|]. split; [done|]. split; [|split].
  - unfold modify_alarm_control_panel_section_state, bind, lift, modify.
    rewrite Hc, (py_getitem_int_packets state base Hrow).
    unfold _int_to_bytes. rewrite Hb, Hcode. reflexivity.
  - rewrite Hv. unfold decode_state_byte, int_packets.
    destruct Hbase as [[-> ->]|[[-> ->]|[-> ->]]]; cbn [omap list_omap fst snd];
      repeat (first [ rewrite bool_decide_true by lia
                    | rewrite bool_decide_false by lia ]);
      do 2 f_equal; lia.
  - intros state' base' section' Hget Hsection' Heq. rewrite Hv in Heq.
    apply int_packets_getitem, int_packets_rows in Hget.
    destruct Hbase as [[-> ->]|[[-> ->]|[-> ->]]];
      destruct Hget as [[-> ->]|[[-> ->]|[-> ->]]]; first [lia | split; [done|lia]].
Qed.

(** Arming section 16 for the night with the code "1234". *)
Lemma command_encoding_round_trip_witness :
  ∃ (base : Z) (b : byte),
    py_getitem int_packets STATE_ALARM_ARMED_NIGHT = Ok base
    ∧ byte_to_Z b = base + 16
    ∧ modify_alarm_control_panel_section_state 16 STATE_ALARM_ARMED_NIGHT (Some "1234")
        example_engine
      = (_send_packet
           ([x80; x08; x03; x39; x39; x39; x31; x32; x33; x34] ++ COMMAND_PREFIX ++ [b])
           example_engine, Ok tt)
    ∧ decode_state_byte 16 (byte_to_Z b) = [(STATE_ALARM_ARMED_NIGHT, 16)]
    ∧ ∀ state' base' section',
        py_getitem int_packets state' = Ok base' →
        1 <= section' <= 16 →
        base' + section' = byte_to_Z b →
        state' = STATE_ALARM_ARMED_NIGHT ∧ section' = 16.
Proof.
  apply (command_encoding_round_trip 16 16 STATE_ALARM_ARMED_NIGHT (Some "1234")
           [x80; x08; x03; x39; x39; x39; x31; x32; x33; x34] example_engine).
  - lia.
  - lia.
  - apply (bool_decide_unpack _). vm_compute. exact I.
  - vm_compute. reflexivity.
Defined.

Example disarm_section_2_packet :
  trace (modify_alarm_control_panel_section_state 2 STATE_ALARM_DISARMED None
           example_engine).1
  = [EvSendPacket [x80; x08; x03; x39; x39; x39; x31; x32; x33; x34; x80; x02; x0d; x91]].
Proof. vm_compute. reflexivity. Qed.

(** * Further properties of the code *)

(** ** Byte codec *)

(** X1. [_int_to_bytes] gives one byte for the numbers 0..255, which
    [_bytes_to_int] reads back under either byte order, and raises
    [OverflowError] for every other number. *)
Theorem int_to_bytes_round_trip (order : ByteOrder) (number : Z) :
  (0 <= number <= 255 →
   ∃ b : byte, _int_to_bytes number = Ok [b] ∧ _bytes_to_int order [b] = number)
  ∧ (number < 0 ∨ 255 < number → _int_to_bytes number = Raise OverflowError).
Proof.
  split.
  - intros Hn. destruct (to_bytes_1_ok number ltac:(lia)) as (b & Hb & Hv).
    exists b. split; [exact Hb|].
    unfold _bytes_to_int. by rewrite from_bytes_singleton.
  - intros Hn. unfold _int_to_bytes, to_bytes_1.
    case_bool_decide as Hpos; [|done].
    destruct (Byte.of_N (Z.to_N number)) as [b|] eqn:Hb; [|done].
    apply Byte.to_of_N in Hb. pose proof (Byte.to_N_bounded b). lia.
Qed.

Lemma slice_4_6_lookup (packet : bytes) (b4 b5 : byte) :
  packet !! 4%nat = Some b4 → packet !! 5%nat = Some b5 → slice 4 6 packet = [b4; b5].
Proof.
  intros H4 H5.
  destruct packet as [|x0 [|x1 [|x2 [|x3 [|x4 [|x5 rest]]]]]]; try discriminate.
  simpl in H4, H5. injection H4 as ->. injection H5 as ->. reflexivity.
Qed.

(** X2. The device number of a state packet is the 16-bit value of the bytes
    at offsets 4 and 5 divided by 64: with the low byte first it is
    4 * b5 + b4 / 64, with the high byte first 4 * b4 + b5 / 64.  It lies in
    0..1023, and a byte pair that holds 64 * n + r with r below 64 gives
    back n. *)
Theorem device_number_recovery (packet : bytes) (b4 b5 : byte) :
  packet !! 4%nat = Some b4 → packet !! 5%nat = Some b5 →
  _parse_device_number_from_state_packet little packet
  = 4 * byte_to_Z b5 + byte_to_Z b4 `div` 64
  ∧ _parse_device_number_from_state_packet big packet
    = 4 * byte_to_Z b4 + byte_to_Z b5 `div` 64
  ∧ (∀ order, 0 <= _parse_device_number_from_state_packet order packet <= 1023)
  ∧ (∀ n r, 0 <= r < 64 → byte_to_Z b4 + 256 * byte_to_Z b5 = 64 * n + r →
       _parse_device_number_from_state_packet little packet = n).
Proof.
  intros H4 H5.
  pose proof (byte_to_Z_range b4) as R4. pose proof (byte_to_Z_range b5) as R5.
  unfold _parse_device_number_from_state_packet, _bytes_to_int, int_truediv.
  rewrite (slice_4_6_lookup _ _ _ H4 H5).
  assert (Hl : from_bytes [b4; b5] little = byte_to_Z b4 + 256 * byte_to_Z b5)
    by (cbn; lia).
  assert (Hb : from_bytes [b4; b5] big = byte_to_Z b5 + 256 * byte_to_Z b4)
    by (cbn; lia).
  assert (Hq : ∀ lo hi, 0 <= lo < 256 → 0 <= hi < 256 →
            (lo + 256 * hi) ÷ 64 = 4 * hi + lo `div` 64).
  { intros lo hi Hlo Hhi. rewrite Z.quot_div_nonneg by lia.
    replace (lo + 256 * hi) with (lo + (4 * hi) * 64) by lia.
    rewrite Z.div_add by lia. lia. }
  assert (Hd : ∀ lo, 0 <= lo < 256 → 0 <= lo `div` 64 <= 3).
  { intros lo Hlo. split; [apply Z.div_pos; lia|].
    apply Z.lt_succ_r, Z.div_lt_upper_bound; lia. }
  rewrite Hl, Hb, !Hq by done.
  split; [done|]. split; [done|]. split.
  - intros [|]; [rewrite Hl|rewrite Hb]; rewrite Hq by done.
    + pose proof (Hd _ R4). lia.
    + pose proof (Hd _ R5). lia.
  - intros n r Hr Heq.
    assert (byte_to_Z b4 `div` 64 = n - 4 * byte_to_Z b5) as ->; [|lia].
    symmetry. apply (Z.div_unique _ 64 _ r); lia.
Qed.

Lemma device_number_recovery_witness :
  _parse_device_number_from_state_packet little [x55; x09; x00; x00; x40; x1f] = 125.
Proof.
  destruct (device_number_recovery [x55; x09; x00; x00; x40; x1f] x40 x1f eq_refl eq_refl)
    as (_ & _ & _ & Hn).
  apply (Hn 125 0); [lia|reflexivity].
Defined.

Lemma slice_2_3_cases (packet : bytes) :
  slice 2 3 packet = [] ∨ ∃ b, slice 2 3 packet = [b].
Proof.
  destruct packet as [|x0 [|x1 [|x2 rest]]]; [by left..|]. right. by exists x2.
Qed.

(** X3. The three causes of a device-state packet exclude each other: for
    every packet at most one of the tests for activity, sabotage and fault
    holds. *)
Theorem device_causes_exclusive (order : ByteOrder) (packet : bytes) :
  ¬ (_is_device_state_packet_for_activity packet = true
     ∧ _is_device_state_packet_for_sabotage order packet = true)
  ∧ ¬ (_is_device_state_packet_for_activity packet = true
       ∧ _is_device_state_packet_for_fault order packet = true)
  ∧ ¬ (_is_device_state_packet_for_sabotage order packet = true
       ∧ _is_device_state_packet_for_fault order packet = true).
Proof.
  unfold _is_device_state_packet_for_activity, _is_device_state_packet_for_sabotage,
    _is_device_state_packet_for_fault, _bytes_to_int.
  destruct (slice_2_3_cases packet) as [->|[b ->]].
  - rewrite from_bytes_nil. repeat split; intros [H1 H2];
      apply bool_decide_eq_true in H2; discriminate.
  - rewrite from_bytes_singleton.
    repeat split; intros [H1 H2];
      apply bool_decide_eq_true in H1; apply bool_decide_eq_true in H2.
    + revert H1 H2. destruct b; vm_compute; intros H1 H2;
        first [discriminate H2 | by set_unfold; intuition discriminate].
    + revert H1 H2. destruct b; vm_compute; intros H1 H2;
        first [discriminate H2 | by set_unfold; intuition discriminate].
    + rewrite H1 in H2. discriminate.
Qed.

(** ** Device state decoder *)

Lemma slice_3_4_cases (packet : bytes) :
  slice 3 4 packet = [] ∨ ∃ b, packet !! 3%nat = Some b ∧ slice 3 4 packet = [b].
Proof.
  destruct packet as [|x0 [|x1 [|x2 [|x3 rest]]]]; [by left..|]. right. by exists x3.
Qed.

Lemma state_byte_range (order : ByteOrder) (packet : bytes) :
  0 <= _bytes_to_int order (slice 3 4 packet) <= 255.
Proof.
  unfold _bytes_to_int. destruct (slice_3_4_cases packet) as [->|(b & _ & ->)].
  - rewrite from_bytes_nil. lia.
  - rewrite from_bytes_singleton. pose proof (byte_to_Z_range b). lia.
Qed.

(** X4. No state byte is ever recognized for device 37, for devices 97 to
    101, or for devices above 165: their four candidate values fall outside
    0..255, so the classification is [None] for every packet.  Every other
    device number from 1 on has a state byte that reads on and one that
    reads off. *)
Theorem device_state_recognizable (order : ByteOrder) (n : Z) :
  (n = 37 ∨ 97 <= n <= 101 ∨ 165 < n →
   ∀ packet, _convert_jablotron_device_state_to_state order packet n = None)
  ∧ (1 <= n <= 36 ∨ 38 <= n <= 96 ∨ 102 <= n <= 165 →
     ∃ b_on b_off : byte, ∀ (p0 p1 p2 : byte) (rest : bytes),
       _convert_jablotron_device_state_to_state order (p0 :: p1 :: p2 :: b_on :: rest) n
       = Some STATE_ON
       ∧ _convert_jablotron_device_state_to_state order (p0 :: p1 :: p2 :: b_off :: rest) n
         = Some STATE_OFF).
Proof.
  split.
  - intros Hn packet. pose proof (state_byte_range order packet) as Hs.
    unfold _convert_jablotron_device_state_to_state.
    set (state := _bytes_to_int order (slice 3 4 packet)) in *.
    repeat case_bool_decide; cbn [orb]; first [reflexivity | lia].
  - intros Hn.
    set (correction := if bool_decide (n <= 36) then 0
                       else if bool_decide (n <= 96) then -64 else -128).
    set (base := (n + correction) * 4 + 104).
    assert (Hbase : 0 <= base ∧ base + 3 <= 255)
      by (subst base correction; repeat case_bool_decide; lia).
    destruct (to_bytes_1_ok base ltac:(lia)) as (b_on & _ & Hon).
    destruct (to_bytes_1_ok (base + 2) ltac:(lia)) as (b_off & _ & Hoff).
    exists b_on, b_off. intros p0 p1 p2 rest.
    unfold _convert_jablotron_device_state_to_state, _bytes_to_int.
    change (slice 3 4 (p0 :: p1 :: p2 :: b_on :: rest)) with [b_on].
    change (slice 3 4 (p0 :: p1 :: p2 :: b_off :: rest)) with [b_off].
    rewrite !from_bytes_singleton, Hon, Hoff. fold correction. fold base.
    split.
    + rewrite (bool_decide_false (base = base + 2)), (bool_decide_false (base = base + 3)),
        (bool_decide_true (base = base)) by lia. reflexivity.
    + rewrite (bool_decide_true (base + 2 = base + 2)) by lia. reflexivity.
Qed.

Lemma device_state_recognizable_witness :
  _convert_jablotron_device_state_to_state little [x55; x08; x00; x03; x40; x09] 37 = None.
Proof.
  apply (device_state_recognizable little 37). left. reflexivity.
Defined.

(** ** Section enumeration *)

(** The 2-byte slot of a section in a sections-states packet. *)
Lemma sections_states_scan_prefix (packet : bytes) (sections : list Z) :
  let l := sections_states_scan packet sections in
  l.*1 = take (length l) sections
  ∧ Forall (fun entry : Z * bytes =>
              entry.2 = slice (Z.to_nat (entry.1 * 2)) (Z.to_nat (entry.1 * 2) + 2) packet
              ∧ entry.2 ≠ [x07; x00]) l
  ∧ ∀ section, sections !! length l = Some section →
      slice (Z.to_nat (section * 2)) (Z.to_nat (section * 2) + 2) packet = [x07; x00].
Proof.
  cbv zeta. induction sections as [|s sections IH]; cbn [sections_states_scan].
  { split; [done|]. split; [constructor|]. intros section. discriminate. }
  case_bool_decide as Hs.
  - split; [done|]. split; [constructor|]. intros section [= <-]. exact Hs.
  - destruct IH as (Hkeys & Hall & Hstop).
    cbn [length fmap list_fmap take fst]. split; [|split].
    + f_equal. exact Hkeys.
    + constructor; [done|exact Hall].
    + intros section Hsec. by apply Hstop.
Qed.

Lemma take_seqZ (m n : Z) (k : nat) :
  Z.of_nat k <= n → take k (seqZ m n) = seqZ m (Z.of_nat k).
Proof.
  intros Hk. unfold seqZ. rewrite <- fmap_take, take_seq.
  rewrite Nat2Z.id. f_equal. f_equal. lia.
Qed.

(** X5. The sections found in a sections-states packet are numbered 1..k
    without gaps, k being at most MAX_SECTIONS; each comes with the two
    bytes at offset 2 * section, none of which is the sentinel 07 00; and
    when k is below MAX_SECTIONS the enumeration stopped because the slot of
    section k + 1 holds the sentinel. *)
Theorem sections_enumeration (MAX_SECTIONS : Z) (packet : bytes) :
  let l := _parse_sections_states_packet MAX_SECTIONS packet in
  let k := Z.of_nat (length l) in
  l.*1 = seqZ 1 k
  ∧ k <= Z.max 0 MAX_SECTIONS
  ∧ (∀ section record, (section, record) ∈ l →
       record = slice (Z.to_nat (section * 2)) (Z.to_nat (section * 2) + 2) packet
       ∧ record ≠ [x07; x00])
  ∧ (k < MAX_SECTIONS →
     slice (Z.to_nat ((k + 1) * 2)) (Z.to_nat ((k + 1) * 2) + 2) packet = [x07; x00]).
Proof.
  cbv zeta. unfold _parse_sections_states_packet.
  destruct (sections_states_scan_prefix packet (seqZ 1 MAX_SECTIONS))
    as (Hkeys & Hall & Hstop).
  set (l := sections_states_scan packet (seqZ 1 MAX_SECTIONS)) in *.
  assert (Hlen : Z.of_nat (length l) <= Z.max 0 MAX_SECTIONS).
  { assert (length l.*1 = length l) as Hf by apply length_fmap.
    rewrite Hkeys, length_take, length_seqZ in Hf. lia. }
  split; [|split; [exact Hlen|split]].
  - rewrite Hkeys.
    destruct (decide (length l = 0%nat)) as [->|]; [by rewrite take_0|].
    apply take_seqZ. lia.
  - intros section record Hin.
    apply (proj1 (Forall_forall _ _) Hall (section, record) Hin).
  - intros Hk. apply Hstop. rewrite lookup_seqZ_lt by lia. f_equal. lia.
Qed.

(** ** The bitfield of the aggregate packet *)

Lemma string_length_append (s t : string) :
  String.length (s +:+ t) = (String.length s + String.length t)%nat.
Proof.
  induction s as [|a s IH]; [done|]. rewrite append_cons. cbn [String.length]. by rewrite IH.
Qed.

Lemma string_length_zeros (k : nat) : String.length (zeros k) = k.
Proof. induction k as [|k IH]; [done|]. rewrite zeros_S. cbn [String.length]. by rewrite IH. Qed.

Lemma string_length_bin_positive (p : positive) (acc : string) :
  String.length (bin_positive p acc)
  = (String.length (lsb_digits p) + String.length acc)%nat.
Proof.
  revert acc. induction p as [q IH|q IH|]; intros acc; cbn [bin_positive lsb_digits];
    rewrite ?IH; cbn [String.length]; lia.
Qed.

Lemma lsb_digits_length_bound (p : positive) (n : nat) :
  Z.pos p < 2 ^ Z.of_nat n → (String.length (lsb_digits p) <= n)%nat.
Proof.
  revert n. induction p as [q IH|q IH|]; intros [|n] Hp; cbn [lsb_digits String.length].
  - rewrite Z.pow_0_r in Hp. lia.
  - rewrite Nat2Z.inj_succ, Z.pow_succ_r in Hp by lia.
    specialize (IH n ltac:(lia)). lia.
  - rewrite Z.pow_0_r in Hp. lia.
  - rewrite Nat2Z.inj_succ, Z.pow_succ_r in Hp by lia.
    specialize (IH n ltac:(lia)). lia.
  - rewrite Z.pow_0_r in Hp. lia.
  - lia.
Qed.

Lemma from_bytes_little_bound (p : bytes) :
  from_bytes_little p < 2 ^ Z.of_nat (length p * 8).
Proof.
  induction p as [|b p IH]; [done|].
  cbn [from_bytes_little length]. pose proof (byte_to_Z_range b).
  replace (Z.of_nat (S (length p) * 8)) with (8 + Z.of_nat (length p * 8)) by lia.
  rewrite Z.pow_add_r by lia. change (2 ^ 8) with 256. lia.
Qed.

Lemma from_bytes_little_testbit (p : bytes) (i : Z) :
  0 <= i →
  Z.testbit (from_bytes_little p) i
  = match p !! Z.to_nat (i `div` 8) with
    | Some b => Z.testbit (byte_to_Z b) (i `mod` 8)
    | None => false
    end.
Proof.
  revert i. induction p as [|b p IH]; intros i Hi.
  { cbn [from_bytes_little]. by rewrite Z.testbit_0_l. }
  cbn [from_bytes_little]. pose proof (byte_to_Z_range b) as Hb.
  destruct (decide (i < 8)) as [Hlt|Hge].
  - rewrite Z.div_small, Z.mod_small by lia. cbn [lookup list_lookup Z.to_nat].
    rewrite <- (Z.mod_pow2_bits_low _ 8) by lia. change (2 ^ 8) with 256.
    f_equal. rewrite (Z.mul_comm 256), Z.mod_add by lia. apply Z.mod_small. lia.
  - replace i with ((i - 8) + 8) at 1 by lia.
    rewrite <- Z.div_pow2_bits by lia. change (2 ^ 8) with 256.
    rewrite (Z.mul_comm 256), Z.div_add by lia.
    rewrite (Z.div_small (byte_to_Z b)), Z.add_0_l by lia.
    rewrite IH by lia.
    assert (i `div` 8 = (i - 8) `div` 8 + 1) as ->.
    { replace i with ((i - 8) + 1 * 8) at 1 by lia. by rewrite Z.div_add by lia. }
    assert (i `mod` 8 = (i - 8) `mod` 8) as ->.
    { replace i with ((i - 8) + 1 * 8) at 1 by lia. by rewrite Z.mod_add by lia. }
    replace (Z.to_nat ((i - 8) `div` 8 + 1)) with (S (Z.to_nat ((i - 8) `div` 8))).
    + reflexivity.
    + pose proof (Z.div_pos (i - 8) 8 ltac:(lia) ltac:(lia)). lia.
Qed.

(** X6. The expanded bitfield has eight characters for each byte of a
    non-empty bitfield, and its character at position [i] is ["1"] exactly
    when bit [i mod 8] of byte [i / 8] is set, the bytes being counted from
    the least significant one (the first byte on a little-endian host). *)
Theorem bitfield_characters (order : ByteOrder) (hex : bytes) (i : Z) :
  0 <= i →
  let by_significance := match order with little => hex | big => rev hex end in
  (str_slice (Z.to_nat i) (Z.to_nat (i + 1)) (_hex_to_bin order hex) = "1"
   ↔ ∃ b : byte, by_significance !! Z.to_nat (i `div` 8) = Some b
                 ∧ Z.testbit (byte_to_Z b) (i `mod` 8) = true)
  ∧ (hex ≠ [] → String.length (_hex_to_bin order hex) = (length hex * 8)%nat).
Proof.
  intros Hi. cbv zeta. split.
  - rewrite hex_to_bin_bit by done. unfold _bytes_to_int.
    assert (from_bytes hex order
            = from_bytes_little match order with little => hex | big => rev hex end)
      as -> by (by destruct order).
    rewrite from_bytes_little_testbit by done.
    destruct (_ !! _) as [b|]; [|split; [done|by intros (? & ? & _)]].
    split; [by exists b|by intros (? & [= <-] & ?)].
  - intros Hne. unfold _hex_to_bin, py_zfill, _bytes_to_int.
    assert (Hlen : (1 <= length hex)%nat) by (destruct hex; [done|simpl; lia]).
    assert (Hbound : from_bytes hex order < 2 ^ Z.of_nat (length hex * 8)).
    { destruct order; cbn [from_bytes]; [apply from_bytes_little_bound|].
      rewrite <- length_rev. apply from_bytes_little_bound. }
    pose proof (from_bytes_nonneg hex order) as Hnn.
    destruct (from_bytes hex order) as [|p|p]; [| |lia]; cbn [py_bin_digits].
    + fold (zeros (length hex * 8 - String.length "0")).
      unfold String.rev. rewrite rev_app_zeros. cbn [String.rev_app String.length].
      rewrite append_empty. cbn [String.length]. rewrite string_length_zeros. lia.
    + fold (zeros (length hex * 8 - String.length (bin_positive p ""))).
      rewrite rev_zfill_bin_positive, string_length_append, string_length_zeros,
        string_length_bin_positive.
      pose proof (lsb_digits_length_bound p _ Hbound). cbn [String.length]. lia.
Qed.

(** Device 9 is bit 1 of the second bitfield byte. *)
Lemma bitfield_characters_witness :
  str_slice 9 10 (_hex_to_bin little [x00; x02; x00]) = "1".
Proof.
  apply (bitfield_characters little [x00; x02; x00] 9 ltac:(lia)).
  exists x02. split; reflexivity.
Defined.

(** ** Device-state packets: what they touch *)

Section DeviceStateFrame.

Variable byteorder : ByteOrder.
Variables DEVICE_KEYPAD DEVICE_SIREN_OUTDOOR DEVICE_OTHER DEVICE_EMPTY : string.

Implicit Types (e : Engine) (packet : bytes) (id : string).

Local Abbreviation parse_device_state_packet :=
  (_parse_device_state_packet
     byteorder DEVICE_KEYPAD DEVICE_SIREN_OUTDOOR DEVICE_OTHER DEVICE_EMPTY).
Local Abbreviation device_number := (_parse_device_number_from_state_packet byteorder).

(** X7. A device-state packet touches the states of its own device only.
    From the LAN module (device 125 of a JA-101K-LAN) it can only change
    the LAN connection state; from any other device it can only change the
    activity sensor or the problem sensor of that device.  A packet of the central
    unit (device 0), of a device beyond the configured number, or of a
    keypad, an "other" or an empty slot changes nothing. *)
Theorem device_state_packet_frame packet e :
  let n := device_number packet in
  let e' := (parse_device_state_packet packet e).1 in
  (_get_lan_connection_device_number e = Some n →
   ∀ id, id ≠ _create_lan_connection_id → states e' !! id = states e !! id)
  ∧ (_get_lan_connection_device_number e ≠ Some n →
     ∀ id, id ≠ _create_device_sensor_id n → id ≠ _create_device_problem_sensor_id n →
           states e' !! id = states e !! id)
  ∧ (n = 0 → states e' = states e)
  ∧ (_get_lan_connection_device_number e ≠ Some n →
     CONF_NUMBER_OF_DEVICES (_config e) < n → states e' = states e)
  ∧ (_get_lan_connection_device_number e ≠ Some n →
     _is_device_ignored DEVICE_KEYPAD DEVICE_OTHER DEVICE_EMPTY n e = Ok true →
     states e' = states e).
Proof.
  cbv zeta. split; [|split; [|split; [|split]]].
  - intros Hlan id Hid.
    unfold _parse_device_state_packet.
    case_bool_decide as Hz; [done|].
    unfold bind, read, lift, modify, ret. cbv beta.
    rewrite (bool_decide_true _ Hlan). cbn [negb].
    repeat first [ done | progress cbn [fst]
                 | rewrite update_state_lookup, decide_False by congruence
                 | case_match ].
  - intros Hlan id Hs Hp.
    unfold _parse_device_state_packet.
    case_bool_decide as Hz; [done|].
    unfold bind, read, lift, modify, ret. cbv beta.
    rewrite (bool_decide_false _ Hlan). cbn [negb].
    repeat first [ progress simplify_eq | done | progress cbn [fst]
                 | rewrite update_state_lookup, decide_False by congruence
                 | case_match ].
  - intros Hn. unfold _parse_device_state_packet. by rewrite bool_decide_true.
  - intros Hlan Hgt.
    unfold _parse_device_state_packet.
    case_bool_decide as Hz; [done|].
    unfold bind, read, lift, modify, ret. cbv beta.
    rewrite (bool_decide_false _ Hlan). cbn [negb].
    rewrite (bool_decide_true (_ > _)) by lia.
    reflexivity.
  - intros Hlan Hign.
    unfold _parse_device_state_packet.
    case_bool_decide as Hz; [done|].
    unfold bind, read, lift, modify, ret. cbv beta.
    rewrite (bool_decide_false _ Hlan). cbn [negb].
    case_bool_decide; [reflexivity|]. rewrite Hign. reflexivity.
Qed.

End DeviceStateFrame.

(** A keypad in slot 2 of the roster: its packets change nothing. *)
Lemma device_state_packet_frame_witness :
  states (_parse_device_state_packet little "keypad" "siren_outdoor" "other" "empty"
            [x55; x08; x00; x70; x80; x00] example_engine).1
  = states example_engine.
Proof.
  destruct (device_state_packet_frame little "keypad" "siren_outdoor" "other" "empty"
              [x55; x08; x00; x70; x80; x00] example_engine) as (_ & _ & _ & _ & Hign).
  apply Hign.
  - discriminate.
  - vm_compute. reflexivity.
Defined.

(** ** The LAN connection *)

Lemma update_state_stored (id state : string) (e : Engine) :
  states e !! id ≠ Some state →
  stored_states (_update_state id state true e) !! id = Some state.
Proof.
  intros Hne. unfold _update_state. rewrite update_state_guard, bool_decide_false by done.
  set (e1 := if bool_decide (id ∈ _) then _ else _).
  assert (Hs1 : states e1 = <[id := state]> (states e) ∧ _stored_data e1 = _stored_data e)
    by (subst e1; by case_bool_decide).
  destruct Hs1 as [Hs1 _].
  unfold stored_states, _store_state.
  destruct (_stored_data e1) eqn:Hd;
    repeat (cbn [set_stored_data set_states emit _stored_data states]; rewrite ?Hd);
    rewrite ?Hs1; apply lookup_insert_eq.
Qed.

(** X8. On a JA-101K-LAN a state packet of device 125 sets the LAN
    connection state, inverted: state byte 92 or 93 (device on) stores off,
    94 or 95 (device off) stores on, any other state byte stores nothing.
    The device roster is not consulted, so nothing is raised, and a changed
    LAN state is handed to the store. *)
Theorem lan_connection_state
    (order : ByteOrder)
    (DEVICE_KEYPAD DEVICE_SIREN_OUTDOOR DEVICE_OTHER DEVICE_EMPTY : string)
    (packet : bytes) (e : Engine) :
  _central_unit_model e = "JA-101K-LAN" →
  _parse_device_number_from_state_packet order packet = 125 →
  let run :=
    _parse_device_state_packet
      order DEVICE_KEYPAD DEVICE_SIREN_OUTDOOR DEVICE_OTHER DEVICE_EMPTY packet e in
  let state_byte := _bytes_to_int order (slice 3 4 packet) in
  run.2 = Ok tt
  ∧ (state_byte = 92 ∨ state_byte = 93 →
     states run.1 !! _create_lan_connection_id = Some STATE_OFF)
  ∧ (state_byte = 94 ∨ state_byte = 95 →
     states run.1 !! _create_lan_connection_id = Some STATE_ON)
  ∧ (¬ (92 <= state_byte <= 95) → states run.1 = states e)
  ∧ (states run.1 !! _create_lan_connection_id ≠ states e !! _create_lan_connection_id →
     stored_states run.1 !! _create_lan_connection_id
     = states run.1 !! _create_lan_connection_id).
Proof.
  intros Hmodel Hn. cbv zeta.
  unfold _parse_device_state_packet. rewrite Hn.
  rewrite (bool_decide_false (125 = 0)) by done.
  unfold bind, read, lift, modify, ret. cbv beta.
  assert (Hlan : _get_lan_connection_device_number e = Some 125).
  { unfold _get_lan_connection_device_number. by rewrite bool_decide_true. }
  rewrite (bool_decide_true _ Hlan). cbn [negb].
  unfold _convert_jablotron_device_state_to_state.
  set (state_byte := _bytes_to_int order (slice 3 4 packet)).
  rewrite (bool_decide_false (125 <= 36)), (bool_decide_false (125 <= 96)) by lia.
  cbv zeta.
  change ((125 + -128) * 4 + 104) with 92.
  change (92 + 1) with 93. change (92 + 2) with 94. change (92 + 3) with 95.
  destruct (decide (state_byte = 94 ∨ state_byte = 95)) as [Hoff|Hnoff].
  - assert (bool_decide (state_byte = 94) || bool_decide (state_byte = 95) = true) as ->
      by (destruct Hoff; repeat case_bool_decide; done).
    rewrite (bool_decide_true (STATE_OFF = STATE_OFF)) by done. cbn [fst snd].
    split; [done|]. split; [lia|]. split; [|split].
    + intros _. rewrite update_state_lookup. by rewrite decide_True.
    + lia.
    + intros Hch. rewrite update_state_lookup, decide_True in * by done.
      apply update_state_stored. congruence.
  - assert (bool_decide (state_byte = 94) || bool_decide (state_byte = 95) = false) as ->
      by (repeat case_bool_decide; tauto).
    destruct (decide (state_byte = 92 ∨ state_byte = 93)) as [Hon|Hnon].
    + assert (bool_decide (state_byte = 92) || bool_decide (state_byte = 93) = true) as ->
        by (destruct Hon; repeat case_bool_decide; done).
      rewrite (bool_decide_false (STATE_ON = STATE_OFF)) by done. cbn [fst snd].
      split; [done|]. split; [|split; [tauto|split]].
      * intros _. rewrite update_state_lookup. by rewrite decide_True.
      * lia.
      * intros Hch. rewrite update_state_lookup, decide_True in * by done.
        apply update_state_stored. congruence.
    + assert (bool_decide (state_byte = 92) || bool_decide (state_byte = 93) = false) as ->
        by (repeat case_bool_decide; tauto).
      cbn [fst snd emit states]. split; [done|]. split; [tauto|]. split; [tauto|].
      split; [done|]. intros Hch. by destruct Hch.
Qed.

(** Device 125 reported off (state byte 0x5e): the LAN connection is on. *)
Lemma lan_connection_state_witness :
  states (_parse_device_state_packet little "keypad" "siren_outdoor" "other" "empty"
            [x55; x09; x00; x5e; x40; x1f] example_lan_engine).1
    !! _create_lan_connection_id
  = Some STATE_ON.
Proof.
  destruct (lan_connection_state little "keypad" "siren_outdoor" "other" "empty"
              [x55; x09; x00; x5e; x40; x1f] example_lan_engine eq_refl eq_refl)
    as (_ & _ & Hon & _).
  apply Hon. left. reflexivity.
Defined.

(** ** Commands *)

(** Whenever a code packet is built, it has ten bytes and starts with the
    fixed prefix. *)
Lemma create_code_packet_shape (code : string) (code_packet : bytes) :
  _create_code_packet code = Ok code_packet →
  length code_packet = 10%nat ∧ take 6 code_packet = CODE_PACKET_PREFIX.
Proof.
  rewrite create_code_packet_unfold. cbn [rbind].
  destruct (code_packet_round code 0 CODE_PACKET_PREFIX) as [p1|] eqn:H1; [|discriminate].
  cbn [rbind].
  destruct (code_packet_round code 1 p1) as [p2|] eqn:H2; [|discriminate]. cbn [rbind].
  destruct (code_packet_round code 2 p2) as [p3|] eqn:H3; [|discriminate]. cbn [rbind].
  intros H4.
  assert (Hgrow : ∀ i p q, code_packet_round code i p = Ok q → ∃ b, q = p ++ [b]).
  { clear. intros i p q. unfold code_packet_round, _int_to_bytes, to_bytes_1.
    destruct (if bool_decide (str_slice (i + 4) (i + 4 + 1) code = "") then _ else _)
      as [code_number|x]; cbn [rbind]; [|discriminate].
    case_bool_decide; cbn [rbind]; [|discriminate].
    destruct (Byte.of_N _) as [b|]; cbn [rbind]; [|discriminate].
    intros [= <-]. by exists b. }
  destruct (Hgrow _ _ _ H1) as [b0 ->]. destruct (Hgrow _ _ _ H2) as [b1 ->].
  destruct (Hgrow _ _ _ H3) as [b2 ->]. destruct (Hgrow _ _ _ H4) as [b3 ->].
  done.
Qed.

(** X9. A command that cannot be encoded sends nothing: when
    [modify_alarm_control_panel_section_state] raises, the engine is as it
    was.  It raises [KeyError] for a target state other than disarmed,
    armed_away and armed_night and [OverflowError] when base code + section
    does not fit one byte; when it returns, it has sent exactly one packet
    of 14 bytes: the code packet, 80 02 0d, and the state byte. *)
Theorem command_failure_sends_nothing
    (section : Z) (state : string) (code : option string) (e : Engine) :
  let run := modify_alarm_control_panel_section_state section state code e in
  (run.2 ≠ Ok tt → run.1 = e)
  ∧ (state ∉ int_packets.*1 → run.2 = Raise KeyError)
  ∧ (∀ base, (state, base) ∈ int_packets → ¬ (0 <= base + section <= 255) →
       run.2 = Raise OverflowError)
  ∧ (run.2 = Ok tt →
     ∃ packet : bytes,
       run.1 = _send_packet packet e
       ∧ length packet = 14%nat
       ∧ take 6 packet = CODE_PACKET_PREFIX
       ∧ slice 10 13 packet = COMMAND_PREFIX).
Proof.
  cbv zeta. unfold modify_alarm_control_panel_section_state, bind, lift, modify.
  assert (Hc : (match code with
                | Some c => ret c
                | None => read (fun e => CONF_PASSWORD (_config e))
                end) e = (e, Ok (default (CONF_PASSWORD (_config e)) code)))
    by (by destruct code).
  rewrite Hc. clear Hc.
  destruct (py_getitem int_packets state) as [base|x] eqn:Hbase.
  - assert (Hin : (state, base) ∈ int_packets).
    { revert Hbase. unfold py_getitem.
      destruct (list_to_map int_packets !! state) as [v|] eqn:Hv; [|discriminate].
      intros [= ->]. by apply (elem_of_list_to_map_2 (M := gmap string)) in Hv. }
    destruct (_int_to_bytes (base + section)) as [state_packet|x] eqn:Hsp.
    + destruct (_create_code_packet _) as [code_packet|x] eqn:Hcp; cbn [fst snd].
      * split; [done|]. split.
        { intros Hnot. destruct Hnot. apply list_elem_of_fmap. by exists (state, base). }
        split.
        { intros base' Hin' Hrange.
          assert (base' = base) as ->.
          { revert Hin Hin'. unfold int_packets. rewrite !elem_of_cons, !elem_of_nil.
            intros [[= -> ->]|[[= -> ->]|[[= -> ->]|[]]]]
                   [[= ?]|[[= ?]|[[= ?]|[]]]]; congruence. }
          exfalso. revert Hsp. unfold _int_to_bytes, to_bytes_1.
          case_bool_decide; [|discriminate].
          destruct (Byte.of_N _) as [b|] eqn:Hb; [|discriminate].
          apply Byte.to_of_N in Hb. pose proof (Byte.to_N_bounded b). lia. }
        intros _. exists (code_packet ++ COMMAND_PREFIX ++ state_packet).
        destruct (create_code_packet_shape _ _ Hcp) as [Hlen Hpre].
        assert (∃ b, state_packet = [b]) as [b ->].
        { revert Hsp. unfold _int_to_bytes, to_bytes_1.
          case_bool_decide; [|discriminate].
          destruct (Byte.of_N _) as [b|]; [|discriminate]. intros [= <-]. by exists b. }
        split; [done|]. split; [rewrite !length_app, Hlen; reflexivity|].
        split.
        { rewrite take_app_le by lia. exact Hpre. }
        unfold slice. rewrite drop_app_length' by done. reflexivity.
      * cbn [fst snd]. split; [done|]. split.
        { intros Hnot. destruct Hnot. apply list_elem_of_fmap. by exists (state, base). }
        split; [|discriminate].
        intros base' Hin' Hrange. exfalso.
        assert (base' = base) as ->.
        { revert Hin Hin'. unfold int_packets. rewrite !elem_of_cons, !elem_of_nil.
          intros [[= -> ->]|[[= -> ->]|[[= -> ->]|[]]]]
                 [[= ?]|[[= ?]|[[= ?]|[]]]]; congruence. }
        revert Hsp. unfold _int_to_bytes, to_bytes_1.
        case_bool_decide; [|discriminate].
        destruct (Byte.of_N _) as [b|] eqn:Hb; [|discriminate].
        apply Byte.to_of_N in Hb. pose proof (Byte.to_N_bounded b). lia.
    + cbn [fst snd]. split; [done|]. split.
      { intros Hnot. destruct Hnot. apply list_elem_of_fmap. by exists (state, base). }
      split; [|discriminate].
      intros base' Hin' Hrange.
      revert Hsp. unfold _int_to_bytes, to_bytes_1.
      case_bool_decide; [|by intros [= <-]].
      destruct (Byte.of_N _) as [b|] eqn:Hb; [discriminate|]. by intros [= <-].
  - cbn [fst snd]. split; [done|].
    assert (x = KeyError) as ->.
    { revert Hbase. unfold py_getitem. destruct (_ !! _); [discriminate|]. by intros [= <-]. }
    split; [done|]. split; [|discriminate].
    intros base Hin _. by rewrite (py_getitem_int_packets _ _ Hin) in Hbase.
Qed.

(** Arming section 100: 159 + 100 does not fit one byte. *)
Lemma command_failure_sends_nothing_witness :
  modify_alarm_control_panel_section_state 100 STATE_ALARM_ARMED_AWAY None example_engine
  = (example_engine, Raise OverflowError).
Proof.
  destruct (command_failure_sends_nothing 100 STATE_ALARM_ARMED_AWAY None example_engine)
    as (Hsame & _ & Hover & _).
  specialize (Hover 159 ltac:(right; left) ltac:(lia)).
  destruct (modify_alarm_control_panel_section_state _ _ _ _) as [e' r].
  cbn [fst snd] in *. subst r. rewrite Hsame by discriminate. reflexivity.
Defined.

(** ** What the read loop stores *)

Lemma stores_known_refl (e : Engine) : stores_known e e.
Proof. repeat split. intros id. by left. Qed.

Lemma stores_known_trans (e1 e2 e3 : Engine) :
  stores_known e1 e2 → stores_known e2 e3 → stores_known e1 e3.
Proof.
  intros (Hc1 & Hm1 & He1 & Hs1) (Hc2 & Hm2 & He2 & Hs2).
  split; [congruence|]. split; [congruence|]. split; [congruence|].
  intros id. destruct (Hs2 id) as [Heq|Hk]; [|by right].
  rewrite Heq. apply Hs1.
Qed.

Lemma stores_known_same_states (e e' : Engine) :
  _config e' = _config e → _central_unit_model e' = _central_unit_model e →
  _entities e' = _entities e → states e' = states e → stores_known e e'.
Proof. intros Hc Hm He Hs. repeat split; try done. intros id. left. by rewrite Hs. Qed.

Lemma stores_known_update_state (id state : string) (store_state : bool) (e : Engine) :
  state ∈ KNOWN_STATES → stores_known e (_update_state id state store_state e).
Proof.
  intros Hk. destruct (update_state_frame id state store_state e) as (Hc & Hm & _).
  split; [done|]. split; [done|]. split; [apply update_state_entities|].
  intros id'. rewrite update_state_lookup. case_decide; [right; eauto|by left].
Qed.

Lemma alarm_state_known (s : SectionState) :
  _convert_jablotron_section_state_to_alarm_state s ∈ KNOWN_STATES.
Proof.
  unfold _convert_jablotron_section_state_to_alarm_state, KNOWN_STATES.
  repeat case_match; set_solver.
Qed.

Lemma problem_sensor_state_known (s : SectionState) :
  _convert_jablotron_section_state_to_problem_sensor_state s ∈ KNOWN_STATES.
Proof.
  unfold _convert_jablotron_section_state_to_problem_sensor_state, KNOWN_STATES.
  case_match; set_solver.
Qed.

Lemma device_state_known (order : ByteOrder) (packet : bytes) (n : Z) (state : string) :
  _convert_jablotron_device_state_to_state order packet n = Some state →
  state = STATE_ON ∨ state = STATE_OFF.
Proof.
  unfold _convert_jablotron_device_state_to_state. cbv zeta.
  repeat case_match; intros [= <-]; auto.
Qed.

Lemma on_off_known (state : string) :
  state = STATE_ON ∨ state = STATE_OFF → state ∈ KNOWN_STATES.
Proof. unfold KNOWN_STATES. intros [-> | ->]; set_solver. Qed.

Lemma storing_known_ret {A} (a : A) : storing_known (ret a).
Proof. intros e. apply stores_known_refl. Qed.

Lemma storing_known_read {A} (f : Engine -> A) : storing_known (read f).
Proof. intros e. apply stores_known_refl. Qed.

Lemma storing_known_lift {A} (f : Engine -> Result A) : storing_known (lift f).
Proof. intros e. apply stores_known_refl. Qed.

Lemma storing_known_modify (f : Engine -> Engine) :
  (∀ e, stores_known e (f e)) → storing_known (modify f).
Proof. intros Hf e. apply Hf. Qed.

Lemma storing_known_bind {A B} (m : M A) (k : A -> M B) :
  storing_known m → (∀ a, storing_known (k a)) → storing_known (bind m k).
Proof.
  intros Hm Hk e. unfold bind. specialize (Hm e).
  destruct (m e) as [e' [a|x]]; cbn [fst] in *; [|done].
  eapply stores_known_trans; [exact Hm|apply Hk].
Qed.

Lemma storing_known_for_each {A} (l : list A) (body : A -> M unit) :
  (∀ x, storing_known (body x)) → storing_known (for_each l body).
Proof.
  intros Hbody. induction l as [|x l IH]; cbn [for_each].
  - apply storing_known_ret.
  - apply storing_known_bind; [apply Hbody|intros _; exact IH].
Qed.

Lemma storing_known_emit (ev : Event) : storing_known (modify (emit ev)).
Proof. apply storing_known_modify. intros e. by apply stores_known_same_states. Qed.

Section ReadLoopStores.

Variable byteorder : ByteOrder.
Variable MAX_SECTIONS : Z.
Variables DEVICE_KEYPAD DEVICE_SIREN_OUTDOOR DEVICE_OTHER DEVICE_EMPTY : string.

Implicit Types (e : Engine) (packet : bytes).

Lemma stores_known_section_states packet e :
  stores_known e (_parse_section_states_packet byteorder MAX_SECTIONS packet e).
Proof.
  unfold _parse_section_states_packet.
  generalize (_parse_sections_states_packet MAX_SECTIONS packet). intros l.
  revert e. induction l as [|[section record] l IH]; intros e; [apply stores_known_refl|].
  cbn [fold_left]. eapply stores_known_trans; [|apply IH].
  unfold section_states_round.
  set (s := _parse_jablotron_section_state byteorder record).
  set (e0 := if negb _ then _ else e).
  assert (stores_known e e0) as H0.
  { subst e0. destruct (negb _); [by apply stores_known_same_states|apply stores_known_refl]. }
  eapply stores_known_trans; [exact H0|].
  destruct (_ || _).
  - eapply stores_known_trans; apply stores_known_update_state;
      [apply alarm_state_known|apply problem_sensor_state_known].
  - apply stores_known_update_state, alarm_state_known.
Qed.

Lemma storing_known_device_state packet :
  storing_known
    (_parse_device_state_packet
       byteorder DEVICE_KEYPAD DEVICE_SIREN_OUTDOOR DEVICE_OTHER DEVICE_EMPTY packet).
Proof.
  unfold _parse_device_state_packet.
  case_match; [apply storing_known_emit|].
  apply storing_known_bind; [apply storing_known_read|]. intros lan.
  apply storing_known_bind.
  { repeat first [ apply storing_known_ret | apply storing_known_read
                 | apply storing_known_lift | apply storing_known_emit
                 | apply storing_known_bind; [|intros ?] | case_match ]. }
  intros rejected. destruct rejected; [apply storing_known_ret|].
  destruct (_convert_jablotron_device_state_to_state _ _ _) as [device_state|] eqn:Hs;
    [|apply storing_known_emit].
  apply device_state_known in Hs.
  case_match.
  - apply storing_known_modify. intros e. apply stores_known_update_state, on_off_known.
    destruct (bool_decide (device_state = STATE_OFF)); auto.
  - apply storing_known_bind; [apply storing_known_lift|]. intros with_activity_sensor.
    repeat case_match; try apply storing_known_emit;
      apply storing_known_modify; intros e;
      by apply stores_known_update_state, on_off_known.
Qed.

Lemma stores_known_devices_rounds (bin_states : string) (l : list Z) e :
  stores_known e (run_devices_rounds bin_states l e).
Proof.
  revert e. induction l as [|i l IH]; intros e; [apply stores_known_refl|].
  rewrite run_devices_rounds_cons. eapply stores_known_trans; [|apply IH].
  unfold devices_states_round.
  destruct (bool_decide (_ = "1")).
  - rewrite (bool_decide_false (STATE_ON = STATE_OFF)) by done. apply stores_known_refl.
  - rewrite (bool_decide_true (STATE_OFF = STATE_OFF)) by done.
    apply stores_known_update_state, on_off_known. by right.
Qed.

Lemma storing_known_devices_states packet :
  storing_known
    (_parse_devices_states_packet
       byteorder DEVICE_KEYPAD DEVICE_SIREN_OUTDOOR DEVICE_OTHER DEVICE_EMPTY packet).
Proof.
  unfold _parse_devices_states_packet.
  apply storing_known_bind.
  - case_match; [apply storing_known_device_state|apply storing_known_ret].
  - intros _. apply storing_known_bind; [apply storing_known_read|]. intros n.
    apply storing_known_modify. intros e. apply stores_known_devices_rounds.
Qed.

Lemma storing_known_read_body packet :
  storing_known
    (read_packets_body
       byteorder MAX_SECTIONS DEVICE_KEYPAD DEVICE_SIREN_OUTDOOR DEVICE_OTHER DEVICE_EMPTY
       packet).
Proof.
  unfold read_packets_body.
  assert (Hall : ∀ b, storing_known (modify (set_last_update_success b)
                                      >> modify _update_all_entities)).
  { intros b. apply storing_known_bind; [|intros _];
      apply storing_known_modify; intros e; by apply stores_known_same_states. }
  case_match; [apply Hall|].
  apply storing_known_bind.
  { apply storing_known_bind; [apply storing_known_read|]. intros success.
    destruct (negb success); [apply Hall|apply storing_known_ret]. }
  intros _. cbv zeta.
  case_match.
  { apply storing_known_modify. intros e. apply stores_known_section_states. }
  case_match.
  { apply storing_known_bind; [apply storing_known_device_state|]. intros _.
    apply storing_known_for_each. intros i. case_match; [|apply storing_known_ret].
    apply storing_known_modify. intros e. apply stores_known_section_states. }
  case_match; [apply storing_known_devices_states|apply storing_known_ret].
Qed.

Lemma stores_known_read_round (r : ReadOutcome) e :
  stores_known e
    (read_packets_round
       byteorder MAX_SECTIONS DEVICE_KEYPAD DEVICE_SIREN_OUTDOOR DEVICE_OTHER DEVICE_EMPTY
       r e).
Proof.
  unfold read_packets_round.
  assert (Hhandler : ∀ e1, stores_known e1
            (_update_all_entities (set_last_update_success false (emit EvLogError e1))))
    by (intros e1; by apply stores_known_same_states).
  destruct r as [packet|x]; [|apply Hhandler].
  pose proof (storing_known_read_body packet e) as Hbody.
  destruct (read_packets_body _ _ _ _ _ _ packet e) as [e1 [[]|x]]; cbn [fst] in Hbody;
    [exact Hbody|].
  eapply stores_known_trans; [exact Hbody|apply Hhandler].
Qed.

Lemma stores_known_read_packets (reads : list ReadOutcome) e :
  stores_known e
    (_read_packets
       byteorder MAX_SECTIONS DEVICE_KEYPAD DEVICE_SIREN_OUTDOOR DEVICE_OTHER DEVICE_EMPTY
       reads e).
Proof.
  unfold _read_packets. revert e.
  induction reads as [|r reads IH]; intros e; [apply stores_known_refl|].
  cbn [fold_left]. eapply stores_known_trans; [|apply IH].
  apply stores_known_read_round.
Qed.

End ReadLoopStores.

(** X10. Whatever the reads deliver, buffers or failures, and also when a
    packet makes the loop body raise, the read loop leaves the
    configuration, the central unit model and the subscriptions as they
    are, never removes a stored state, and stores nothing but the eight
    known state values. *)
Theorem read_loop_stores_known_states
    (order : ByteOrder) (MAX_SECTIONS : Z)
    (DEVICE_KEYPAD DEVICE_SIREN_OUTDOOR DEVICE_OTHER DEVICE_EMPTY : string)
    (reads : list ReadOutcome) (e : Engine) :
  let e' :=
    _read_packets
      order MAX_SECTIONS DEVICE_KEYPAD DEVICE_SIREN_OUTDOOR DEVICE_OTHER DEVICE_EMPTY
      reads e in
  _config e' = _config e
  ∧ _central_unit_model e' = _central_unit_model e
  ∧ _entities e' = _entities e
  ∧ dom (states e) ⊆ dom (states e')
  ∧ ∀ id v, states e' !! id = Some v → states e !! id = Some v ∨ v ∈ KNOWN_STATES.
Proof.
  cbv zeta.
  destruct (stores_known_read_packets order MAX_SECTIONS DEVICE_KEYPAD DEVICE_SIREN_OUTDOOR
              DEVICE_OTHER DEVICE_EMPTY reads e) as (Hc & Hm & He & Hs).
  split; [done|]. split; [done|]. split; [done|]. split.
  - intros id [v Hv]%elem_of_dom. apply elem_of_dom.
    destruct (Hs id) as [->|(w & -> & _)]; eauto.
  - intros id v Hv. destruct (Hs id) as [Heq|(w & Hw & Hk)].
    + left. congruence.
    + right. congruence.
Qed.

(** ** Info replies *)

Lemma info_char_byte (c : ascii) :
  info_char c = true →
  byte_of_ascii c ≠ x00 ∧ byte_of_ascii c ≠ x40
  ∧ decode_utf8_byte (byte_of_ascii c) = Some c.
Proof.
  destruct c as [[] [] [] [] [] [] [] []]; vm_compute; intros H;
    first [discriminate H | repeat split; discriminate].
Qed.

Lemma decode_utf8_byte_char (b : byte) (c : ascii) :
  decode_utf8_byte b = Some c →
  byte_of_ascii c = b ∧ (nat_of_ascii c < 128)%nat.
Proof.
  intros H.
  assert (Hb : byte_of_ascii c = b ∧ (nat_of_ascii c <? 128)%nat = true).
  { destruct b; vm_compute in H;
      first [discriminate H | injection H as <-; split; reflexivity]. }
  destruct Hb as [Hb Hlt]. split; [exact Hb|]. by apply Nat.ltb_lt.
Qed.

Lemma list_byte_of_string_cons (c : ascii) (s : string) :
  list_byte_of_string (String c s) = byte_of_ascii c :: list_byte_of_string s.
Proof. reflexivity. Qed.

Lemma decode_info_text (text : string) (rest : bytes) :
  info_text text →
  decode_info_bytes (list_byte_of_string text ++ x00 :: rest) = Some text
  ∧ decode_info_bytes (list_byte_of_string text ++ x40 :: rest) = Some text
  ∧ decode_info_bytes (list_byte_of_string text) = Some text.
Proof.
  unfold info_text. induction text as [|c text IH]; intros Hall.
  { repeat split. }
  cbn [list_ascii_of_string] in Hall. apply Forall_cons in Hall as [Hc Hall].
  destruct (IH Hall) as (IH0 & IH40 & IHend).
  destruct (info_char_byte c Hc) as (H00 & H40 & Hdec).
  rewrite list_byte_of_string_cons. cbn [app decode_info_bytes].
  rewrite (bool_decide_false ([byte_of_ascii c] = [x00])) by congruence.
  rewrite (bool_decide_false ([byte_of_ascii c] = JABLOTRON_PACKET_INFO_PREFIX))
    by (unfold JABLOTRON_PACKET_INFO_PREFIX; congruence).
  cbn [orb]. by rewrite Hdec, IH0, IH40, IHend.
Qed.

(** X11. An info text survives the wire: for every text of characters
    1..127 other than "@", [decode_info_bytes] gives the text back from its
    bytes, whether they are followed by a zero byte, by the next info
    prefix, or by the end of the buffer. *)
Theorem decode_info_bytes_round_trip (text : string) (rest : bytes) :
  info_text text →
  decode_info_bytes (list_byte_of_string text ++ x00 :: rest) = Some text
  ∧ decode_info_bytes (list_byte_of_string text ++ x40 :: rest) = Some text
  ∧ decode_info_bytes (list_byte_of_string text) = Some text.
Proof. intros Htext. by apply decode_info_text. Qed.

Lemma decode_info_bytes_round_trip_witness :
  decode_info_bytes (list_byte_of_string "JA-101K-LAN" ++ x00 :: [x40; x0c; x08])
  = Some "JA-101K-LAN".
Proof.
  apply (decode_info_bytes_round_trip "JA-101K-LAN" [x40; x0c; x08]).
  repeat constructor.
Defined.

(** X12. What [decode_info_bytes] returns is the bytes in front of the
    first zero byte or info prefix, read as characters below 128: the text
    is no longer than the buffer, its bytes are the buffer's first bytes, it
    holds neither a zero character nor "@", and it ends where the buffer
    ends or a terminator stands.  A byte of 128 or more in front of the
    first terminator makes it raise instead. *)
Theorem decode_info_bytes_prefix (value : bytes) :
  match decode_info_bytes value with
  | Some text =>
      list_byte_of_string text = take (String.length text) value
      ∧ (String.length text <= length value)%nat
      ∧ Forall (fun c => c ≠ "000"%char ∧ c ≠ "@"%char ∧ (nat_of_ascii c < 128)%nat)
               (list_ascii_of_string text)
      ∧ (∀ b, value !! String.length text = Some b → b = x00 ∨ b = x40)
  | None =>
      ∃ (i : nat) (b : byte),
        value !! i = Some b ∧ 128 <= byte_to_Z b
        ∧ ∀ j b', (j < i)%nat → value !! j = Some b' → b' ≠ x00 ∧ b' ≠ x40
  end.
Proof.
  induction value as [|b value IH]; cbn [decode_info_bytes].
  { split; [done|]. split; [done|]. split; [constructor|]. intros b. discriminate. }
  destruct (decide (b = x00 ∨ b = x40)) as [Hterm|Hnterm].
  { assert (bool_decide ([b] = [x00]) || bool_decide ([b] = JABLOTRON_PACKET_INFO_PREFIX)
            = true) as ->.
    { destruct Hterm as [-> | ->]; reflexivity. }
    split; [done|]. split; [cbn; lia|]. split; [constructor|].
    intros b' [= <-]. exact Hterm. }
  assert (bool_decide ([b] = [x00]) || bool_decide ([b] = JABLOTRON_PACKET_INFO_PREFIX)
          = false) as ->.
  { unfold JABLOTRON_PACKET_INFO_PREFIX.
    rewrite !bool_decide_false; [done| |]; intros [= ->]; tauto. }
  destruct (decode_utf8_byte b) as [c|] eqn:Hdec.
  - destruct (decode_utf8_byte_char b c Hdec) as [Hbyte Hlt].
    destruct (decode_info_bytes value) as [text|].
    + destruct IH as (Hpre & Hlen & Hall & Hend).
      cbn [String.length take]. rewrite list_byte_of_string_cons, Hbyte, Hpre.
      split; [done|]. split; [cbn; lia|]. split; [|exact Hend].
      cbn [list_ascii_of_string]. constructor; [|exact Hall].
      split; [|split; [|exact Hlt]]; intros ->; apply Hnterm; subst b; [by left|by right].
    + destruct IH as (i & b' & Hi & Hhigh & Hbefore).
      exists (S i), b'. split; [exact Hi|]. split; [exact Hhigh|].
      intros [|j] b'' Hj Hb''.
      * injection Hb'' as <-. tauto.
      * apply (Hbefore j); [lia|exact Hb''].
  - exists 0%nat, b. split; [done|]. split.
    + revert Hdec. unfold decode_utf8_byte. case_bool_decide; [discriminate|]. lia.
    + intros j b' Hj. lia.
Qed.

Lemma info_packets_shift (pre p : bytes) :
  (fun i => drop i (pre ++ p))
    <$> filter (fun i => slice i (i + 1) (pre ++ p) = JABLOTRON_PACKET_INFO_PREFIX)
               (seq (length pre) (length p))
  = info_suffixes p.
Proof.
  revert pre. induction p as [|b p IH]; intros pre; [done|].
  cbn [length seq info_suffixes].
  assert (Hdrop : drop (length pre) (pre ++ b :: p) = b :: p) by apply drop_app_length.
  assert (Hslice : slice (length pre) (length pre + 1) (pre ++ b :: p) = [b]).
  { unfold slice. rewrite Hdrop. by replace (length pre + 1 - length pre)%nat with 1%nat by lia. }
  assert (Hrest : (fun i => drop i (pre ++ b :: p))
                    <$> filter (fun i => slice i (i + 1) (pre ++ b :: p)
                                         = JABLOTRON_PACKET_INFO_PREFIX)
                               (seq (S (length pre)) (length p))
                  = info_suffixes p).
  { specialize (IH (pre ++ [b])). rewrite <- app_assoc, length_app in IH. cbn in IH.
    by replace (length pre + 1)%nat with (S (length pre)) in IH by lia. }
  destruct (decide (b = x40)) as [->|Hb].
  - rewrite filter_cons_True by (by rewrite Hslice).
    rewrite (bool_decide_true (x40 = x40)) by done.
    rewrite fmap_cons, Hdrop. by rewrite Hrest.
  - rewrite filter_cons_False
      by (rewrite Hslice; unfold JABLOTRON_PACKET_INFO_PREFIX; congruence).
    by rewrite (bool_decide_false _ Hb).
Qed.

(** The list comprehension of the reader is the list of the suffixes that
    start with the info prefix. *)
Lemma info_packets_of_suffixes (packet : bytes) : info_packets_of packet = info_suffixes packet.
Proof. apply (info_packets_shift [] packet). Qed.

Lemma info_suffixes_skip (segment q : bytes) :
  x40 ∉ segment → info_suffixes (segment ++ q) = info_suffixes q.
Proof.
  induction segment as [|b segment IH]; intros Hnot; [done|].
  cbn [app info_suffixes]. rewrite bool_decide_false by set_solver.
  apply IH. set_solver.
Qed.

Lemma info_text_bytes (text : string) :
  info_text text → x40 ∉ list_byte_of_string text.
Proof.
  unfold info_text. induction text as [|c text IH]; intros Hall.
  { apply not_elem_of_nil. }
  cbn [list_ascii_of_string] in Hall. apply Forall_cons in Hall as [Hc Hall].
  rewrite list_byte_of_string_cons. apply not_elem_of_cons.
  destruct (info_char_byte c Hc) as (_ & H40 & _). split; [congruence|by apply IH].
Qed.

Lemma info_suffixes_reply (second tag : byte) (text : string) (q : bytes) :
  second ≠ x40 → tag ≠ x40 → info_text text →
  info_suffixes (info_reply second [tag] text ++ q)
  = (info_reply second [tag] text ++ q) :: info_suffixes q.
Proof.
  intros Hs Ht Htext. unfold info_reply. cbn [app info_suffixes].
  rewrite (bool_decide_true (x40 = x40)) by done.
  rewrite (bool_decide_false _ Hs), (bool_decide_false _ Ht).
  f_equal. rewrite <- app_assoc. rewrite info_suffixes_skip by by apply info_text_bytes.
  reflexivity.
Qed.

Lemma info_reply_parts (second tag : byte) (text : string) (q : bytes) :
  slice 0 1 (info_reply second [tag] text ++ q) = JABLOTRON_PACKET_INFO_PREFIX
  ∧ slice 2 3 (info_reply second [tag] text ++ q) = [tag]
  ∧ drop 3 (info_reply second [tag] text ++ q) = list_byte_of_string text ++ x00 :: q.
Proof.
  unfold info_reply. cbn [app]. rewrite <- app_assoc. repeat split.
Qed.

(** X13. A complete reply to the identity request is read back: a buffer
    that holds the model, hardware version and firmware version replies one
    after the other (each the prefix 40, one byte other than 40, the tag 02,
    08 or 09, the text and a zero byte), followed by bytes without the
    prefix, sets the three locals of the reader of [_detect_central_unit] to
    the three texts, whatever they held before, and ends its loop; the
    reader of [check_serial_port] detects the model from it. *)
Theorem identity_reply_round_trip
    (s1 s2 s3 : byte) (model_text hardware_text firmware_text : string)
    (rest : bytes) (f : InfoFields) :
  s1 ≠ x40 → s2 ≠ x40 → s3 ≠ x40 → x40 ∉ rest →
  info_text model_text → info_text hardware_text → info_text firmware_text →
  let packet :=
    info_reply s1 JABLOTRON_INFO_MODEL model_text
    ++ info_reply s2 JABLOTRON_INFO_HARDWARE_VERSION hardware_text
    ++ info_reply s3 JABLOTRON_INFO_FIRMWARE_VERSION firmware_text ++ rest in
  detect_central_unit_round packet f
  = {| info_model := Some model_text;
       info_hardware_version := Some hardware_text;
       info_firmware_version := Some firmware_text |}
  ∧ (∀ later, detect_central_unit_reader (packet :: later) f
              = detect_central_unit_round packet f)
  ∧ (∀ later, check_serial_port_reader (packet :: later) = Some model_text).
Proof.
  intros H1 H2 H3 Hrest Hm Hh Hf. cbv zeta.
  unfold JABLOTRON_INFO_MODEL, JABLOTRON_INFO_HARDWARE_VERSION,
    JABLOTRON_INFO_FIRMWARE_VERSION.
  set (q3 := info_reply s3 [x09] firmware_text ++ rest).
  set (q2 := info_reply s2 [x08] hardware_text ++ q3).
  set (packet := info_reply s1 [x02] model_text ++ q2).
  assert (Hround : detect_central_unit_round packet f
                   = {| info_model := Some model_text;
                        info_hardware_version := Some hardware_text;
                        info_firmware_version := Some firmware_text |}).
  { unfold detect_central_unit_round.
    destruct (info_reply_parts s1 x02 model_text q2) as (Hp & Ht1 & Hd1).
    destruct (info_reply_parts s2 x08 hardware_text q3) as (_ & Ht2 & Hd2).
    destruct (info_reply_parts s3 x09 firmware_text rest) as (_ & Ht3 & Hd3).
    fold packet in Hp, Ht1, Hd1. fold q2 in Ht2, Hd2. fold q3 in Ht3, Hd3.
    rewrite (bool_decide_true _ Hp), info_packets_of_suffixes.
    subst packet q2 q3.
    rewrite !info_suffixes_reply by done.
    assert (info_suffixes rest = []) as ->.
    { clear -Hrest. induction rest as [|b rest IH]; [done|].
      cbn [info_suffixes]. rewrite bool_decide_false by set_solver.
      apply IH. set_solver. }
    cbn [fold_left]. unfold read_info_packet.
    rewrite Ht1, Hd1, Ht2, Hd2, Ht3, Hd3.
    unfold JABLOTRON_INFO_MODEL, JABLOTRON_INFO_HARDWARE_VERSION,
      JABLOTRON_INFO_FIRMWARE_VERSION.
    rewrite (bool_decide_true ([x02] = [x02])) by done.
    rewrite (bool_decide_false ([x08] = [x02])) by done.
    rewrite (bool_decide_true ([x08] = [x08])) by done.
    rewrite (bool_decide_false ([x09] = [x02])) by done.
    rewrite (bool_decide_false ([x09] = [x08])) by done.
    rewrite (bool_decide_true ([x09] = [x09])) by done.
    rewrite (proj1 (decode_info_text model_text _ Hm)).
    rewrite (proj1 (decode_info_text hardware_text _ Hh)).
    rewrite (proj1 (decode_info_text firmware_text _ Hf)).
    reflexivity. }
  split; [exact Hround|]. split.
  - intros later. cbn [detect_central_unit_reader]. by rewrite Hround.
  - intros later. cbn [check_serial_port_reader].
    destruct (info_reply_parts s1 x02 model_text q2) as (Hp & Ht1 & Hd1).
    fold packet in Hp, Ht1, Hd1.
    rewrite (bool_decide_true _ Hp). unfold JABLOTRON_INFO_MODEL.
    rewrite (bool_decide_true _ Ht1). cbn [andb]. rewrite Hd1.
    by rewrite (proj1 (decode_info_text model_text _ Hm)).
Qed.

Lemma identity_reply_round_trip_witness :
  detect_central_unit_round
    (info_reply x0a JABLOTRON_INFO_MODEL "JA-101K"
     ++ info_reply x0a JABLOTRON_INFO_HARDWARE_VERSION "LJ60422"
     ++ info_reply x0a JABLOTRON_INFO_FIRMWARE_VERSION "LJ60424" ++ [])
    {| info_model := None; info_hardware_version := None; info_firmware_version := None |}
  = {| info_model := Some "JA-101K";
       info_hardware_version := Some "LJ60422";
       info_firmware_version := Some "LJ60424" |}.
Proof.
  apply (identity_reply_round_trip x0a x0a x0a "JA-101K" "LJ60422" "LJ60424" []).
  - discriminate.
  - discriminate.
  - discriminate.
  - apply not_elem_of_nil.
  - repeat constructor.
  - repeat constructor.
  - repeat constructor.
Defined.

(** ** Set-up *)

Lemma set_initial_state_lookup (id initial_state id' : string) (e : Engine) :
  states (_set_initial_state id initial_state e) !! id'
  = if decide (id' = id) then Some (stored_or_initial e id initial_state)
    else states e !! id'.
Proof.
  unfold _set_initial_state, stored_or_initial.
  case_bool_decide as Hin.
  - apply elem_of_dom in Hin as [v Hv]. case_decide; [subst; by rewrite Hv|done].
  - apply not_elem_of_dom in Hin. cbn [set_states states].
    case_decide; [subst; by rewrite lookup_insert_eq, Hin|by rewrite lookup_insert_ne].
Qed.

Lemma seeds_states_refl (e : Engine) : seeds_states e e.
Proof.
  repeat split; try done. exists []. by rewrite app_nil_r.
Qed.

Lemma seeds_states_trans (e1 e2 e3 : Engine) :
  seeds_states e1 e2 → seeds_states e2 e3 → seeds_states e1 e3.
Proof.
  intros (Hc & Hm & He & Hd & Hl & Hs & evs & Ht & Hevs)
         (Hc' & Hm' & He' & Hd' & Hl' & Hs' & evs' & Ht' & Hevs').
  repeat split; try congruence.
  - by transitivity (states e2).
  - exists (evs ++ evs'). split; [by rewrite Ht', Ht, app_assoc|by apply Forall_app].
Qed.

Lemma seeds_states_set_initial_state (id initial_state : string) (e : Engine) :
  seeds_states e (_set_initial_state id initial_state e).
Proof.
  unfold _set_initial_state. case_bool_decide as Hin; [apply seeds_states_refl|].
  apply not_elem_of_dom in Hin.
  repeat split; try done.
  - cbn [set_states states]. by apply insert_subseteq.
  - exists []. by rewrite app_nil_r.
Qed.

Lemma seeds_states_log_error (e : Engine) : seeds_states e (emit EvLogError e).
Proof.
  repeat split; try done. exists [EvLogError]. split; [done|]. by constructor.
Qed.

Section DetectSections.

Variable byteorder : ByteOrder.

Local Abbreviation alarm_state_of record :=
  (_convert_jablotron_section_state_to_alarm_state
     (_parse_jablotron_section_state byteorder record)).
Local Abbreviation problem_state_of record :=
  (_convert_jablotron_section_state_to_problem_sensor_state
     (_parse_jablotron_section_state byteorder record)).

Lemma detect_sections_round_states (section : Z) (record : bytes) (j : Jablotron) (id : string) :
  states (engine (detect_sections_round byteorder (section, record) j)) !! id
  = if decide (id = _create_section_alarm_id section)
    then Some (stored_or_initial (engine j) id (alarm_state_of record))
    else if decide (id = _create_section_problem_sensor_id section)
    then Some (stored_or_initial (engine j) id (problem_state_of record))
    else states (engine j) !! id.
Proof.
  cbn [detect_sections_round engine].
  set (e0 := if negb _ then emit EvLogError (engine j) else engine j).
  assert (Hs0 : states e0 = states (engine j)) by (subst e0; by destruct (negb _)).
  rewrite set_initial_state_lookup.
  destruct (decide (id = _create_section_problem_sensor_id section)) as [->|Hp].
  - rewrite decide_False by (intros H; by apply symmetry, section_alarm_id_ne_problem_sensor_id in H).
    unfold stored_or_initial at 1. rewrite set_initial_state_lookup.
    rewrite decide_False by (intros H; by apply symmetry, section_alarm_id_ne_problem_sensor_id in H).
    unfold stored_or_initial. by rewrite Hs0.
  - rewrite set_initial_state_lookup. unfold stored_or_initial. rewrite Hs0.
    by destruct (decide (id = _create_section_alarm_id section)) as [->|].
Qed.

Lemma detect_sections_round_seeds (entry : Z * bytes) (j : Jablotron) :
  seeds_states (engine j) (engine (detect_sections_round byteorder entry j)).
Proof.
  destruct entry as [section record]. cbn [detect_sections_round engine].
  eapply seeds_states_trans; [|apply seeds_states_set_initial_state].
  eapply seeds_states_trans; [|apply seeds_states_set_initial_state].
  destruct (negb _); [apply seeds_states_log_error|apply seeds_states_refl].
Qed.

Lemma detect_sections_fold (l : list (Z * bytes)) (j : Jablotron) :
  NoDup l.*1 →
  let j' := fold_left (fun j entry => detect_sections_round byteorder entry j) l j in
  seeds_states (engine j) (engine j')
  ∧ panel_sections j' = panel_sections j ++ l.*1
  ∧ (control_id ∘ panel_control) <$> _alarm_control_panels j'
    = ((control_id ∘ panel_control) <$> _alarm_control_panels j)
      ++ (_create_section_alarm_id <$> l.*1)
  ∧ control_id <$> _section_problem_sensors j'
    = (control_id <$> _section_problem_sensors j)
      ++ (_create_section_problem_sensor_id <$> l.*1)
  ∧ (∀ section record, (section, record) ∈ l →
       states (engine j') !! _create_section_alarm_id section
       = Some (stored_or_initial (engine j) (_create_section_alarm_id section)
                 (alarm_state_of record))
       ∧ states (engine j') !! _create_section_problem_sensor_id section
         = Some (stored_or_initial (engine j) (_create_section_problem_sensor_id section)
                   (problem_state_of record)))
  ∧ (∀ id, states (engine j) !! id = None → is_Some (states (engine j') !! id) →
       ∃ section, section ∈ l.*1
         ∧ (id = _create_section_alarm_id section
            ∨ id = _create_section_problem_sensor_id section))
  ∧ _device_sensors j' = _device_sensors j
  ∧ _device_problem_sensors j' = _device_problem_sensors j
  ∧ _lan_connection j' = _lan_connection j
  ∧ _central_unit j' = _central_unit j.
Proof.
  cbv zeta. revert j. induction l as [|[section record] l IH]; intros j Hnd.
  { cbn [fold_left fmap list_fmap]. rewrite !app_nil_r.
    split; [apply seeds_states_refl|]. do 3 (split; [done|]).
    split; [intros ?? Hin; by apply elem_of_nil in Hin|].
    split; [|done]. intros id Hnone [v Hv]. congruence. }
  cbn [fmap list_fmap fst] in Hnd. apply NoDup_cons in Hnd as [Hfresh Hnd].
  cbn [fold_left].
  set (j1 := detect_sections_round byteorder (section, record) j).
  destruct (IH j1 Hnd) as (Hseed & Hpanels & Hpids & Hsids & Hval & Hnew & Hds & Hdp & Hlan & Hcu).
  pose proof (detect_sections_round_seeds (section, record) j) as Hseed1. fold j1 in Hseed1.
  split; [by eapply seeds_states_trans|].
  split. { rewrite Hpanels. subst j1. unfold panel_sections. cbn [detect_sections_round _alarm_control_panels].
           rewrite fmap_app. cbn [fmap list_fmap panel_section fst]. by rewrite <- app_assoc. }
  split. { rewrite Hpids. subst j1. cbn [detect_sections_round _alarm_control_panels].
           rewrite fmap_app. cbn [fmap list_fmap fst]. by rewrite <- app_assoc. }
  split. { rewrite Hsids. subst j1. cbn [detect_sections_round _section_problem_sensors].
           rewrite fmap_app. cbn [fmap list_fmap fst]. by rewrite <- app_assoc. }
  split.
  { intros section' record' Hin. apply elem_of_cons in Hin as [[= -> ->]|Hin].
    - destruct Hseed as (_ & _ & _ & _ & _ & Hsub & _).
      split.
      + eapply lookup_weaken; [|exact Hsub]. subst j1.
        rewrite detect_sections_round_states. by rewrite decide_True.
      + eapply lookup_weaken; [|exact Hsub]. subst j1.
        rewrite detect_sections_round_states.
        rewrite decide_False
          by (intros H; by apply symmetry, section_alarm_id_ne_problem_sensor_id in H).
        by rewrite decide_True.
    - assert (Hne : section' ≠ section).
      { intros ->. apply Hfresh. apply list_elem_of_fmap. by exists (section, record'). }
      destruct (Hval section' record' Hin) as [Ha Hp].
      assert (Hsame : ∀ id, id = _create_section_alarm_id section'
                            ∨ id = _create_section_problem_sensor_id section' →
                states (engine j1) !! id = states (engine j) !! id).
      { intros id Hid. subst j1. rewrite detect_sections_round_states.
        rewrite decide_False; [rewrite decide_False; [done|]|].
        - intros ->. destruct Hid as [Hid|Hid].
          + by apply symmetry, section_alarm_id_ne_problem_sensor_id in Hid.
          + by apply section_problem_sensor_id_inj in Hid.
        - intros ->. destruct Hid as [Hid|Hid].
          + by apply section_alarm_id_inj in Hid.
          + by apply section_alarm_id_ne_problem_sensor_id in Hid. }
      unfold stored_or_initial in *.
      rewrite Ha, Hp, !Hsame by auto. done. }
  split.
  { intros id Hnone Hsome. cbn [fmap list_fmap fst].
    destruct (states (engine j1) !! id) as [v|] eqn:H1.
    - exists section. split; [left|].
      subst j1. rewrite detect_sections_round_states in H1.
      repeat case_decide; [by left|by right|congruence].
    - destruct (Hnew id H1 Hsome) as (section' & Hin & Hid).
      exists section'. split; [by right|done]. }
  subst j1. cbn [detect_sections_round _device_sensors _device_problem_sensors
                 _lan_connection _central_unit] in *. done.
Qed.

End DetectSections.

Lemma parse_sections_states_packet_NoDup (MAX_SECTIONS : Z) (packet : bytes) :
  NoDup (_parse_sections_states_packet MAX_SECTIONS packet).*1.
Proof.
  unfold _parse_sections_states_packet.
  destruct (sections_states_scan_prefix packet (seqZ 1 MAX_SECTIONS)) as (-> & _ & _).
  pose proof (NoDup_seqZ 1 MAX_SECTIONS) as Hnd.
  rewrite <- (take_drop (length (sections_states_scan packet (seqZ 1 MAX_SECTIONS)))
                (seqZ 1 MAX_SECTIONS)) in Hnd.
  by apply NoDup_app in Hnd as [Hnd _].
Qed.

Lemma panels_have_state_sections (j : Jablotron) :
  panels_have_state j
  ↔ ∀ section, section ∈ panel_sections j →
      is_Some (states (engine j) !! _create_section_alarm_id section).
Proof.
  unfold panels_have_state, panel_sections. split.
  - intros Hall section (panel & -> & Hin)%list_elem_of_fmap. by apply Hall.
  - intros Hall panel Hin. apply Hall. by apply list_elem_of_fmap_2.
Qed.


(** ** Keepalive *)

Lemma is_alarm_active_loop_answer (panels : list JablotronAlarmControlPanel) (e : Engine) :
  (∀ panel, panel ∈ panels →
     is_Some (states e !! _create_section_alarm_id (panel_section panel))) →
  ∃ active, is_alarm_active_loop panels e = Ok active
    ∧ (active = true ↔
       ∃ section state, section ∈ panel_section <$> panels
         ∧ states e !! _create_section_alarm_id section = Some state
         ∧ (state = STATE_ALARM_TRIGGERED ∨ state = STATE_ALARM_PENDING)).
Proof.
  induction panels as [|panel panels IH]; intros Hall.
  { exists false. split; [done|]. split; [done|].
    intros (section & state & Hin & _). by apply elem_of_nil in Hin. }
  cbn [is_alarm_active_loop].
  destruct (Hall panel ltac:(left)) as [state Hstate]. rewrite Hstate.
  destruct (bool_decide (state = STATE_ALARM_TRIGGERED)
            || bool_decide (state = STATE_ALARM_PENDING)) eqn:Hactive.
  - exists true. split; [done|]. split; [|done]. intros _.
    exists (panel_section panel), state. split; [left|split; [done|]].
    apply orb_true_iff in Hactive as [H|H]; apply bool_decide_eq_true in H; auto.
  - destruct (IH (fun p Hp => Hall p ltac:(by right))) as (active & Hrun & Hiff).
    exists active. split; [done|]. rewrite Hiff. cbn [fmap list_fmap].
    split.
    + intros (section & state' & Hin & Hs & Hv). exists section, state'.
      split; [by right|done].
    + intros (section & state' & Hin & Hs & Hv).
      apply elem_of_cons in Hin as [->|Hin]; [|by exists section, state'].
      rewrite Hstate in Hs. injection Hs as <-.
      apply orb_false_iff in Hactive as [H1 H2].
      apply bool_decide_eq_false in H1, H2. by destruct Hv.
Qed.

Lemma is_alarm_active_loop_missing (panels : list JablotronAlarmControlPanel) (e : Engine) :
  (∃ panel, panel ∈ panels
     ∧ states e !! _create_section_alarm_id (panel_section panel) = None) →
  (∀ section state, section ∈ panel_section <$> panels →
     states e !! _create_section_alarm_id section = Some state →
     state ≠ STATE_ALARM_TRIGGERED ∧ state ≠ STATE_ALARM_PENDING) →
  is_alarm_active_loop panels e = Raise KeyError.
Proof.
  induction panels as [|panel panels IH]; intros (missing & Hin & Hnone) Hcalm.
  { by apply elem_of_nil in Hin. }
  cbn [is_alarm_active_loop].
  destruct (states e !! _create_section_alarm_id (panel_section panel)) as [state|] eqn:Hs;
    [|done].
  destruct (Hcalm (panel_section panel) state ltac:(left) Hs) as [H1 H2].
  rewrite (bool_decide_false _ H1), (bool_decide_false _ H2). cbn [orb].
  apply IH.
  - apply elem_of_cons in Hin as [->|Hin]; [congruence|by exists missing].
  - intros section state' Hsec. apply Hcalm. by right.
Qed.

(** X15. [_is_alarm_active] answers whenever every alarm control panel has
    a stored state, which the read loop keeps true whatever it reads: the
    answer is [True] exactly when some panel's state is triggered or
    pending.  When a panel has no stored state and no panel is triggered
    or pending, it raises [KeyError]. *)
Theorem is_alarm_active_answer
    (order : ByteOrder) (MAX_SECTIONS : Z)
    (DEVICE_KEYPAD DEVICE_SIREN_OUTDOOR DEVICE_OTHER DEVICE_EMPTY : string)
    (reads : list ReadOutcome) (j : Jablotron) :
  let j' :=
    with_engine
      (_read_packets
         order MAX_SECTIONS DEVICE_KEYPAD DEVICE_SIREN_OUTDOOR DEVICE_OTHER DEVICE_EMPTY
         reads) j in
  (panels_have_state j →
   panels_have_state j'
   ∧ ∃ active, _is_alarm_active j' = Ok active ∧ (active = true ↔ some_panel_active j'))
  ∧ (¬ some_panel_active j →
     (∃ section, section ∈ panel_sections j
        ∧ states (engine j) !! _create_section_alarm_id section = None) →
     _is_alarm_active j = Raise KeyError).
Proof.
  cbv zeta. split.
  - intros Hold.
    assert (Hnew : panels_have_state
              (with_engine
                 (_read_packets order MAX_SECTIONS DEVICE_KEYPAD DEVICE_SIREN_OUTDOOR
                    DEVICE_OTHER DEVICE_EMPTY reads) j)).
    { intros panel Hin. cbn [with_engine _alarm_control_panels engine] in *.
      destruct (Hold panel Hin) as [v Hv].
      destruct (stores_known_read_packets order MAX_SECTIONS DEVICE_KEYPAD
                  DEVICE_SIREN_OUTDOOR DEVICE_OTHER DEVICE_EMPTY reads (engine j))
        as (_ & _ & _ & Hs).
      destruct (Hs (_create_section_alarm_id (panel_section panel)))
        as [->|(w & -> & _)]; eauto. }
    split; [exact Hnew|].
    destruct (is_alarm_active_loop_answer _ _ Hnew) as (active & Hrun & Hiff).
    exists active. split; [exact Hrun|]. exact Hiff.
  - intros Hcalm (section & Hin & Hnone). apply is_alarm_active_loop_missing.
    + apply list_elem_of_fmap in Hin as (panel & -> & Hin). by exists panel.
    + intros section' state Hsec Hs. split; intros ->; apply Hcalm;
        exists section'; eexists; eauto.
Qed.

Lemma emit_all_snoc (evs : list Event) (ev : Event) (e : Engine) :
  emit ev (emit_all evs e) = emit_all (evs ++ [ev]) e.
Proof. unfold emit_all. by rewrite fold_left_app. Qed.

Lemma emit_all_frame (evs : list Event) (e : Engine) :
  trace (emit_all evs e) = trace e ++ evs
  ∧ states (emit_all evs e) = states e
  ∧ _config (emit_all evs e) = _config e
  ∧ _entities (emit_all evs e) = _entities e
  ∧ _stored_data (emit_all evs e) = _stored_data e
  ∧ _central_unit_model (emit_all evs e) = _central_unit_model e
  ∧ last_update_success (emit_all evs e) = last_update_success e.
Proof.
  unfold emit_all. revert e. induction evs as [|ev evs IH]; intros e.
  { cbn [fold_left]. by rewrite app_nil_r. }
  cbn [fold_left]. destruct (IH (emit ev e)) as (-> & -> & -> & -> & -> & -> & ->).
  cbn [emit trace states _config _entities _stored_data _central_unit_model
       last_update_success]. by rewrite <- app_assoc.
Qed.

Lemma is_alarm_active_emit_all (evs : list Event) (j : Jablotron) :
  _is_alarm_active (with_engine (emit_all evs) j) = _is_alarm_active j.
Proof.
  unfold _is_alarm_active. cbn [with_engine _alarm_control_panels engine].
  destruct (emit_all_frame evs (engine j)) as (_ & Hs & _).
  induction (_alarm_control_panels j) as [|panel panels IH]; [done|].
  cbn [is_alarm_active_loop]. by rewrite Hs, IH.
Qed.

Lemma status_requests_snoc (evs : list Event) (ev : Event) :
  status_requests (evs ++ [ev])
  = (status_requests evs + if is_status_request ev then 1 else 0)%nat.
Proof.
  unfold status_requests. rewrite List.filter_app, length_app. cbn [List.filter].
  by destruct (is_status_request ev).
Qed.

Lemma idle_rounds_cons (updating : bool) (waits : list bool) :
  idle_rounds (updating :: waits)
  = ((if updating then 0 else 1) + idle_rounds waits)%nat.
Proof. unfold idle_rounds. cbn [List.filter]. by destruct updating. Qed.

Lemma rounds_at_zero_step (counter rounds : Z) :
  0 <= counter < 60 → 0 <= rounds →
  rounds_at_zero counter (1 + rounds)
  = (if bool_decide (counter = 0) then 1 else 0)
    + rounds_at_zero (if bool_decide (counter + 1 = 60) then 0 else counter + 1) rounds.
Proof.
  intros Hc Hr. unfold rounds_at_zero.
  repeat case_bool_decide; subst; Z.to_euclidean_division_equations; lia.
Qed.

Lemma status_requests_cons (ev : Event) (evs : list Event) :
  status_requests (ev :: evs)
  = ((if is_status_request ev then 1 else 0) + status_requests evs)%nat.
Proof. unfold status_requests. cbn [List.filter]. by destruct (is_status_request ev). Qed.

Section Keepalive.

Local Abbreviation password j := (CONF_PASSWORD (_config (engine j))).

(** An idle round: the counter advances modulo 60 and exactly one call
    leaves the engine. *)
Lemma keepalive_round_idle (counter : Z) (j : Jablotron) :
  ∃ ev,
    keepalive_round false (counter, j)
    = (if bool_decide (counter + 1 = 60) then 0 else counter + 1, with_engine (emit ev) j)
    ∧ (is_send ev = true ∨ ev = EvLogError)
    ∧ (is_status_request ev = true → counter = 0 ∧ _is_alarm_active j = Ok false)
    ∧ (_is_alarm_active j = Ok false →
       (∃ code_packet, _create_code_packet (password j) = Ok code_packet) →
       is_send ev = true ∧ (counter = 0 → is_status_request ev = true)).
Proof.
  unfold keepalive_round. cbn [negb].
  destruct (bool_decide (counter = 0)) eqn:Hzero.
  - apply bool_decide_eq_true in Hzero as ->.
    destruct (_is_alarm_active j) as [[|]|x] eqn:Hactive; cbn [rbind negb].
    + exists (EvSendPacket KEEPALIVE_POLL). split; [done|]. split; [by left|].
      split; [done|]. intros [=].
    + destruct (_create_code_packet (password j)) as [code_packet|x] eqn:Hcode; cbn [rbind].
      * exists (EvSendPacket (code_packet ++ KEEPALIVE_STATUS_REQUEST)).
        split; [done|]. split; [by left|].
        assert (Hreq : is_status_request
                         (EvSendPacket (code_packet ++ KEEPALIVE_STATUS_REQUEST)) = true).
        { destruct (create_code_packet_shape _ _ Hcode) as [Hlen _].
          cbn [is_status_request]. rewrite length_app, Hlen.
          rewrite drop_app_length' by done. done. }
        split; [done|]. done.
      * exists EvLogError. split; [done|]. split; [by right|].
        split; [done|]. intros _ [code_packet [=]].
    + exists EvLogError. split; [done|]. split; [by right|]. split; [done|]. intros [=].
  - apply bool_decide_eq_false in Hzero.
    exists (EvSendPacket KEEPALIVE_POLL).
    split; [by destruct (bool_decide (counter + 1 = 60))|]. split; [by left|].
    split; [done|]. intros _ _. split; [done|]. intros ?. done.
Qed.

(** A round during a read leaves everything as it is. *)
Lemma keepalive_round_busy (counter : Z) (j : Jablotron) :
  counter ≠ 60 → keepalive_round true (counter, j) = (counter, j).
Proof.
  intros Hc. unfold keepalive_round. cbn [negb]. by rewrite bool_decide_false.
Qed.

Lemma keepalive_fold (waits : list bool) (counter : Z) (j : Jablotron) :
  0 <= counter < 60 →
  let run :=
    fold_left (fun state updating => keepalive_round updating state) waits (counter, j) in
  let idle := Z.of_nat (idle_rounds waits) in
  ∃ evs,
    run.2 = with_engine (emit_all evs) j
    ∧ run.1 = (counter + idle) `mod` 60
    ∧ length evs = idle_rounds waits
    ∧ Forall (fun ev => is_send ev = true ∨ ev = EvLogError) evs
    ∧ Z.of_nat (status_requests evs) <= rounds_at_zero counter idle
    ∧ (_is_alarm_active j ≠ Ok false → status_requests evs = 0%nat)
    ∧ (_is_alarm_active j = Ok false →
       (∃ code_packet, _create_code_packet (password j) = Ok code_packet) →
       Z.of_nat (status_requests evs) = rounds_at_zero counter idle
       ∧ Forall (fun ev => is_send ev = true) evs).
Proof.
  cbv zeta. revert counter j. induction waits as [|updating waits IH]; intros counter j Hc.
  { exists []. cbn [fold_left fst snd]. split; [by destruct j|].
    split; [cbn; rewrite Z.add_0_r, Z.mod_small by lia; done|].
    split; [done|]. split; [constructor|].
    assert (rounds_at_zero counter (Z.of_nat (idle_rounds [])) = 0) as ->
      by (unfold rounds_at_zero; cbn; rewrite Z.add_0_r; lia).
    split; [done|]. split; [done|]. intros _ _. split; [done|constructor]. }
  cbn [fold_left]. rewrite idle_rounds_cons. destruct updating.
  - rewrite keepalive_round_busy by lia. cbn [Nat.add]. by apply IH.
  - destruct (keepalive_round_idle counter j) as (ev & -> & Hkind & Hreq & Hsend).
    set (counter1 := if bool_decide (counter + 1 = 60) then 0 else counter + 1).
    assert (Hc1 : 0 <= counter1 < 60) by (subst counter1; case_bool_decide; lia).
    assert (Hmod : ∀ idle, (counter1 + idle) `mod` 60 = (counter + (1 + idle)) `mod` 60).
    { intros idle. subst counter1.
      case_bool_decide; Z.to_euclidean_division_equations; lia. }
    destruct (IH counter1 (with_engine (emit ev) j) Hc1)
      as (evs & Hrun & Hcount & Hlen & Hkinds & Hle & Hnone & Hall).
    change (with_engine (emit ev) j) with (with_engine (emit_all [ev]) j) in Hnone, Hall.
    rewrite is_alarm_active_emit_all in Hnone, Hall.
    cbn [with_engine engine emit_all fold_left emit _config] in Hall.
    exists (ev :: evs).
    assert (Hstep := rounds_at_zero_step counter (Z.of_nat (idle_rounds waits)) Hc
                       ltac:(lia)).
    fold counter1 in Hstep.
    replace (Z.of_nat (1 + idle_rounds waits)) with (1 + Z.of_nat (idle_rounds waits)) by lia.
    rewrite Hstep, status_requests_cons.
    split; [by rewrite Hrun|].
    split; [by rewrite Hcount, Hmod|].
    split; [cbn [length]; by rewrite Hlen|].
    split; [by constructor|].
    split.
    { destruct (is_status_request ev) eqn:Hev.
      - destruct (Hreq eq_refl) as [-> _]. rewrite bool_decide_true by done. lia.
      - case_bool_decide; lia. }
    split.
    { intros Hactive. rewrite (Hnone Hactive).
      destruct (is_status_request ev) eqn:Hev; [|done].
      by destruct (Hreq eq_refl) as [_ ?]. }
    intros Hactive Hcode. destruct (Hall Hactive Hcode) as [Heq Hsends].
    destruct (Hsend Hactive Hcode) as [Hs Hz].
    split; [|by constructor].
    rewrite Nat2Z.inj_add, Heq. f_equal.
    case_bool_decide as H0.
    + by rewrite (Hz H0).
    + destruct (is_status_request ev) eqn:Hev; [|done].
      by destruct (Hreq eq_refl) as [? _].
Qed.

End Keepalive.

(** X16. The keepalive loop, run on an object whose states do not change
    under it, changes nothing but what is sent and logged: every idle round
    sends one packet or logs one error, a round during a read does nothing,
    and the counter is the number of idle rounds modulo 60.  A status
    request with the code is sent at most ceil(idle / 60) times; never
    while [_is_alarm_active] answers [True] or raises; and exactly
    ceil(idle / 60) times when it answers [False] and the configured code
    can be encoded, in which case every idle round sends a packet. *)
Theorem keepalive_status_requests (waits : list bool) (j : Jablotron) :
  let run := _keepalive waits j in
  let idle := Z.of_nat (idle_rounds waits) in
  ∃ evs,
    run.2 = with_engine (emit_all evs) j
    ∧ run.1 = idle `mod` 60
    ∧ length evs = idle_rounds waits
    ∧ Forall (fun ev => is_send ev = true ∨ ev = EvLogError) evs
    ∧ Z.of_nat (status_requests evs) <= (idle + 59) `div` 60
    ∧ (_is_alarm_active j ≠ Ok false → status_requests evs = 0%nat)
    ∧ (_is_alarm_active j = Ok false →
       (∃ code_packet,
          _create_code_packet (CONF_PASSWORD (_config (engine j))) = Ok code_packet) →
       Z.of_nat (status_requests evs) = (idle + 59) `div` 60
       ∧ Forall (fun ev => is_send ev = true) evs).
Proof.
  cbv zeta. unfold _keepalive.
  destruct (keepalive_fold waits 0 j ltac:(lia))
    as (evs & Hrun & Hcount & Hlen & Hkinds & Hle & Hnone & Hall).
  assert (Hzero : ∀ idle, rounds_at_zero 0 idle = (idle + 59) `div` 60).
  { intros idle. unfold rounds_at_zero. rewrite !Z.add_0_l.
    rewrite (Z.div_small 59) by lia. lia. }
  rewrite Hzero in Hle, Hall. rewrite Z.add_0_l in Hcount.
  exists evs. done.
Qed.

Lemma set_initial_state_frame (id initial_state : string) (e : Engine) :
  trace (_set_initial_state id initial_state e) = trace e
  ∧ _config (_set_initial_state id initial_state e) = _config e
  ∧ _entities (_set_initial_state id initial_state e) = _entities e
  ∧ _stored_data (_set_initial_state id initial_state e) = _stored_data e
  ∧ _central_unit_model (_set_initial_state id initial_state e) = _central_unit_model e
  ∧ last_update_success (_set_initial_state id initial_state e) = last_update_success e.
Proof. unfold _set_initial_state. by case_bool_decide. Qed.

(** ** Devices *)

Lemma get_device_type_roster (number : Z) (e : Engine) :
  1 <= number →
  _get_device_type number e
  = match roster_type (_config e) number with
    | Some type => Ok type
    | None => Raise IndexError
    end.
Proof.
  intros Hn. unfold _get_device_type, py_index, roster_type.
  rewrite (bool_decide_false (number - 1 < 0)) by lia.
  by rewrite (bool_decide_true (0 <= number - 1)) by lia.
Qed.

Lemma py_getitem_keys {A} (d : list (string * A)) (key : string) :
  (key ∈ d.*1 → ∃ v, py_getitem d key = Ok v)
  ∧ (key ∉ d.*1 → py_getitem d key = Raise KeyError).
Proof.
  unfold py_getitem. split.
  - intros Hin. destruct (list_to_map d !! key) as [v|] eqn:Hv; [by exists v|].
    by apply not_elem_of_list_to_map in Hv.
  - intros Hout. by apply not_elem_of_list_to_map_1 in Hout as ->.
Qed.

Section CreateDevices.

Variables DEVICE_KEYPAD DEVICE_SIREN_OUTDOOR DEVICE_OTHER DEVICE_EMPTY : string.
Variable DEVICES : list (string * string).

Local Abbreviation ignored := [DEVICE_KEYPAD; DEVICE_OTHER; DEVICE_EMPTY].
Local Abbreviation sensorless :=
  [DEVICE_KEYPAD; DEVICE_OTHER; DEVICE_EMPTY; DEVICE_SIREN_OUTDOOR].
Local Abbreviation round :=
  (create_devices_round
     DEVICE_KEYPAD DEVICE_SIREN_OUTDOOR DEVICE_OTHER DEVICE_EMPTY DEVICES).
Local Abbreviation loop :=
  (create_devices_loop
     DEVICE_KEYPAD DEVICE_SIREN_OUTDOOR DEVICE_OTHER DEVICE_EMPTY DEVICES).

Lemma create_devices_round_result (i : Z) (j : Jablotron) :
  0 <= i →
  let number := i + 1 in
  let c := _config (engine j) in
  (roster_labelled ignored DEVICES c number = false →
   ∃ x, round i j = (j, Some x) ∧ (x = IndexError ∨ x = KeyError))
  ∧ (roster_labelled ignored DEVICES c number = true →
     (round i j).2 = None
     ∧ engine (round i j).1
       = (if roster_keeps ignored c number
          then _set_initial_state (_create_device_problem_sensor_id number) STATE_OFF
                 (_set_initial_state (_create_device_sensor_id number) STATE_OFF (engine j))
          else engine j)
     ∧ control_id <$> _device_problem_sensors (round i j).1
       = (control_id <$> _device_problem_sensors j)
         ++ (if roster_keeps ignored c number
             then [_create_device_problem_sensor_id number] else [])
     ∧ (control_id ∘ device_control) <$> _device_sensors (round i j).1
       = ((control_id ∘ device_control) <$> _device_sensors j)
         ++ (if roster_keeps sensorless c number
             then [_create_device_sensor_id number] else [])
     ∧ _alarm_control_panels (round i j).1 = _alarm_control_panels j
     ∧ _section_problem_sensors (round i j).1 = _section_problem_sensors j
     ∧ _lan_connection (round i j).1 = _lan_connection j
     ∧ _central_unit (round i j).1 = _central_unit j).
Proof.
  intros Hi. cbv zeta. remember (round i j) as run eqn:Hrun.
  unfold create_devices_round, _is_device_ignored, _is_device_with_activity_sensor,
    _create_device_hass_device, _create_device_sensor_name,
    _create_device_problem_sensor_name in Hrun.
  rewrite get_device_type_roster in Hrun by lia.
  unfold roster_labelled, roster_keeps.
  destruct (roster_type (_config (engine j)) (i + 1)) as [type|]; cbn [rbind] in Hrun.
  2: { split; [intros _; exists IndexError; by split; [|left]|done]. }
  destruct (bool_decide (type ∈ ignored)) eqn:Hignored; cbn [orb negb].
  { split; [done|]. intros _. subst run. cbn [fst snd]. rewrite !app_nil_r.
    assert (bool_decide (type ∈ sensorless) = true) as ->.
    { apply bool_decide_eq_true in Hignored. apply bool_decide_eq_true.
      rewrite !elem_of_cons in *. tauto. }
    cbn [negb]. by rewrite app_nil_r. }
  destruct (py_getitem_keys DEVICES type) as [Hknown Hunknown].
  destruct (bool_decide (type ∈ DEVICES.*1)) eqn:Hlabel.
  - apply bool_decide_eq_true in Hlabel. destruct (Hknown Hlabel) as [label Hget].
    rewrite Hget in Hrun. cbn [rbind] in Hrun.
    split; [done|]. intros _.
    assert (bool_decide (type ∈ sensorless) = bool_decide (type ∈ [DEVICE_SIREN_OUTDOOR]))
      as ->.
    { apply bool_decide_eq_false in Hignored. apply bool_decide_ext.
      rewrite !elem_of_cons in *. tauto. }
    destruct (bool_decide (type ∈ [DEVICE_SIREN_OUTDOOR])); cbn [negb] in *;
      subst run; cbn [fst snd engine _device_problem_sensors _device_sensors
                      _alarm_control_panels _section_problem_sensors _lan_connection
                      _central_unit];
      rewrite ?fmap_app, ?app_nil_r; done.
  - apply bool_decide_eq_false in Hlabel. rewrite (Hunknown Hlabel) in Hrun.
    cbn [rbind] in Hrun. split; [|done]. intros _. exists KeyError. by split; [|right].
Qed.

Lemma create_devices_loop_result (l : list Z) (j : Jablotron) :
  Forall (fun i => 0 <= i) l →
  let c := _config (engine j) in
  let numbers := (fun i => i + 1) <$> l in
  let kept := List.filter (roster_keeps ignored c) numbers in
  let run := loop l j in
  (run.2 = None ↔ forallb (roster_labelled ignored DEVICES c) numbers = true)
  ∧ (∀ x, run.2 = Some x → x = IndexError ∨ x = KeyError)
  ∧ (run.2 = None →
     control_id <$> _device_problem_sensors run.1
     = (control_id <$> _device_problem_sensors j)
       ++ (_create_device_problem_sensor_id <$> kept)
     ∧ (control_id ∘ device_control) <$> _device_sensors run.1
       = ((control_id ∘ device_control) <$> _device_sensors j)
         ++ (_create_device_sensor_id
               <$> List.filter (roster_keeps sensorless c) numbers)
     ∧ (trace (engine run.1) = trace (engine j)
        ∧ _config (engine run.1) = _config (engine j)
        ∧ _entities (engine run.1) = _entities (engine j)
        ∧ _stored_data (engine run.1) = _stored_data (engine j)
        ∧ _central_unit_model (engine run.1) = _central_unit_model (engine j)
        ∧ last_update_success (engine run.1) = last_update_success (engine j))
     ∧ (∀ id, states (engine run.1) !! id = states (engine j) !! id
              ∨ (states (engine j) !! id = None
                 ∧ states (engine run.1) !! id = Some STATE_OFF
                 ∧ ∃ number, number ∈ kept
                     ∧ (id = _create_device_sensor_id number
                        ∨ id = _create_device_problem_sensor_id number)))
     ∧ (∀ number, number ∈ kept →
          is_Some (states (engine run.1) !! _create_device_sensor_id number)
          ∧ is_Some (states (engine run.1) !! _create_device_problem_sensor_id number))
     ∧ _alarm_control_panels run.1 = _alarm_control_panels j
     ∧ _section_problem_sensors run.1 = _section_problem_sensors j
     ∧ _lan_connection run.1 = _lan_connection j
     ∧ _central_unit run.1 = _central_unit j).
Proof.
  cbv zeta. revert j. induction l as [|i l IH]; intros j Hpos.
  { cbn [create_devices_loop fmap list_fmap forallb List.filter fst snd].
    rewrite !app_nil_r. split; [done|]. split; [done|]. intros _.
    do 3 (split; [done|]). split; [by left|]. split; [|done].
    intros number Hin. by apply elem_of_nil in Hin. }
  apply Forall_cons in Hpos as [Hi Hpos].
  cbn [create_devices_loop fmap list_fmap forallb List.filter].
  destruct (create_devices_round_result i j Hi) as [Hfail Hok].
  destruct (roster_labelled ignored DEVICES (_config (engine j)) (i + 1)) eqn:Hlab.
  2: { destruct (Hfail eq_refl) as (x & -> & Hx). cbn [fst snd andb].
       split; [done|]. split; [by intros ? [= <-]|done]. }
  clear Hfail. specialize (Hok eq_refl).
  destruct (round i j) as [j1 [x|]] eqn:Hround; cbn [fst snd] in Hok.
  { by destruct Hok as [? _]. }
  destruct Hok as (_ & Hengine & Hpids & Hsids & Hpanels & Hsps & Hlan & Hcu).
  assert (Hframe : trace (engine j1) = trace (engine j)
                   ∧ _config (engine j1) = _config (engine j)
                   ∧ _entities (engine j1) = _entities (engine j)
                   ∧ _stored_data (engine j1) = _stored_data (engine j)
                   ∧ _central_unit_model (engine j1) = _central_unit_model (engine j)
                   ∧ last_update_success (engine j1) = last_update_success (engine j)).
  { rewrite Hengine. destruct (roster_keeps ignored (_config (engine j)) (i + 1)); [|done].
    destruct (set_initial_state_frame (_create_device_problem_sensor_id (i + 1)) STATE_OFF
                (_set_initial_state (_create_device_sensor_id (i + 1)) STATE_OFF (engine j)))
      as (-> & -> & -> & -> & -> & ->).
    apply set_initial_state_frame. }
  destruct Hframe as (Ht1 & Hc1 & He1 & Hd1 & Hm1 & Hl1).
  destruct (IH j1 Hpos) as (Hiff & Hexc & Hres). rewrite Hc1 in Hiff, Hres.
  cbn [andb]. split; [exact Hiff|]. split; [exact Hexc|].
  intros Hnone. specialize (Hres Hnone).
  destruct Hres as (Hpids' & Hsids' & Hframe' & Hstates' & Hseeded' & Hpanels' & Hsps'
                    & Hlan' & Hcu').
  set (kept_tail := List.filter (roster_keeps ignored (_config (engine j)))
                      ((fun i => i + 1) <$> l)) in *.
  assert (Hstates1 : ∀ id,
            states (engine j1) !! id = states (engine j) !! id
            ∨ (states (engine j) !! id = None
               ∧ states (engine j1) !! id = Some STATE_OFF
               ∧ roster_keeps ignored (_config (engine j)) (i + 1) = true
               ∧ (id = _create_device_sensor_id (i + 1)
                  ∨ id = _create_device_problem_sensor_id (i + 1)))).
  { intros id. rewrite Hengine.
    destruct (roster_keeps ignored (_config (engine j)) (i + 1)); [|by left].
    rewrite !set_initial_state_lookup. unfold stored_or_initial.
    rewrite !set_initial_state_lookup. unfold stored_or_initial.
    destruct (decide (id = _create_device_problem_sensor_id (i + 1))) as [->|Hp].
    - destruct (decide (_create_device_problem_sensor_id (i + 1)
                        = _create_device_sensor_id (i + 1))) as [Heq|Hne].
      + rewrite Heq.
        destruct (states (engine j) !! _create_device_sensor_id (i + 1)) as [v|] eqn:Hv;
          cbn [default]; [by left|]. right. rewrite <- Heq. auto.
      + destruct (states (engine j) !! _create_device_problem_sensor_id (i + 1))
          as [v|] eqn:Hv; cbn [default]; [by left|]. right. auto.
    - destruct (decide (id = _create_device_sensor_id (i + 1))) as [->|Hs]; [|by left].
      destruct (states (engine j) !! _create_device_sensor_id (i + 1)) as [v|] eqn:Hv;
        cbn [default]; [by left|]. right. auto. }
  assert (Hseeded1 : roster_keeps ignored (_config (engine j)) (i + 1) = true →
            is_Some (states (engine j1) !! _create_device_sensor_id (i + 1))
            ∧ is_Some (states (engine j1) !! _create_device_problem_sensor_id (i + 1))).
  { intros Hk. rewrite Hengine, Hk. rewrite !set_initial_state_lookup.
    split; repeat case_decide; try congruence; by eexists. }
  assert (Hgrow : ∀ id, is_Some (states (engine j1) !! id) →
            is_Some (states (engine (loop l j1).1) !! id)).
  { intros id [v Hv]. destruct (Hstates' id) as [->|(Hn & _)]; [by exists v|congruence]. }
  split. { rewrite Hpids', Hpids, <- app_assoc. f_equal.
           by destruct (roster_keeps ignored (_config (engine j)) (i + 1)). }
  split. { rewrite Hsids', Hsids, <- app_assoc. f_equal.
           by destruct (roster_keeps sensorless (_config (engine j)) (i + 1)). }
  split. { destruct Hframe' as (-> & -> & -> & -> & -> & ->). done. }
  split.
  { intros id. destruct (Hstates' id) as [Hsame|(Hnone1 & Hoff & number & Hin & Hid)].
    - rewrite Hsame. destruct (Hstates1 id) as [Heq|(Hn & Hoff & Hk & Hid)]; [by left|].
      right. split; [done|]. split; [done|]. exists (i + 1). rewrite Hk.
      split; [by left|done].
    - right. destruct (Hstates1 id) as [Heq|(Hn & Hoff1 & _)]; [|congruence].
      split; [congruence|]. split; [done|]. exists number. split; [|done].
      destruct (roster_keeps ignored (_config (engine j)) (i + 1)); [by right|done]. }
  split.
  { intros number Hin.
    destruct (roster_keeps ignored (_config (engine j)) (i + 1)) eqn:Hk.
    - apply elem_of_cons in Hin as [->|Hin]; [|by apply Hseeded'].
      destruct (Hseeded1 eq_refl). split; by apply Hgrow.
    - by apply Hseeded'. }
  by rewrite Hpanels', Hsps', Hlan', Hcu'.
Qed.

End CreateDevices.

Lemma seqZ_shift (n : Z) : (fun i => i + 1) <$> seqZ 0 n = seqZ 1 n.
Proof.
  change (seqZ 1 n) with (seqZ (1 + 0) n).
  rewrite <- (fmap_add_seqZ 1 0 n). apply list_fmap_ext. intros _ i _. lia.
Qed.

(** X17. [_create_devices] returns exactly when every device number
    1..N is in the roster with a type that is ignored or has a label in
    [DEVICES]; otherwise it raises [IndexError] or [KeyError].  When it
    returns, it has appended a problem sensor for every device that is not
    ignored and a device sensor for every such device other than an
    outdoor siren, in the order of the numbers, and seeded two states for
    every device that is not ignored, outdoor sirens included: an id that
    had a state keeps it, a new one is off.  Nothing else changes and
    nothing is written, logged, saved or sent. *)
Theorem create_devices_controls
    (DEVICE_KEYPAD DEVICE_SIREN_OUTDOOR DEVICE_OTHER DEVICE_EMPTY : string)
    (DEVICES : list (string * string)) (j : Jablotron) :
  let c := _config (engine j) in
  let ignored := [DEVICE_KEYPAD; DEVICE_OTHER; DEVICE_EMPTY] in
  let numbers := seqZ 1 (CONF_NUMBER_OF_DEVICES c) in
  let kept := List.filter (roster_keeps ignored c) numbers in
  let with_sensor :=
    List.filter (roster_keeps (ignored ++ [DEVICE_SIREN_OUTDOOR]) c) numbers in
  let run :=
    _create_devices
      DEVICE_KEYPAD DEVICE_SIREN_OUTDOOR DEVICE_OTHER DEVICE_EMPTY DEVICES j in
  (run.2 = None ↔ forallb (roster_labelled ignored DEVICES c) numbers = true)
  ∧ (∀ x, run.2 = Some x → x = IndexError ∨ x = KeyError)
  ∧ (run.2 = None →
     control_id <$> _device_problem_sensors run.1
     = (control_id <$> _device_problem_sensors j)
       ++ (_create_device_problem_sensor_id <$> kept)
     ∧ (control_id ∘ device_control) <$> _device_sensors run.1
       = ((control_id ∘ device_control) <$> _device_sensors j)
         ++ (_create_device_sensor_id <$> with_sensor)
     ∧ (∀ number, number ∈ kept →
          states (engine run.1) !! _create_device_sensor_id number
          = Some (stored_or_initial (engine j) (_create_device_sensor_id number) STATE_OFF)
          ∧ states (engine run.1) !! _create_device_problem_sensor_id number
            = Some (stored_or_initial (engine j)
                      (_create_device_problem_sensor_id number) STATE_OFF))
     ∧ (∀ id, states (engine j) !! id = None →
          is_Some (states (engine run.1) !! id) →
          ∃ number, number ∈ kept
            ∧ (id = _create_device_sensor_id number
               ∨ id = _create_device_problem_sensor_id number))
     ∧ seeds_states (engine j) (engine run.1)
     ∧ trace (engine run.1) = trace (engine j)
     ∧ _alarm_control_panels run.1 = _alarm_control_panels j
     ∧ _section_problem_sensors run.1 = _section_problem_sensors j
     ∧ _lan_connection run.1 = _lan_connection j
     ∧ _central_unit run.1 = _central_unit j).
Proof.
  cbv zeta. unfold _create_devices.
  assert (Hpos : Forall (fun i => 0 <= i) (seqZ 0 (CONF_NUMBER_OF_DEVICES (_config (engine j))))).
  { apply Forall_forall. intros i Hin%elem_of_seqZ. lia. }
  destruct (create_devices_loop_result DEVICE_KEYPAD DEVICE_SIREN_OUTDOOR DEVICE_OTHER
              DEVICE_EMPTY DEVICES _ j Hpos) as (Hiff & Hexc & Hres).
  rewrite seqZ_shift in Hiff, Hres.
  split; [exact Hiff|]. split; [exact Hexc|]. intros Hnone.
  destruct (Hres Hnone)
    as (Hpids & Hsids & (Ht & Hc & He & Hd & Hm & Hl) & Hstates & Hseeded & Hrest).
  split; [exact Hpids|]. split; [exact Hsids|].
  split.
  { intros number Hin. destruct (Hseeded number Hin) as [[v Hv] [w Hw]].
    unfold stored_or_initial. split.
    - destruct (Hstates (_create_device_sensor_id number)) as [Heq|(Hn & Hoff & _)].
      + by rewrite <- Heq, Hv.
      + by rewrite Hn, Hoff.
    - destruct (Hstates (_create_device_problem_sensor_id number)) as [Heq|(Hn & Hoff & _)].
      + by rewrite <- Heq, Hw.
      + by rewrite Hn, Hoff. }
  split.
  { intros id Hnone' [v Hv]. destruct (Hstates id) as [Heq|(_ & _ & Hex)]; [congruence|done]. }
  split.
  { repeat split; try done.
    - apply map_subseteq_spec. intros id v Hv.
      destruct (Hstates id) as [Heq|(Hn & _)]; congruence.
    - exists []. by rewrite app_nil_r. }
  split; [exact Ht|exact Hrest].
Qed.

(** ** Saved states *)

Lemma section_alarm_id_not_saved (section : Z) :
  ¬ is_saved_id (_create_section_alarm_id section).
Proof.
  unfold is_saved_id, _create_section_alarm_id, _create_lan_connection_id,
    _create_device_problem_sensor_id.
  rewrite !append_cons. intros [H|[number H]]; discriminate.
Qed.

Lemma section_problem_sensor_id_not_saved (section : Z) :
  ¬ is_saved_id (_create_section_problem_sensor_id section).
Proof.
  unfold is_saved_id, _create_section_problem_sensor_id, _create_lan_connection_id,
    _create_device_problem_sensor_id.
  rewrite !append_cons. intros [H|[number H]]; discriminate.
Qed.

Lemma device_sensor_id_not_saved (number : Z) :
  ¬ is_saved_id (_create_device_sensor_id number).
Proof.
  unfold is_saved_id, _create_device_sensor_id, _create_lan_connection_id,
    _create_device_problem_sensor_id.
  intros [H|[number' H]]; rewrite ?append_cons in H; discriminate.
Qed.

Lemma update_state_stored_data (id state : string) (store_state : bool) (e : Engine) :
  _stored_data (_update_state id state store_state e)
  = if bool_decide (states e !! id = Some state) || negb store_state
    then _stored_data e
    else match _stored_data e with
         | StoredAliased => StoredAliased
         | StoredOwn m => StoredOwn (<[id := state]> m)
         | _ => StoredOwn (<[id := state]> ∅)
         end.
Proof.
  unfold _update_state. rewrite update_state_guard.
  case_bool_decide as Hsame; [done|]. cbn [orb].
  set (e1 := if bool_decide (id ∈ _) then _ else _).
  assert (Hd1 : _stored_data e1 = _stored_data e) by (subst e1; by case_bool_decide).
  destruct store_state; cbn [negb]; [|done].
  unfold _store_state. rewrite Hd1.
  destruct (_stored_data e) eqn:Hd;
    repeat (cbn [set_stored_data set_states emit _stored_data]; rewrite ?Hd1, ?Hd); done.
Qed.

Lemma update_state_states (id state : string) (store_state : bool) (e : Engine) :
  states (_update_state id state store_state e)
  = if bool_decide (states e !! id = Some state) then states e
    else <[id := state]> (states e).
Proof.
  apply map_eq. intros id'. rewrite update_state_lookup.
  case_bool_decide as Hsame.
  - case_decide; [by subst|done].
  - case_decide; [subst; by rewrite lookup_insert_eq|by rewrite lookup_insert_ne].
Qed.

Lemma saved_kept_refl (e : Engine) : saved_kept e e.
Proof. by split. Qed.

Lemma saved_kept_trans (e1 e2 e3 : Engine) :
  saved_kept e1 e2 → saved_kept e2 e3 → saved_kept e1 e3.
Proof. intros [H1 K1] [H2 K2]. split; [auto|]. by rewrite K1. Qed.

Lemma saved_kept_frame (e e' : Engine) :
  states e' = states e → _stored_data e' = _stored_data e → saved_kept e e'.
Proof.
  intros Hs Hd. unfold saved_kept, saved_current. by rewrite Hs, Hd.
Qed.

Lemma saved_kept_update_state (id state : string) (store_state : bool) (e : Engine) :
  state ∈ KNOWN_STATES →
  (if store_state then is_saved_id id else ¬ is_saved_id id) →
  saved_kept e (_update_state id state store_state e).
Proof.
  intros _ Hid. unfold saved_kept, saved_current.
  rewrite update_state_stored_data, update_state_states.
  case_bool_decide as Hsame; cbn [orb]; [done|].
  destruct store_state; cbn [negb].
  - destruct (_stored_data e) as [| | |m] eqn:Hd.
    + split; [|done]. intros _. split; [by apply insert_mono, map_empty_subseteq|].
      intros id' Hin. rewrite dom_insert_L, dom_empty_L in Hin.
      apply elem_of_union in Hin as [->%elem_of_singleton|Hin]; [done|].
      by apply elem_of_empty in Hin.
    + split; [|done]. intros _. split; [by apply insert_mono, map_empty_subseteq|].
      intros id' Hin. rewrite dom_insert_L, dom_empty_L in Hin.
      apply elem_of_union in Hin as [->%elem_of_singleton|Hin]; [done|].
      by apply elem_of_empty in Hin.
    + done.
    + split; [|done]. intros [Hsub Hids]. split; [by apply insert_mono|].
      intros id' Hin. rewrite dom_insert_L in Hin.
      apply elem_of_union in Hin as [->%elem_of_singleton|Hin]; [done|by apply Hids].
  - split; [|done]. destruct (_stored_data e) as [| | |m]; try done.
    intros [Hsub Hids]. split; [|done].
    apply insert_subseteq_r; [|done].
    apply not_elem_of_dom. intros Hin. by apply Hid, Hids.
Qed.

(** The read loop keeps every relation that is reflexive and transitive,
    holds between engines with the same live and saved states, and is kept
    by the updates the handlers make: a known state value, saved exactly
    for a saved id. *)
Section ReadLoopKeeps.

Variable R : Engine -> Engine -> Prop.

Hypothesis R_refl : ∀ e, R e e.
Hypothesis R_trans : ∀ e1 e2 e3, R e1 e2 → R e2 e3 → R e1 e3.
Hypothesis R_frame :
  ∀ e e', states e' = states e → _stored_data e' = _stored_data e → R e e'.
Hypothesis R_update :
  ∀ (id state : string) (store_state : bool) (e : Engine),
    state ∈ KNOWN_STATES →
    (if store_state then is_saved_id id else ¬ is_saved_id id) →
    R e (_update_state id state store_state e).

Variable byteorder : ByteOrder.
Variable MAX_SECTIONS : Z.
Variables DEVICE_KEYPAD DEVICE_SIREN_OUTDOOR DEVICE_OTHER DEVICE_EMPTY : string.

Implicit Types (e : Engine) (packet : bytes).

Lemma keeps_ret {A} (a : A) : keeps R (ret a).
Proof. intros e. apply R_refl. Qed.

Lemma keeps_read {A} (f : Engine -> A) : keeps R (read f).
Proof. intros e. apply R_refl. Qed.

Lemma keeps_lift {A} (f : Engine -> Result A) : keeps R (lift f).
Proof. intros e. apply R_refl. Qed.

Lemma keeps_modify (f : Engine -> Engine) : (∀ e, R e (f e)) → keeps R (modify f).
Proof. intros Hf e. apply Hf. Qed.

Lemma keeps_bind {A B} (m : M A) (k : A -> M B) :
  keeps R m → (∀ a, keeps R (k a)) → keeps R (bind m k).
Proof.
  intros Hm Hk e. unfold bind. specialize (Hm e).
  destruct (m e) as [e' [a|x]]; cbn [fst] in *; [|done].
  eapply R_trans; [exact Hm|apply Hk].
Qed.

Lemma keeps_for_each {A} (l : list A) (body : A -> M unit) :
  (∀ x, keeps R (body x)) → keeps R (for_each l body).
Proof.
  intros Hbody. induction l as [|x l IH]; cbn [for_each].
  - apply keeps_ret.
  - apply keeps_bind; [apply Hbody|intros _; exact IH].
Qed.

Lemma keeps_emit (ev : Event) : keeps R (modify (emit ev)).
Proof. apply keeps_modify. intros e. by apply R_frame. Qed.

Lemma keeps_section_states packet e :
  R e (_parse_section_states_packet byteorder MAX_SECTIONS packet e).
Proof.
  unfold _parse_section_states_packet.
  generalize (_parse_sections_states_packet MAX_SECTIONS packet). intros l.
  revert e. induction l as [|[section record] l IH]; intros e; [apply R_refl|].
  cbn [fold_left]. eapply R_trans; [|apply IH].
  unfold section_states_round.
  set (s := _parse_jablotron_section_state byteorder record).
  set (e0 := if negb _ then _ else e).
  assert (R e e0) as H0.
  { subst e0. destruct (negb _); [by apply R_frame|apply R_refl]. }
  eapply R_trans; [exact H0|].
  destruct (_ || _).
  - eapply R_trans; apply R_update;
      [apply alarm_state_known|apply section_alarm_id_not_saved
      |apply problem_sensor_state_known|apply section_problem_sensor_id_not_saved].
  - apply R_update; [apply alarm_state_known|apply section_alarm_id_not_saved].
Qed.

Lemma keeps_device_state packet :
  keeps R
    (_parse_device_state_packet
       byteorder DEVICE_KEYPAD DEVICE_SIREN_OUTDOOR DEVICE_OTHER DEVICE_EMPTY packet).
Proof.
  unfold _parse_device_state_packet.
  case_match; [apply keeps_emit|].
  apply keeps_bind; [apply keeps_read|]. intros lan.
  apply keeps_bind.
  { repeat first [ apply keeps_ret | apply keeps_read
                 | apply keeps_lift | apply keeps_emit
                 | apply keeps_bind; [|intros ?] | case_match ]. }
  intros rejected. destruct rejected; [apply keeps_ret|].
  destruct (_convert_jablotron_device_state_to_state _ _ _) as [device_state|] eqn:Hs;
    [|apply keeps_emit].
  apply device_state_known in Hs.
  case_match.
  - apply keeps_modify. intros e. apply R_update; [|by left].
    apply on_off_known. destruct (bool_decide (device_state = STATE_OFF)); auto.
  - apply keeps_bind; [apply keeps_lift|]. intros with_activity_sensor.
    repeat case_match; try apply keeps_emit;
      apply keeps_modify; intros e; (apply R_update; [by apply on_off_known|]);
      [apply device_sensor_id_not_saved|right; by eexists..].
Qed.

Lemma keeps_devices_rounds (bin_states : string) (l : list Z) e :
  R e (run_devices_rounds bin_states l e).
Proof.
  revert e. induction l as [|i l IH]; intros e; [apply R_refl|].
  rewrite run_devices_rounds_cons. eapply R_trans; [|apply IH].
  unfold devices_states_round.
  destruct (bool_decide (_ = "1")).
  - rewrite (bool_decide_false (STATE_ON = STATE_OFF)) by done. apply R_refl.
  - rewrite (bool_decide_true (STATE_OFF = STATE_OFF)) by done.
    apply R_update; [apply on_off_known; by right|apply device_sensor_id_not_saved].
Qed.

Lemma keeps_devices_states packet :
  keeps R
    (_parse_devices_states_packet
       byteorder DEVICE_KEYPAD DEVICE_SIREN_OUTDOOR DEVICE_OTHER DEVICE_EMPTY packet).
Proof.
  unfold _parse_devices_states_packet.
  apply keeps_bind.
  - case_match; [apply keeps_device_state|apply keeps_ret].
  - intros _. apply keeps_bind; [apply keeps_read|]. intros n.
    apply keeps_modify. intros e. apply keeps_devices_rounds.
Qed.

Lemma keeps_read_body packet :
  keeps R
    (read_packets_body
       byteorder MAX_SECTIONS DEVICE_KEYPAD DEVICE_SIREN_OUTDOOR DEVICE_OTHER DEVICE_EMPTY
       packet).
Proof.
  unfold read_packets_body.
  assert (Hall : ∀ b, keeps R (modify (set_last_update_success b)
                               >> modify _update_all_entities)).
  { intros b. apply keeps_bind; [|intros _];
      apply keeps_modify; intros e; by apply R_frame. }
  case_match; [apply Hall|].
  apply keeps_bind.
  { apply keeps_bind; [apply keeps_read|]. intros success.
    destruct (negb success); [apply Hall|apply keeps_ret]. }
  intros _. cbv zeta.
  case_match.
  { apply keeps_modify. intros e. apply keeps_section_states. }
  case_match.
  { apply keeps_bind; [apply keeps_device_state|]. intros _.
    apply keeps_for_each. intros i. case_match; [|apply keeps_ret].
    apply keeps_modify. intros e. apply keeps_section_states. }
  case_match; [apply keeps_devices_states|apply keeps_ret].
Qed.

Lemma keeps_read_round (r : ReadOutcome) e :
  R e
    (read_packets_round
       byteorder MAX_SECTIONS DEVICE_KEYPAD DEVICE_SIREN_OUTDOOR DEVICE_OTHER DEVICE_EMPTY
       r e).
Proof.
  unfold read_packets_round.
  assert (Hhandler : ∀ e1, R e1
            (_update_all_entities (set_last_update_success false (emit EvLogError e1))))
    by (intros e1; by apply R_frame).
  destruct r as [packet|x]; [|apply Hhandler].
  pose proof (keeps_read_body packet e) as Hbody.
  destruct (read_packets_body _ _ _ _ _ _ packet e) as [e1 [[]|x]]; cbn [fst] in Hbody;
    [exact Hbody|].
  eapply R_trans; [exact Hbody|apply Hhandler].
Qed.

Lemma keeps_read_packets (reads : list ReadOutcome) e :
  R e
    (_read_packets
       byteorder MAX_SECTIONS DEVICE_KEYPAD DEVICE_SIREN_OUTDOOR DEVICE_OTHER DEVICE_EMPTY
       reads e).
Proof.
  unfold _read_packets. revert e.
  induction reads as [|r reads IH]; intros e; [apply R_refl|].
  cbn [fold_left]. eapply R_trans; [|apply IH].
  apply keeps_read_round.
Qed.

End ReadLoopKeeps.

Lemma saved_kept_read_packets
    (order : ByteOrder) (MAX_SECTIONS : Z)
    (DEVICE_KEYPAD DEVICE_SIREN_OUTDOOR DEVICE_OTHER DEVICE_EMPTY : string)
    (reads : list ReadOutcome) (e : Engine) :
  saved_kept e
    (_read_packets
       order MAX_SECTIONS DEVICE_KEYPAD DEVICE_SIREN_OUTDOOR DEVICE_OTHER DEVICE_EMPTY
       reads e).
Proof.
  apply keeps_read_packets.
  - apply saved_kept_refl.
  - apply saved_kept_trans.
  - apply saved_kept_frame.
  - apply saved_kept_update_state.
Qed.

Lemma saved_current_stored_states (e : Engine) :
  saved_current e → stored_states e ⊆ states e.
Proof.
  unfold saved_current, stored_states.
  destruct (_stored_data e); try done; intros; try apply map_empty_subseteq. tauto.
Qed.



(** ** Set-up as a whole *)

Lemma roster_keeps_weaken (excluded more : list string) (c : Config) (number : Z) :
  roster_keeps (excluded ++ more) c number = true → roster_keeps excluded c number = true.
Proof.
  unfold roster_keeps. destruct (roster_type c number) as [type|]; [|done].
  rewrite !negb_true_iff, !bool_decide_eq_false, elem_of_app. tauto.
Qed.

Lemma create_lan_connection_result (j : Jablotron) :
  let j' := _create_lan_connection j in
  seeds_states (engine j) (engine j')
  ∧ trace (engine j') = trace (engine j)
  ∧ _alarm_control_panels j' = _alarm_control_panels j
  ∧ _section_problem_sensors j' = _section_problem_sensors j
  ∧ _device_sensors j' = _device_sensors j
  ∧ _device_problem_sensors j' = _device_problem_sensors j
  ∧ ((_central_unit_model (engine j) = "JA-101K-LAN"
      ∧ control_id <$> _lan_connection j' = Some _create_lan_connection_id
      ∧ states (engine j') !! _create_lan_connection_id
        = Some (stored_or_initial (engine j) _create_lan_connection_id STATE_ON))
     ∨ (_central_unit_model (engine j) ≠ "JA-101K-LAN" ∧ j' = j)).
Proof.
  cbv zeta. unfold _create_lan_connection, _get_lan_connection_device_number.
  case_bool_decide as Hmodel.
  - cbn [engine _alarm_control_panels _section_problem_sensors _device_sensors
         _device_problem_sensors _lan_connection].
    split; [apply seeds_states_set_initial_state|].
    split; [apply set_initial_state_frame|]. do 4 (split; [done|]).
    left. split; [done|]. split; [done|].
    rewrite set_initial_state_lookup. by rewrite decide_True.
  - split; [apply seeds_states_refl|]. do 5 (split; [done|]). by right.
Qed.

Lemma seeds_states_is_Some (e e' : Engine) (id : string) :
  seeds_states e e' → is_Some (states e !! id) → is_Some (states e' !! id).
Proof.
  intros (_ & _ & _ & _ & _ & Hsub & _) [v Hv]. exists v. by eapply lookup_weaken.
Qed.

Lemma control_ids_elem (j : Jablotron) (id : string) :
  id ∈ control_ids j
  ↔ id ∈ (control_id ∘ panel_control) <$> _alarm_control_panels j
    ∨ id ∈ control_id <$> _section_problem_sensors j
    ∨ id ∈ (control_id ∘ device_control) <$> _device_sensors j
    ∨ id ∈ control_id <$> _device_problem_sensors j
    ∨ control_id <$> _lan_connection j = Some id.
Proof.
  unfold control_ids. rewrite !elem_of_app.
  destruct (_lan_connection j) as [control|]; cbn [fmap option_fmap option_map].
  - rewrite list_elem_of_singleton.
    assert (Some (control_id control) = Some id ↔ id = control_id control) as ->; [|tauto].
    split; [by intros [= <-]|by intros ->].
  - rewrite elem_of_nil.
    assert (@None string = Some id ↔ False) as ->; [|tauto].
    split; [discriminate|done].
Qed.

(** X19. Set-up gives every control a state and keeps the states it
    finds.  Starting from an object whose controls all have a stored state
    (a new object has no controls), [_detect_sections],
    [_create_devices] and [_create_lan_connection] in this order only add
    states, log nothing but errors, and leave every control, old or new,
    with a stored state; the read loop keeps that true whatever it reads,
    so the property [state] of the entity of such a control never raises.
    The LAN connection control exists afterwards on a JA-101K-LAN. *)
Theorem setup_controls_have_state
    (order : ByteOrder) (MAX_SECTIONS : Z)
    (DEVICE_KEYPAD DEVICE_SIREN_OUTDOOR DEVICE_OTHER DEVICE_EMPTY : string)
    (DEVICES : list (string * string))
    (packet : bytes) (reads : list ReadOutcome) (j : Jablotron) :
  controls_have_state j →
  let j2 := (_detect_sections order MAX_SECTIONS (Some packet) j).1 in
  let run :=
    _create_devices
      DEVICE_KEYPAD DEVICE_SIREN_OUTDOOR DEVICE_OTHER DEVICE_EMPTY DEVICES j2 in
  run.2 = None →
  let j3 := _create_lan_connection run.1 in
  let j4 :=
    with_engine
      (_read_packets
         order MAX_SECTIONS DEVICE_KEYPAD DEVICE_SIREN_OUTDOOR DEVICE_OTHER DEVICE_EMPTY
         reads) j3 in
  controls_have_state j3
  ∧ controls_have_state j4
  ∧ (∀ id, id ∈ control_ids j4 → ∃ state, entity_state id (engine j4) = Ok state)
  ∧ seeds_states (engine j) (engine j3)
  ∧ (_central_unit_model (engine j) = "JA-101K-LAN" →
     control_id <$> _lan_connection j3 = Some _create_lan_connection_id).
Proof.
  intros Hold. cbv zeta. cbn [_detect_sections fst]. intros Hrun.
  set (found := _parse_sections_states_packet MAX_SECTIONS packet).
  destruct (detect_sections_fold order found j
              (parse_sections_states_packet_NoDup MAX_SECTIONS packet))
    as (Hseed2 & _ & Hpanels2 & Hsps2 & Hval2 & _ & Hds2 & Hdp2 & Hlan2 & _).
  set (j2 := fold_left (fun j entry => detect_sections_round order entry j) found j) in *.
  unfold _create_devices in *.
  assert (Hpos : Forall (fun i => 0 <= i)
                   (seqZ 0 (CONF_NUMBER_OF_DEVICES (_config (engine j2))))).
  { apply Forall_forall. intros i Hin%elem_of_seqZ. lia. }
  destruct (create_devices_loop_result DEVICE_KEYPAD DEVICE_SIREN_OUTDOOR DEVICE_OTHER
              DEVICE_EMPTY DEVICES _ j2 Hpos) as (_ & _ & Hres).
  rewrite seqZ_shift in Hres.
  destruct (Hres Hrun) as (Hdp3 & Hds3 & (Ht3 & Hc3 & He3 & Hd3 & Hm3 & Hl3) & Hstates3
                           & Hseeded3 & Hpanels3 & Hsps3 & Hlan3 & _).
  set (j3 := (create_devices_loop _ _ _ _ _ _ j2).1) in *.
  assert (Hseed3 : seeds_states (engine j2) (engine j3)).
  { repeat split; try done.
    - apply map_subseteq_spec. intros id v Hv.
      destruct (Hstates3 id) as [Heq|(Hn & _)]; congruence.
    - exists []. by rewrite app_nil_r. }
  destruct (create_lan_connection_result j3)
    as (Hseed4 & _ & Hpanels4 & Hsps4 & Hds4 & Hdp4 & Hlan4).
  set (j4 := _create_lan_connection j3) in *.
  assert (Hseed24 : seeds_states (engine j2) (engine j4))
    by (by eapply seeds_states_trans).
  assert (Hseed : seeds_states (engine j) (engine j4))
    by (by eapply seeds_states_trans).
  assert (Hmodel : _central_unit_model (engine j3) = _central_unit_model (engine j)).
  { destruct Hseed2 as (_ & Hm2 & _). congruence. }
  assert (Hall : controls_have_state j4).
  { apply Forall_forall. intros id Hin.
    pose proof (proj1 (Forall_forall _ _) Hold) as Hold'.
    assert (Hkeep : id ∈ control_ids j → is_Some (states (engine j4) !! id)).
    { intros Hid. eapply seeds_states_is_Some; [exact Hseed|by apply Hold']. }
    apply control_ids_elem in Hin.
    rewrite Hpanels4, Hsps4, Hds4, Hdp4, Hpanels3, Hsps3, Hds3, Hdp3, Hpanels2, Hsps2,
      Hds2, Hdp2 in Hin.
    rewrite !elem_of_app in Hin.
    destruct Hin as [[Hin|Hin]|[[Hin|Hin]|[[Hin|Hin]|[[Hin|Hin]|Hin]]]].
    - apply Hkeep, control_ids_elem. auto.
    - apply list_elem_of_fmap in Hin as (section & -> & Hin).
      apply list_elem_of_fmap in Hin as ([section' record] & -> & Hin).
      eapply seeds_states_is_Some; [exact Hseed24|].
      eexists. exact (proj1 (Hval2 section' record Hin)).
    - apply Hkeep, control_ids_elem. auto.
    - apply list_elem_of_fmap in Hin as (section & -> & Hin).
      apply list_elem_of_fmap in Hin as ([section' record] & -> & Hin).
      eapply seeds_states_is_Some; [exact Hseed24|].
      eexists. exact (proj2 (Hval2 section' record Hin)).
    - apply Hkeep, control_ids_elem. auto.
    - apply list_elem_of_fmap in Hin as (number & -> & Hin).
      eapply seeds_states_is_Some; [exact Hseed4|].
      refine (proj1 (Hseeded3 number _)). apply list_elem_of_In, List.filter_In.
      apply list_elem_of_In, List.filter_In in Hin as [Hin Hk].
      split; [done|].
      by apply (roster_keeps_weaken [DEVICE_KEYPAD; DEVICE_OTHER; DEVICE_EMPTY]
                  [DEVICE_SIREN_OUTDOOR]).
    - apply Hkeep, control_ids_elem. auto.
    - apply list_elem_of_fmap in Hin as (number & -> & Hin).
      eapply seeds_states_is_Some; [exact Hseed4|]. exact (proj2 (Hseeded3 number Hin)).
    - destruct Hlan4 as [(_ & Hid & Hstate)|(_ & Heq)].
      + rewrite Hid in Hin. injection Hin as <-. rewrite Hstate. by eexists.
      + rewrite Heq, Hlan3, Hlan2 in Hin. apply Hkeep, control_ids_elem. auto 10. }
  assert (Hloop : ∀ id, id ∈ control_ids j4 →
            is_Some (states (_read_packets order MAX_SECTIONS DEVICE_KEYPAD
                               DEVICE_SIREN_OUTDOOR DEVICE_OTHER DEVICE_EMPTY reads
                               (engine j4)) !! id)).
  { intros id Hin. destruct (proj1 (Forall_forall _ _) Hall id Hin) as [v Hv].
    destruct (stores_known_read_packets order MAX_SECTIONS DEVICE_KEYPAD DEVICE_SIREN_OUTDOOR
                DEVICE_OTHER DEVICE_EMPTY reads (engine j4)) as (_ & _ & _ & Hs).
    destruct (Hs id) as [->|(w & -> & _)]; eauto. }
  split; [exact Hall|]. split; [|split; [|split; [exact Hseed|]]].
  - apply Forall_forall. intros id Hin. by apply Hloop.
  - intros id Hin. cbn [with_engine engine]. unfold entity_state.
    destruct (Hloop id Hin) as [v ->]. by exists v.
  - intros Hlan. destruct Hlan4 as [(_ & Hid & _)|(Hne & _)]; [done|congruence].
Qed.

Lemma setup_controls_have_state_witness :
  controls_have_state
    (_create_lan_connection
       (_create_devices "keypad" "siren_outdoor" "other" "empty"
          [("motion", "Motion detector"); ("door", "Door detector")]
          (_detect_sections little 16
             (Some [x51; x22; x01; x00; x13; x00; x07; x00]) example_jablotron).1).1).
Proof.
  refine (proj1 (setup_controls_have_state
                   little 16 "keypad" "siren_outdoor" "other" "empty"
                   [("motion", "Motion detector"); ("door", "Door detector")]
                   [x51; x22; x01; x00; x13; x00; x07; x00] [] example_jablotron _ _)).
  - constructor.
  - vm_compute. reflexivity.
Defined.

(** ** Control ids *)

Lemma device_problem_sensor_id_inj (a b : Z) :
  _create_device_problem_sensor_id a = _create_device_problem_sensor_id b → a = b.
Proof.
  unfold _create_device_problem_sensor_id. intros H.
  apply (inj (String.app "device_problem_sensor_")) in H. by apply (inj pretty) in H.
Qed.

(** Ids of different kinds differ, whatever the numbers. *)
Lemma control_id_kinds (a b : Z) :
  _create_section_alarm_id a ≠ _create_device_sensor_id b
  ∧ _create_section_alarm_id a ≠ _create_device_problem_sensor_id b
  ∧ _create_section_alarm_id a ≠ _create_lan_connection_id
  ∧ _create_section_problem_sensor_id a ≠ _create_device_sensor_id b
  ∧ _create_section_problem_sensor_id a ≠ _create_device_problem_sensor_id b
  ∧ _create_section_problem_sensor_id a ≠ _create_lan_connection_id
  ∧ _create_device_sensor_id a ≠ _create_device_problem_sensor_id b
  ∧ _create_device_sensor_id a ≠ _create_lan_connection_id
  ∧ _create_device_problem_sensor_id a ≠ _create_lan_connection_id.
Proof.
  unfold _create_section_alarm_id, _create_section_problem_sensor_id,
    _create_device_sensor_id, _create_device_problem_sensor_id, _create_lan_connection_id.
  rewrite !append_cons. repeat split; intros H; discriminate H.
Qed.

Lemma NoDup_list_filter {A} (f : A → bool) (l : list A) :
  NoDup l → NoDup (List.filter f l).
Proof.
  induction 1 as [|x l Hx Hnd IH]; cbn [List.filter]; [constructor|].
  destruct (f x); [|done]. constructor; [|done].
  intros Hin. apply Hx. by apply list_elem_of_In, List.filter_In in Hin as [?%list_elem_of_In _].
Qed.

(** X20. Set-up creates controls with pairwise distinct ids.  On an
    object without controls, [_detect_sections], [_create_devices] and
    [_create_lan_connection] create exactly: an alarm control panel and a
    problem sensor for every section of the packet, a device sensor for
    every device that is neither ignored nor an outdoor siren, a problem
    sensor for every device that is not ignored, and the LAN connection
    on a JA-101K-LAN; no two of these controls share an id. *)
Theorem setup_control_ids_distinct
    (order : ByteOrder) (MAX_SECTIONS : Z)
    (DEVICE_KEYPAD DEVICE_SIREN_OUTDOOR DEVICE_OTHER DEVICE_EMPTY : string)
    (DEVICES : list (string * string)) (packet : bytes) (j : Jablotron) :
  control_ids j = [] →
  let j2 := (_detect_sections order MAX_SECTIONS (Some packet) j).1 in
  let run :=
    _create_devices
      DEVICE_KEYPAD DEVICE_SIREN_OUTDOOR DEVICE_OTHER DEVICE_EMPTY DEVICES j2 in
  run.2 = None →
  let j3 := _create_lan_connection run.1 in
  let c := _config (engine j) in
  let ignored := [DEVICE_KEYPAD; DEVICE_OTHER; DEVICE_EMPTY] in
  let sections := (_parse_sections_states_packet MAX_SECTIONS packet).*1 in
  let numbers := seqZ 1 (CONF_NUMBER_OF_DEVICES c) in
  control_ids j3
  = (_create_section_alarm_id <$> sections)
    ++ (_create_section_problem_sensor_id <$> sections)
    ++ (_create_device_sensor_id
          <$> List.filter (roster_keeps (ignored ++ [DEVICE_SIREN_OUTDOOR]) c) numbers)
    ++ (_create_device_problem_sensor_id <$> List.filter (roster_keeps ignored c) numbers)
    ++ (if bool_decide (_central_unit_model (engine j) = "JA-101K-LAN")
        then [_create_lan_connection_id] else [])
  ∧ NoDup (control_ids j3).
Proof.
  intros Hempty. cbv zeta. cbn [_detect_sections fst]. intros Hrun.
  unfold control_ids in Hempty.
  apply app_eq_nil in Hempty as [Hp0 Hempty]. apply app_eq_nil in Hempty as [Hs0 Hempty].
  apply app_eq_nil in Hempty as [Hd0 Hempty]. apply app_eq_nil in Hempty as [Hq0 Hl0].
  assert (Hlan0 : _lan_connection j = None) by (by destruct (_lan_connection j)).
  set (found := _parse_sections_states_packet MAX_SECTIONS packet).
  pose proof (parse_sections_states_packet_NoDup MAX_SECTIONS packet) as Hnd. fold found in Hnd.
  destruct (detect_sections_fold order found j Hnd)
    as (Hseed2 & _ & Hpanels2 & Hsps2 & _ & _ & Hds2 & Hdp2 & Hlan2 & _).
  set (j2 := fold_left (fun j entry => detect_sections_round order entry j) found j) in *.
  unfold _create_devices in *.
  assert (Hpos : Forall (fun i => 0 <= i)
                   (seqZ 0 (CONF_NUMBER_OF_DEVICES (_config (engine j2))))).
  { apply Forall_forall. intros i Hin%elem_of_seqZ. lia. }
  destruct (create_devices_loop_result DEVICE_KEYPAD DEVICE_SIREN_OUTDOOR DEVICE_OTHER
              DEVICE_EMPTY DEVICES _ j2 Hpos) as (_ & _ & Hres).
  rewrite seqZ_shift in Hres.
  destruct (Hres Hrun) as (Hdp3 & Hds3 & (_ & _ & _ & _ & Hm3 & _) & _ & _ & Hpanels3 & Hsps3
                           & Hlan3 & _).
  set (j3 := (create_devices_loop _ _ _ _ _ _ j2).1) in *.
  destruct Hseed2 as (Hc2 & Hm2 & _). rewrite Hc2 in Hdp3, Hds3.
  destruct (create_lan_connection_result j3)
    as (_ & _ & Hpanels4 & Hsps4 & Hds4 & Hdp4 & Hlan4).
  set (j4 := _create_lan_connection j3) in *.
  assert (Hids : control_ids j4
            = (_create_section_alarm_id <$> found.*1)
              ++ (_create_section_problem_sensor_id <$> found.*1)
              ++ (_create_device_sensor_id
                    <$> List.filter
                          (roster_keeps ([DEVICE_KEYPAD; DEVICE_OTHER; DEVICE_EMPTY]
                                         ++ [DEVICE_SIREN_OUTDOOR]) (_config (engine j)))
                          (seqZ 1 (CONF_NUMBER_OF_DEVICES (_config (engine j)))))
              ++ (_create_device_problem_sensor_id
                    <$> List.filter
                          (roster_keeps [DEVICE_KEYPAD; DEVICE_OTHER; DEVICE_EMPTY]
                             (_config (engine j)))
                          (seqZ 1 (CONF_NUMBER_OF_DEVICES (_config (engine j)))))
              ++ (if bool_decide (_central_unit_model (engine j) = "JA-101K-LAN")
                  then [_create_lan_connection_id] else [])).
  { unfold control_ids.
    rewrite Hpanels4, Hsps4, Hds4, Hdp4, Hpanels3, Hsps3, Hds3, Hdp3, Hpanels2, Hsps2,
      Hds2, Hdp2, Hp0, Hs0, Hd0, Hq0. cbn [app].
    do 4 f_equal.
    destruct Hlan4 as [(Hmodel & Hid & _)|(Hmodel & Heq)].
    - rewrite bool_decide_true by congruence.
      destruct (_lan_connection j4) as [control|]; [|discriminate].
      by injection Hid as ->.
    - rewrite bool_decide_false by congruence. by rewrite Heq, Hlan3, Hlan2, Hlan0. }
  split; [exact Hids|]. rewrite Hids.
  pose proof (NoDup_list_filter
                (roster_keeps ([DEVICE_KEYPAD; DEVICE_OTHER; DEVICE_EMPTY]
                               ++ [DEVICE_SIREN_OUTDOOR]) (_config (engine j)))
                _ (NoDup_seqZ 1 (CONF_NUMBER_OF_DEVICES (_config (engine j))))) as Hnd1.
  pose proof (NoDup_list_filter
                (roster_keeps [DEVICE_KEYPAD; DEVICE_OTHER; DEVICE_EMPTY] (_config (engine j)))
                _ (NoDup_seqZ 1 (CONF_NUMBER_OF_DEVICES (_config (engine j))))) as Hnd2.
  repeat (apply NoDup_app; split; [|split]).
  - apply NoDup_fmap_2_strong; [|done]. intros a b _ _. apply section_alarm_id_inj.
  - intros id (a & -> & _)%list_elem_of_fmap. rewrite !elem_of_app.
    destruct (control_id_kinds a a) as (_ & _ & Hl & _).
    intros [Hin|[Hin|[Hin|Hin]]].
    + apply list_elem_of_fmap in Hin as (b & Heq & _).
      by apply section_alarm_id_ne_problem_sensor_id in Heq.
    + apply list_elem_of_fmap in Hin as (b & Heq & _).
      by destruct (control_id_kinds a b) as (? & _).
    + apply list_elem_of_fmap in Hin as (b & Heq & _).
      by destruct (control_id_kinds a b) as (_ & ? & _).
    + case_bool_decide; [|by apply elem_of_nil in Hin].
      by apply list_elem_of_singleton in Hin.
  - apply NoDup_fmap_2_strong; [|done]. intros a b _ _. apply section_problem_sensor_id_inj.
  - intros id (a & -> & _)%list_elem_of_fmap. rewrite !elem_of_app.
    destruct (control_id_kinds a a) as (_ & _ & _ & _ & _ & Hl & _).
    intros [Hin|[Hin|Hin]].
    + apply list_elem_of_fmap in Hin as (b & Heq & _).
      by destruct (control_id_kinds a b) as (_ & _ & _ & ? & _).
    + apply list_elem_of_fmap in Hin as (b & Heq & _).
      by destruct (control_id_kinds a b) as (_ & _ & _ & _ & ? & _).
    + case_bool_decide; [|by apply elem_of_nil in Hin].
      by apply list_elem_of_singleton in Hin.
  - apply NoDup_fmap_2_strong; [|done]. intros a b _ _. apply device_sensor_id_inj.
  - intros id (a & -> & _)%list_elem_of_fmap. rewrite !elem_of_app.
    destruct (control_id_kinds a a) as (_ & _ & _ & _ & _ & _ & _ & Hl & _).
    intros [Hin|Hin].
    + apply list_elem_of_fmap in Hin as (b & Heq & _).
      by destruct (control_id_kinds a b) as (_ & _ & _ & _ & _ & _ & ? & _).
    + case_bool_decide; [|by apply elem_of_nil in Hin].
      by apply list_elem_of_singleton in Hin.
  - apply NoDup_fmap_2_strong; [|done]. intros a b _ _. apply device_problem_sensor_id_inj.
  - intros id (a & -> & _)%list_elem_of_fmap.
    destruct (control_id_kinds a a) as (_ & _ & _ & _ & _ & _ & _ & _ & Hl).
    intros Hin. case_bool_decide; [|by apply elem_of_nil in Hin].
    by apply list_elem_of_singleton in Hin.
  - case_bool_decide; [apply NoDup_singleton|apply NoDup_nil_2].
Qed.

Lemma setup_control_ids_distinct_witness :
  NoDup
    (control_ids
       (_create_lan_connection
          (_create_devices "keypad" "siren_outdoor" "other" "empty"
             [("motion", "Motion detector"); ("door", "Door detector")]
             (_detect_sections little 16
                (Some [x51; x22; x01; x00; x13; x00; x07; x00]) example_jablotron).1).1)).
Proof.
  refine (proj2 (setup_control_ids_distinct
                   little 16 "keypad" "siren_outdoor" "other" "empty"
                   [("motion", "Motion detector"); ("door", "Door detector")]
                   [x51; x22; x01; x00; x13; x00; x07; x00] example_jablotron _ _)).
  - reflexivity.
  - vm_compute. reflexivity.
Defined.

(** ** Entities *)

(** X21. Subscribing an entity makes it the receiver of the writes for its
    id: [substribe_entity_for_updates] adds the id once, keeps the earlier
    subscriptions in place and touches nothing else, after which a changing
    [_update_state] for the id writes the entity exactly once.  After the
    entity's own [update_state] its property [state] is the new value, one
    write has left the engine, and a packet that reports the same value
    changes nothing: no second write, and no save either. *)
Theorem subscribed_entity_is_notified
    (id state : string) (store_state : bool) (e : Engine) :
  let e1 := substribe_entity_for_updates id e in
  let e2 := entity_update_state id state e1 in
  id ∈ _entities e1
  ∧ substribe_entity_for_updates id e1 = e1
  ∧ (∃ added, _entities e1 = _entities e ++ added
              ∧ added = if bool_decide (id ∈ _entities e) then [] else [id])
  ∧ (NoDup (_entities e) → NoDup (_entities e1))
  ∧ states e1 = states e
  ∧ trace e1 = trace e
  ∧ _stored_data e1 = _stored_data e
  ∧ (states e !! id ≠ Some state →
     count_writes id (trace (_update_state id state store_state e1))
     = S (count_writes id (trace e)))
  ∧ entity_state id e2 = Ok state
  ∧ trace e2 = trace e ++ [EvWriteHaState id]
  ∧ _update_state id state store_state e2 = e2.
Proof.
  cbv zeta.
  assert (Hin : id ∈ _entities (substribe_entity_for_updates id e)).
  { unfold substribe_entity_for_updates. case_bool_decide as Hsub; [done|].
    cbn [_entities]. apply elem_of_app. right. by left. }
  assert (Hframe : states (substribe_entity_for_updates id e) = states e
                   ∧ trace (substribe_entity_for_updates id e) = trace e
                   ∧ _stored_data (substribe_entity_for_updates id e) = _stored_data e).
  { unfold substribe_entity_for_updates. by case_bool_decide. }
  destruct Hframe as (Hs & Ht & Hd).
  split; [exact Hin|]. split.
  { unfold substribe_entity_for_updates at 1. by rewrite bool_decide_true. }
  split.
  { unfold substribe_entity_for_updates. eexists. split; [|reflexivity].
    case_bool_decide; [by rewrite app_nil_r|done]. }
  split.
  { intros Hnd. unfold substribe_entity_for_updates. case_bool_decide as Hsub; [done|].
    cbn [_entities]. apply NoDup_app. split; [done|]. split; [|apply NoDup_singleton].
    intros id' Hid' ->%list_elem_of_singleton. done. }
  do 3 (split; [done|]). split.
  { intros Hne. rewrite update_state_trace, Hs, Ht.
    rewrite bool_decide_false by done. rewrite (bool_decide_true _ Hin).
    unfold count_writes. rewrite !filter_app, !length_app.
    rewrite filter_cons_True by done. rewrite filter_nil.
    assert (length (filter (fun ev => ev = EvWriteHaState id)
                      (if store_state then [EvDelaySave] else [])) = 0%nat) as ->.
    { destruct store_state; [|done]. by rewrite filter_cons_False. }
    cbn [length]. lia. }
  split.
  { unfold entity_state, entity_update_state. cbn [emit set_states states].
    by rewrite lookup_insert_eq. }
  split.
  { unfold entity_update_state. cbn [emit set_states trace]. by rewrite Ht. }
  apply update_state_unchanged. unfold entity_update_state. cbn [emit set_states states].
  by rewrite lookup_insert_eq.
Qed.
